(** * X-Road metrics agent: acquisition and analytics pipeline

    A shallow embedding of [agente-xroad-metrics.py] (classes
    [XRoadMetricsClient] and [EnhancedXRoadAgent]) together with the
    properties the specification states about it.

    Conventions of the embedding:
    - a Python exception is a value of [exn]; code that may raise returns
      an [outcome];
    - the agent (data store, logger, sleeping) threads a [world] through
      a small state-and-exception monad [M], in which
      [try ... except Exception] is [try_catch];
    - a [float] is an IEEE-754 binary64 value ([spec_float], precision 53,
      round to nearest even), computed with the operations of [SpecFloat];
    - a naive [datetime] is the count of microseconds between
      1970-01-01T00:00:00 and the wall-clock reading it denotes, with its
      [fold] flag; equality, order and subtraction of datetimes act on the
      count;
    - a [str] is held as its UTF-8 encoding;
    - a dict with string keys is a [gmap string _];
    - library routines whose behaviour is outside this repository (the XML
      reader, [float()] on text, the zone rules of the host) are the fields
      of the class [Runtime]. *)

From Stdlib Require Import ZArith String Ascii List Lia SpecFloat DecimalString.
From stdpp Require Import gmap strings list fin_maps.

Set Warnings "-register-all".
Local Open Scope Z_scope.

(** ** Exceptions and outcomes *)

(** The exception classes that occur.  [KeyboardInterrupt] and [SystemExit]
    derive from [BaseException] only; every other one derives from
    [Exception]. *)
Inductive exn : Type :=
| KeyboardInterrupt
| SystemExit
| ParseError
| TypeError
| ValueError
| AttributeError
| IndexError
| OverflowError
| ZeroDivisionError
| ConnectionError
| Timeout
| IntegrityError
| OperationalError.

Definition is_Exception (e : exn) : bool :=
  match e with
  | KeyboardInterrupt | SystemExit => false
  | _ => true
  end.

Inductive outcome (A : Type) : Type :=
| Returned (a : A)
| Raised (e : exn).
Arguments Returned {A} a.
Arguments Raised {A} e.

Definition obind {A B} (x : outcome A) (k : A -> outcome B) : outcome B :=
  match x with
  | Returned a => k a
  | Raised e => Raised e
  end.

Declare Scope outcome_scope.
Delimit Scope outcome_scope with outcome.
Notation "'let!' x ':=' c 'in' k" := (obind c (fun x => k))
  (at level 10, x binder, c at level 100, k at level 200) : outcome_scope.

(** ** Strings *)

Module PyStr.

(** [s.split(c)] for a one-character separator: never empty. *)
Fixpoint split (c : ascii) (s : string) : list string :=
  match s with
  | EmptyString => [EmptyString]
  | String a rest =>
      if Ascii.eqb a c then EmptyString :: split c rest
      else match split c rest with
           | [] => [String a EmptyString]
           | seg :: segs => String a seg :: segs
           end
  end.

(** [l[i]] on a list, for a non-negative literal index. *)
Definition index {A} (l : list A) (i : nat) : outcome A :=
  match nth_error l i with
  | Some x => Returned x
  | None => Raised IndexError
  end.

(** Code points of a text held as UTF-8; [-1] stands for bytes that are
    the encoding of no character. *)
Definition continuation (a : ascii) : option Z :=
  let n := Z.of_nat (nat_of_ascii a) in
  if (128 <=? n) && (n <? 192) then Some (n - 128) else None.

Definition scalar (least c : Z) : Z :=
  if (c <? least) || (1114111 <? c) || ((55296 <=? c) && (c <=? 57343)) then -1 else c.

Fixpoint code_points (s : string) : list Z :=
  match s with
  | EmptyString => []
  | String a r1 =>
      let n := Z.of_nat (nat_of_ascii a) in
      if n <? 128 then n :: code_points r1
      else if n <? 192 then -1 :: code_points r1
      else if n <? 224 then
        match r1 with
        | String b r2 =>
            match continuation b with
            | Some x => scalar 128 ((n - 192) * 64 + x) :: code_points r2
            | None => -1 :: code_points r1
            end
        | EmptyString => [-1]
        end
      else if n <? 240 then
        match r1 with
        | String b (String c r3) =>
            match continuation b, continuation c with
            | Some x, Some y =>
                scalar 2048 ((n - 224) * 4096 + x * 64 + y) :: code_points r3
            | _, _ => -1 :: code_points r1
            end
        | _ => [-1]
        end
      else
        match r1 with
        | String b (String c (String d r4)) =>
            match continuation b, continuation c, continuation d with
            | Some x, Some y, Some z =>
                scalar 65536 ((n - 240) * 262144 + x * 4096 + y * 64 + z) :: code_points r4
            | _, _, _ => -1 :: code_points r1
            end
        | _ => [-1]
        end
  end.

(** The white space [int()] skips: the characters [str.isspace] accepts,
    but for the four separators U+001C to U+001F. *)
Definition is_space (c : Z) : bool :=
  ((9 <=? c) && (c <=? 13)) || (c =? 32) || (c =? 133) || (c =? 160) || (c =? 5760)
  || ((8192 <=? c) && (c <=? 8202)) || (c =? 8232) || (c =? 8233) || (c =? 8239)
  || (c =? 8287) || (c =? 12288).

(** The zeros of the decimal digits of Unicode 14; the nine other digits
    of a script follow its zero. *)
Definition decimal_zeros : list Z :=
  [48; 1632; 1776; 1984; 2406; 2534; 2662; 2790; 2918; 3046;
   3174; 3302; 3430; 3558; 3664; 3792; 3872; 4160; 4240; 6112;
   6160; 6470; 6608; 6784; 6800; 6992; 7088; 7232; 7248; 42528;
   43216; 43264; 43472; 43504; 43600; 44016; 65296; 66720; 68912; 69734;
   69872; 69942; 70096; 70384; 70736; 70864; 71248; 71360; 71472; 71904;
   72016; 72784; 73040; 73120; 92768; 92864; 93008; 120782; 120792; 120802;
   120812; 120822; 123200; 123632; 125264; 130032].

Definition digit_of (c : Z) : option Z :=
  match List.find (fun z => (z <=? c) && (c <? z + 10)) decimal_zeros with
  | Some z => Some (c - z)
  | None => None
  end.

Fixpoint lstrip (l : list Z) : list Z :=
  match l with
  | c :: rest => if is_space c then lstrip rest else l
  | [] => []
  end.

Definition strip (l : list Z) : list Z := List.rev (lstrip (List.rev (lstrip l))).

(** Decimal digits with single underscores allowed between digits: the
    value and the number of digits. *)
Fixpoint digits (l : list Z) (acc : Z) (count : nat) (after_digit : bool)
  : option (Z * nat) :=
  match l with
  | [] => if after_digit then Some (acc, count) else None
  | c :: rest =>
      if c =? 95
      then (if after_digit then digits rest acc count false else None)
      else match digit_of c with
           | Some d => digits rest (10 * acc + d) (S count) true
           | None => None
           end
  end.

(** The most digits [int()] converts ([sys.int_info.default_max_str_digits]). *)
Definition max_str_digits : nat := 4300.

(** [int(s)] for a [str]: surrounding white space, an optional sign,
    decimal digits of any script, at most 4300 of them. *)
Definition int_of_str (s : string) : outcome Z :=
  let body := strip (code_points s) in
  let '(neg, ds) :=
    match body with
    | c :: rest =>
        if c =? 45 then (true, rest)
        else if c =? 43 then (false, rest)
        else (false, body)
    | [] => (false, body)
    end in
  match digits ds 0 0 false with
  | Some (v, count) =>
      if (max_str_digits <? count)%nat then Raised ValueError
      else Returned (if neg then - v else v)
  | None => Raised ValueError
  end.

(** [int(e.text)]: the text of an element is [None] when the element is
    empty, and [int(None)] raises [TypeError]. *)
Definition int (text : option string) : outcome Z :=
  match text with
  | Some s => int_of_str s
  | None => Raised TypeError
  end.

(** [str(n)] for an [int]. *)
Definition of_int (n : Z) : string := NilZero.string_of_int (Z.to_int n).

Definition lower_char (a : ascii) : ascii :=
  let n := nat_of_ascii a in
  if ((65 <=? n)%nat && (n <=? 90)%nat)%bool then ascii_of_nat (n + 32) else a.

(** [s.lower()], on ASCII letters: no other character has a lower case
    among the letters of the one word the result is compared with. *)
Fixpoint lower (s : string) : string :=
  match s with
  | EmptyString => EmptyString
  | String a rest => String (lower_char a) (lower rest)
  end.

(** The double-quote character, as a string. *)
Definition dq : string := String (ascii_of_nat 34) EmptyString.

(** A non-negative number in at least [w] decimal digits, as the
    [%m], [%d], [%H], [%M], [%S] and [%Y] directives print it. *)
Definition zero_pad (w : nat) (n : Z) : string :=
  let s := of_int n in
  String.concat EmptyString (repeat "0"%string (w - String.length s)) +:+ s.

End PyStr.

(** ** Binary64 arithmetic *)

Module PyFloat.

Definition prec : Z := 53.
Definition emax : Z := 1024.

(** [float(n)] for an [int] (correctly rounded). *)
Definition of_int (n : Z) : spec_float := binary_normalize prec emax n 0 false.

Definition exact (n : Z) : spec_float :=
  match n with
  | Z0 => S754_zero false
  | Zpos p => S754_finite false p 0
  | Zneg p => S754_finite true p 0
  end.

(** [a / b] on two [int]s: the correctly rounded quotient. *)
Definition truediv (a b : Z) : outcome spec_float :=
  if b =? 0 then Raised ZeroDivisionError
  else match SFdiv prec emax (exact a) (exact b) with
       | S754_infinity _ => Raised OverflowError
       | q => Returned q
       end.

Definition mul (x y : spec_float) : spec_float := SFmul prec emax x y.
Definition add (x y : spec_float) : spec_float := SFadd prec emax x y.

(** The magnitude [m * 2^e] cut to an integer, and what is cut off. *)
Definition int_part (m : positive) (e : Z) : Z :=
  if 0 <=? e then Zpos m * 2 ^ e else Zpos m / 2 ^ (- e).
Definition frac_num (m : positive) (e : Z) : Z :=
  if 0 <=? e then 0 else Zpos m mod 2 ^ (- e).

Definition signed (s : bool) (n : Z) : Z := if s then - n else n.

(** [int(x)]: truncation towards zero. *)
Definition trunc (x : spec_float) : outcome Z :=
  match x with
  | S754_zero _ => Returned 0
  | S754_finite s m e => Returned (signed s (int_part m e))
  | S754_infinity _ => Raised OverflowError
  | S754_nan => Raised ValueError
  end.

(** C's [modf] on a finite value: integral part and fractional part,
    both exact. *)
Definition modf (x : spec_float) : Z * spec_float :=
  match x with
  | S754_finite s m e =>
      (signed s (int_part m e),
       binary_normalize prec emax (signed s (frac_num m e)) (Z.min e 0) s)
  | _ => (0, x)
  end.

(** Rounding to the nearest integer, ties to even. *)
Definition round_half_even (x : spec_float) : Z :=
  match x with
  | S754_finite s m e =>
      if 0 <=? e then signed s (Zpos m * 2 ^ e)
      else
        let q := Zpos m / 2 ^ (- e) in
        let r := Zpos m mod 2 ^ (- e) in
        let up :=
          match 2 * r ?= 2 ^ (- e) with
          | Lt => false
          | Gt => true
          | Eq => Z.odd q
          end in
        signed s (if up then q + 1 else q)
  | _ => 0
  end.

End PyFloat.

(** ** XML element trees *)

(** An [xml.etree.ElementTree.Element] as far as the agent reads it: the
    qualified tag in the library's [{uri}local] notation, the text before
    the first child ([None] for an empty element) and the children in
    document order. *)
Inductive element : Type :=
| Element (tag : string) (text : option string) (children : list element).

Module ET.

Definition tag (e : element) : string := let 'Element t _ _ := e in t.
Definition text (e : element) : option string := let 'Element _ x _ := e in x.
Definition children (e : element) : list element := let 'Element _ _ c := e in c.

(** [e.iter()]: the element and all its descendants, in document order. *)
Fixpoint iter (e : element) : list element :=
  match e with
  | Element _ _ cs =>
      e :: (fix over (l : list element) : list element :=
              match l with
              | [] => []
              | c :: l' => iter c ++ over l'
              end) cs
  end.

Definition has_tag (t : string) (e : element) : bool := String.eqb (tag e) t.

(** The step [.//t]: every proper descendant with tag [t]. *)
Definition descendants (t : string) (e : element) : list element :=
  List.filter (has_tag t) (List.tl (iter e)).

(** [e.find('.//t')]. *)
Definition find (t : string) (e : element) : option element :=
  List.hd_error (descendants t e).

(** [e.findall('.//a/b')]: the [b] children of every [a] descendant. *)
Definition findall (a b : string) (e : element) : list element :=
  List.flat_map (fun p => List.filter (has_tag b) (children p)) (descendants a e).

(** The prefix map [ns] of the parser, applied: [m:name] and [id:name]. *)
Definition m (name : string) : string := "{http://x-road.eu/xsd/monitoring}" +:+ name.
Definition id (name : string) : string := "{http://x-road.eu/xsd/identifiers}" +:+ name.

End ET.

(** ** The host: routines from outside the repository *)

Class Runtime : Type := {
  (** [ET.fromstring]: raises (a [ParseError]) on text that is not
      well-formed XML *)
  ET_fromstring : string -> outcome element;
  (** [float(e.text)] *)
  float_of_text : option string -> outcome spec_float;
  (** seconds east of UTC that the host's zone rules give at an epoch second *)
  utcoffset : Z -> Z
}.

(** ** Naive datetimes *)

Record datetime : Type := { wall : Z; fold : bool }.

Module DT.

Definition max_fold_seconds : Z := 24 * 3600.
Definition min_wall_seconds : Z := -62135596800.   (* 0001-01-01 00:00:00 *)
Definition max_wall_seconds : Z := 253402300799.   (* 9999-12-31 23:59:59 *)

Definition in_range (secs : Z) : bool :=
  (min_wall_seconds <=? secs) && (secs <=? max_wall_seconds).

Section Zone.
Context {RT : Runtime}.

(** Wall-clock second shown at an epoch second. *)
Definition local (u : Z) : Z := u + utcoffset u.

(** [datetime.fromtimestamp(x)] for a float [x]: the seconds are split
    off, the fraction is rounded half-even to microseconds, the zone
    rules give the wall clock, and the year has to lie in 1..9999, also
    one day earlier, where the library probes for a repeated hour.
    (A reading outside the platform's range raises [OverflowError] or
    [OSError]; both are [Exception]s, the model raises [OverflowError]
    or [ValueError].) *)
Definition fromtimestamp (x : spec_float) : outcome datetime :=
  match x with
  | S754_nan => Raised ValueError
  | S754_infinity _ => Raised OverflowError
  | _ =>
      let '(ip, fr) := PyFloat.modf x in
      let us0 := PyFloat.round_half_even (PyFloat.mul fr (PyFloat.of_int 1000000)) in
      let '(timet, us) :=
        if 1000000 <=? us0 then (ip + 1, us0 - 1000000)
        else if us0 <? 0 then (ip - 1, us0 + 1000000)
        else (ip, us0) in
      if negb ((- 2 ^ 63 <=? timet) && (timet <? 2 ^ 63)) then Raised OverflowError
      else
        let result_seconds := local timet in
        if negb (in_range result_seconds) then Raised ValueError
        else
          let probe_seconds := local (timet - max_fold_seconds) in
          if negb (in_range probe_seconds) then Raised ValueError
          else
            let transition := result_seconds - probe_seconds - max_fold_seconds in
            let fold :=
              if transition <? 0
              then local (timet + transition) =? result_seconds
              else false in
            Returned {| wall := result_seconds * 1000000 + us; fold := fold |}
  end.

(** The library's [local(u)]: the wall-clock second shown at [u], a
    [ValueError] when its year is not in 1..9999. *)
Definition local_checked (u : Z) : outcome Z :=
  let t := local u in
  if in_range t then Returned t else Raised ValueError.

(** The epoch second of a wall-clock second (the library's
    [local_to_seconds]): it asks for the wall clock at the second itself,
    at a first solution, a day before (or after) it, and at a second
    solution, and fails when one of these lies outside the calendar. *)
Definition local_to_seconds (t : Z) (fold : bool) : outcome Z :=
  (let! lt := local_checked t in
   let a := lt - t in
   let u1 := t - a in
   let! t1 := local_checked u1 in
   let! b :=
     if t1 =? t then
       let u2 := if fold then u1 + max_fold_seconds else u1 - max_fold_seconds in
       let! lt2 := local_checked u2 in
       Returned (lt2 - u2)
     else Returned (t1 - u1) in
   if (t1 =? t) && (a =? b) then Returned u1
   else
     let u2 := t - b in
     let! t2 := local_checked u2 in
     Returned (if t2 =? t then u2
               else if t1 =? t then u1
               else if fold then Z.min u1 u2 else Z.max u1 u2))%outcome.

(** [d.timestamp()] of a naive datetime. *)
Definition timestamp (d : datetime) : outcome spec_float :=
  let secs := wall d / 1000000 in
  let us := wall d mod 1000000 in
  (let! u := local_to_seconds secs (fold d) in
   Returned (PyFloat.add (PyFloat.of_int u)
                         (SFdiv PyFloat.prec PyFloat.emax
                                (PyFloat.of_int us) (PyFloat.of_int 1000000))))%outcome.

(** [int(d.timestamp())]. *)
Definition epoch_seconds (d : datetime) : outcome Z :=
  (let! x := timestamp d in PyFloat.trunc x)%outcome.

End Zone.

(** [d - timedelta(...)], the span given in microseconds. *)
Definition minus (d : datetime) (span : Z) : outcome datetime :=
  let w := wall d - span in
  if in_range (w / 1000000) then Returned {| wall := w; fold := false |}
  else Raised OverflowError.

(** [(d1 - d2)] as a [timedelta], in microseconds. *)
Definition diff (d1 d2 : datetime) : Z := wall d1 - wall d2.

(** [td.total_seconds()]. *)
Definition total_seconds (td : Z) : outcome spec_float := PyFloat.truediv td 1000000.

(** Year, month and day of a day count from 1970-01-01 (proleptic
    Gregorian calendar). *)
Definition civil (days : Z) : Z * Z * Z :=
  let z := days + 719468 in
  let era := z / 146097 in
  let doe := z - era * 146097 in
  let yoe := (doe - doe / 1460 + doe / 36524 - doe / 146096) / 365 in
  let doy := doe - (365 * yoe + yoe / 4 - yoe / 100) in
  let mp := (5 * doy + 2) / 153 in
  let d := doy - (153 * mp + 2) / 5 + 1 in
  let m := if mp <? 10 then mp + 3 else mp - 9 in
  let y := yoe + era * 400 + (if m <=? 2 then 1 else 0) in
  (y, m, d).

(** [d.strftime('%Y%m%d%H%M%S')].  The year is printed in four digits;
    for a year before 1000 the C library of the host may print fewer. *)
Definition strftime_compact (d : datetime) : string :=
  let secs := wall d / 1000000 in
  let '(y, mo, dd) := civil (secs / 86400) in
  let sod := secs mod 86400 in
  PyStr.zero_pad 4 y +:+ PyStr.zero_pad 2 mo +:+ PyStr.zero_pad 2 dd +:+
  PyStr.zero_pad 2 (sod / 3600) +:+ PyStr.zero_pad 2 (sod mod 3600 / 60) +:+
  PyStr.zero_pad 2 (sod mod 60).

End DT.

(** A host on UTC with a given XML reader, whose [float()] reads decimal
    integers only: enough to run the agent on concrete inputs. *)
Definition utc_host (reader : string -> outcome element) : Runtime := {|
  ET_fromstring := reader;
  float_of_text := fun t =>
    (let! n := PyStr.int t in Returned (PyFloat.of_int n))%outcome;
  utcoffset := fun _ => 0
|}.

(** ** Data model *)

(** The dataclass [XRoadOperationalData].  The two identifiers hold the
    text of an element, which is [None] for an empty element; the parser
    also stores [None] in [request_timestamp]. *)
Record XRoadOperationalData : Type := {
  service_id : option string;
  client_id : option string;
  producer_id : string;
  request_timestamp : option datetime;
  response_timestamp : option datetime;
  request_size : Z;
  response_size : Z;
  success : bool;
  error_message : option string;
  request_duration : option Z
}.

(** Values of the dicts the health parser builds. *)
Inductive pyval : Type :=
| PNone
| PInt (n : Z)
| PFloat (x : spec_float)
| PStr (s : string)
| PList (l : list pyval)
| PDict (d : gmap string pyval).

(** A row of table [operational_data] and a row of table [health_data].
    The surrogate key [id] and the insertion time ([created_at],
    [timestamp]), which the agent never reads back, are left out: a table is
    the bag of its rows, in insertion order.  A stored datetime is kept as
    its microsecond count; SQLite compares the ISO texts the adapter writes,
    and their order is the order of the counts. *)
Record operational_row : Type := {
  op_service_id : string;
  op_client_id : string;
  op_producer_id : string;
  op_request_timestamp : option Z;
  op_response_timestamp : option Z;
  op_request_size : Z;
  op_response_size : Z;
  op_success : bool;
  op_error_message : option string;
  op_request_duration : option Z
}.

Record health_row : Type := {
  h_service_code : string;
  h_last_successful_request : option Z;
  h_last_unsuccessful_request : option Z;
  h_successful_count : Z;
  h_unsuccessful_count : Z;
  h_avg_duration : option spec_float
}.

(** ** The agent's world and its monad *)

Inductive level : Type := INFO | WARNING | ERROR.

(** A call of the logger: the level, the message as the source writes it
    (placeholders not filled in) and the exception it reports, if any. *)
Record log_record : Type := { lvl : level; msg : string; cause : option exn }.

Record world : Type := {
  tbl_operational_data : list operational_row;
  tbl_health_data : list health_row;
  journal : list log_record;       (* calls of the logger, oldest first *)
  naps : list Z                    (* completed [time.sleep] calls, in seconds *)
}.

Definition M (A : Type) : Type := world -> outcome A * world.

Definition ret {A} (a : A) : M A := fun w => (Returned a, w).
Definition raise {A} (e : exn) : M A := fun w => (Raised e, w).
Definition lift {A} (x : outcome A) : M A := fun w => (x, w).

Definition bind {A B} (c : M A) (k : A -> M B) : M B :=
  fun w =>
    match c w with
    | (Returned a, w') => k a w'
    | (Raised e, w') => (Raised e, w')
    end.

Declare Scope agent_scope.
Delimit Scope agent_scope with agent.
Notation "'let!' x ':=' c 'in' k" := (bind c (fun x => k))
  (at level 10, x binder, c at level 100, k at level 200) : agent_scope.

(** [try: body except Exception as e: handler e] with the world threaded
    through: what the body did before raising stays done. *)
Definition try_catch {A} (body : M A) (handler : exn -> M A) : M A :=
  fun w =>
    match body w with
    | (Returned a, w') => (Returned a, w')
    | (Raised e, w') => if is_Exception e then handler e w' else (Raised e, w')
    end.

Definition logger (l : level) (m : string) (c : option exn) : M unit :=
  fun w =>
    (Returned tt,
     {| tbl_operational_data := tbl_operational_data w;
        tbl_health_data := tbl_health_data w;
        journal := journal w ++ [{| lvl := l; msg := m; cause := c |}];
        naps := naps w |}).

Definition empty_world : world :=
  {| tbl_operational_data := []; tbl_health_data := []; journal := []; naps := [] |}.

(** ** The metrics client *)

(** The client object: the configuration keys it reads.  [timeout],
    [ssl_verify] and [xroad_instance] are optional keys of the dict. *)
Record XRoadMetricsClient : Type := {
  xroad_server : string;
  self_client_id : string;
  timeout : option Z;
  ssl_verify : option bool;
  xroad_instance : option string
}.

Record response : Type := { status_code : Z; response_text : string }.

(** What [requests.post] does with a request body: it returns a response
    or raises. *)
Definition transport : Type := string -> outcome response.

(** Truth value of a [str]. *)
Definition nonempty (s : string) : bool :=
  match s with EmptyString => false | _ => true end.

(** The two places of a compact identifier that the request templates
    read: [s.split('/')[1]] and [s.split('/')[2]]. *)
Definition member_class (s : string) : outcome string :=
  PyStr.index (PyStr.split "/" s) 1.

Definition member_code (s : string) : outcome string :=
  PyStr.index (PyStr.split "/" s) 2.

Section Client.
Context {RT : Runtime}.
Variable self : XRoadMetricsClient.

Local Open Scope outcome_scope.

Definition instance : string := default "DEV"%string (xroad_instance self).

(** The [m:client] clause of the search criteria. *)
Definition client_filter_clause (client_filter : option string) : outcome string :=
  match client_filter with
  | Some f =>
      if nonempty f then
        let! filter_class := member_class f in
        let! filter_code := member_code f in
        Returned (String.concat EmptyString
    ["
            <m:client>
                <id:xRoadInstance>";
     instance;
     "</id:xRoadInstance>
                <id:memberClass>";
     filter_class;
     "</id:memberClass>
                <id:memberCode>";
     filter_code;
     "</id:memberCode>
            </m:client>
            "])
      else Returned EmptyString
  | None => Returned EmptyString
  end.

(** [now] is the reading of [datetime.now()] inside the template. *)
Definition _build_operational_data_request
    (records_from records_to : datetime) (client_filter : option string)
    (now : datetime) : outcome string :=
  let! from_ts := DT.epoch_seconds records_from in
  let! to_ts := DT.epoch_seconds records_to in
  let! client_filter_xml := client_filter_clause client_filter in
  let! client_class := member_class (self_client_id self) in
  let! client_code := member_code (self_client_id self) in
  Returned (String.concat EmptyString
    ["<?xml version=";
     PyStr.dq;
     "1.0";
     PyStr.dq;
     " encoding=";
     PyStr.dq;
     "UTF-8";
     PyStr.dq;
     "?>
<SOAP-ENV:Envelope 
    xmlns:SOAP-ENV=";
     PyStr.dq;
     "http://schemas.xmlsoap.org/soap/envelope/";
     PyStr.dq;
     " 
    xmlns:id=";
     PyStr.dq;
     "http://x-road.eu/xsd/identifiers";
     PyStr.dq;
     " 
    xmlns:m=";
     PyStr.dq;
     "http://x-road.eu/xsd/monitoring";
     PyStr.dq;
     " 
    xmlns:xrd=";
     PyStr.dq;
     "http://x-road.eu/xsd/xroad.xsd";
     PyStr.dq;
     ">
    <SOAP-ENV:Header>
        <xrd:client id:objectType=";
     PyStr.dq;
     "MEMBER";
     PyStr.dq;
     ">
            <id:xRoadInstance>";
     instance;
     "</id:xRoadInstance>
            <id:memberClass>";
     client_class;
     "</id:memberClass>
            <id:memberCode>";
     client_code;
     "</id:memberCode>
        </xrd:client>
        <xrd:service id:objectType=";
     PyStr.dq;
     "SERVICE";
     PyStr.dq;
     ">
            <id:xRoadInstance>";
     instance;
     "</id:xRoadInstance>
            <id:memberClass>GOV</id:memberClass>
            <id:memberCode>MONITORING</id:memberCode>
            <id:serviceCode>getSecurityServerOperationalData</id:serviceCode>
        </xrd:service>
        <xrd:id>";
     DT.strftime_compact now;
     "</xrd:id>
        <xrd:protocolVersion>4.0</xrd:protocolVersion>
    </SOAP-ENV:Header>
    <SOAP-ENV:Body>
        <m:getSecurityServerOperationalData>
            <m:searchCriteria>
                <m:recordsFrom>";
     PyStr.of_int from_ts;
     "</m:recordsFrom>
                <m:recordsTo>";
     PyStr.of_int to_ts;
     "</m:recordsTo>
                ";
     client_filter_xml;
     "
            </m:searchCriteria>
        </m:getSecurityServerOperationalData>
    </SOAP-ENV:Body>
</SOAP-ENV:Envelope>"]).

Definition _build_health_data_request (server_id : option string) (now : datetime)
  : outcome string :=
  let! client_class := member_class (self_client_id self) in
  let! client_code := member_code (self_client_id self) in
  Returned (String.concat EmptyString
    ["<?xml version=";
     PyStr.dq;
     "1.0";
     PyStr.dq;
     " encoding=";
     PyStr.dq;
     "UTF-8";
     PyStr.dq;
     "?>
<SOAP-ENV:Envelope 
    xmlns:SOAP-ENV=";
     PyStr.dq;
     "http://schemas.xmlsoap.org/soap/envelope/";
     PyStr.dq;
     " 
    xmlns:id=";
     PyStr.dq;
     "http://x-road.eu/xsd/identifiers";
     PyStr.dq;
     " 
    xmlns:m=";
     PyStr.dq;
     "http://x-road.eu/xsd/monitoring";
     PyStr.dq;
     " 
    xmlns:xrd=";
     PyStr.dq;
     "http://x-road.eu/xsd/xroad.xsd";
     PyStr.dq;
     ">
    <SOAP-ENV:Header>
        <xrd:client id:objectType=";
     PyStr.dq;
     "MEMBER";
     PyStr.dq;
     ">
            <id:xRoadInstance>";
     instance;
     "</id:xRoadInstance>
            <id:memberClass>";
     client_class;
     "</id:memberClass>
            <id:memberCode>";
     client_code;
     "</id:memberCode>
        </xrd:client>
        <xrd:service id:objectType=";
     PyStr.dq;
     "SERVICE";
     PyStr.dq;
     ">
            <id:xRoadInstance>";
     instance;
     "</id:xRoadInstance>
            <id:memberClass>GOV</id:memberClass>
            <id:memberCode>MONITORING</id:memberCode>
            <id:serviceCode>getSecurityServerHealthData</id:serviceCode>
        </xrd:service>
        <xrd:id>";
     DT.strftime_compact now;
     "</xrd:id>
        <xrd:protocolVersion>4.0</xrd:protocolVersion>
    </SOAP-ENV:Header>
    <SOAP-ENV:Body>
        <m:getSecurityServerHealthData/>
    </SOAP-ENV:Body>
</SOAP-ENV:Envelope>"]).

End Client.

(** ** The response parsers *)

Section Parser.
Context {RT : Runtime}.

Local Open Scope outcome_scope.

(** [datetime.fromtimestamp(int(e.text) / 1000)] when the element is
    there, [None] otherwise. *)
Definition timestamp_of (e : option element) : outcome (option datetime) :=
  match e with
  | Some el =>
      let! ms := PyStr.int (ET.text el) in
      let! secs := PyFloat.truediv ms 1000 in
      let! d := DT.fromtimestamp secs in
      Returned (Some d)
  | None => Returned None
  end.

Definition size_of (e : option element) : outcome Z :=
  match e with
  | Some el => PyStr.int (ET.text el)
  | None => Returned 0
  end.

(** [e.text.lower() == 'true'] when the element is there. *)
Definition succeeded_of (e : option element) : outcome bool :=
  match e with
  | Some el =>
      match ET.text el with
      | Some t => Returned (String.eqb (PyStr.lower t) "true")
      | None => Raised AttributeError
      end
  | None => Returned false
  end.

(** [int((response_ts - request_ts).total_seconds() * 1000)] when both
    datetimes are there (a datetime is always true). *)
Definition duration_of (request_ts response_ts : option datetime) : outcome (option Z) :=
  match request_ts, response_ts with
  | Some rq, Some rs =>
      let! secs := DT.total_seconds (DT.diff rs rq) in
      let! ms := PyFloat.trunc (PyFloat.mul secs (PyFloat.of_int 1000)) in
      Returned (Some ms)
  | _, _ => Returned None
  end.

(** The body of the inner [try] of the record loop: one record element to
    one [XRoadOperationalData]. *)
Definition parse_record (record : element) : outcome XRoadOperationalData :=
  let service_elem := ET.find (ET.m "serviceXRoadRequestId") record in
  let client_elem := ET.find (ET.m "clientXRoadRequestId") record in
  let request_ts_elem := ET.find (ET.m "requestInTs") record in
  let response_ts_elem := ET.find (ET.m "responseOutTs") record in
  let request_size_elem := ET.find (ET.m "requestSize") record in
  let response_size_elem := ET.find (ET.m "responseSize") record in
  let succeeded_elem := ET.find (ET.m "succeeded") record in
  let fault_elem := ET.find (ET.m "faultString") record in
  let service_id :=
    match service_elem with Some el => ET.text el | None => Some "Unknown"%string end in
  let client_id :=
    match client_elem with Some el => ET.text el | None => Some "Unknown"%string end in
  let! request_ts := timestamp_of request_ts_elem in
  let! response_ts := timestamp_of response_ts_elem in
  let! request_size := size_of request_size_elem in
  let! response_size := size_of response_size_elem in
  let! success := succeeded_of succeeded_elem in
  let error_message :=
    match fault_elem with Some el => ET.text el | None => None end in
  let! duration := duration_of request_ts response_ts in
  Returned {| service_id := service_id;
              client_id := client_id;
              producer_id := "Unknown";
              request_timestamp := request_ts;
              response_timestamp := response_ts;
              request_size := request_size;
              response_size := response_size;
              success := success;
              error_message := error_message;
              request_duration := duration |}.

Local Close Scope outcome_scope.
Local Open Scope agent_scope.

(** [for record in records: try: ... except Exception as e: warn;
    continue], with the list built so far. *)
Fixpoint for_records (records : list element)
    (operational_data : list XRoadOperationalData) : M (list XRoadOperationalData) :=
  match records with
  | [] => ret operational_data
  | record :: rest =>
      let! grown :=
        try_catch
          (let! r := lift (parse_record record) in ret (operational_data ++ [r]))
          (fun e =>
             let! _ := logger WARNING "Erro ao processar registro operacional: {e}" (Some e) in
             ret operational_data) in
      for_records rest grown
  end.

(** [operational_data] is still empty when [ET.fromstring] raises, and
    below it no [Exception] leaves the loop (lemma
    [for_records_no_Exception]); so the outer handler returns the empty
    list. *)
Definition _parse_operational_data_response (response_xml : string)
  : M (list XRoadOperationalData) :=
  try_catch
    (let! root := lift (ET_fromstring response_xml) in
     let records :=
       ET.findall (ET.m "operationalDataRecords") (ET.m "operationalDataRecord") root in
     for_records records [])
    (fun e =>
       let! _ := logger ERROR "Erro ao fazer parse da resposta operacional: {e}" (Some e) in
       ret []).

End Parser.

Section HealthParser.
Context {RT : Runtime}.

Local Open Scope outcome_scope.

Definition text_value (t : option string) : pyval :=
  match t with Some s => PStr s | None => PNone end.

(** [if e is not None: d[key] = int(e.text)]. *)
Definition put_int (key : string) (e : option element) (d : gmap string pyval)
  : outcome (gmap string pyval) :=
  match e with
  | Some el => let! n := PyStr.int (ET.text el) in Returned (<[key := PInt n]> d)
  | None => Returned d
  end.

(** The dict [stats] built from a [lastPeriodStatistics] element. *)
Definition parse_statistics (stats_elem : element) : outcome (gmap string pyval) :=
  let stats : gmap string pyval := ∅ in
  let! stats :=
    put_int "successfulRequestCount"
            (ET.find (ET.m "successfulRequestCount") stats_elem) stats in
  let! stats :=
    put_int "unsuccessfulRequestCount"
            (ET.find (ET.m "unsuccessfulRequestCount") stats_elem) stats in
  let avg_duration_elem := ET.find (ET.m "requestMinDuration") stats_elem in
  match avg_duration_elem with
  | Some el =>
      let! x := float_of_text (ET.text el) in
      Returned (<["avgDuration" := PFloat x]> stats)
  | None => Returned stats
  end.

(** The dict [service_data] built from one [serviceEvents] element. *)
Definition parse_service_event (service_event : element) : outcome (gmap string pyval) :=
  let service_data : gmap string pyval := ∅ in
  let service_data :=
    match ET.find (ET.m "serviceCode") service_event with
    | Some el => <["serviceCode" := text_value (ET.text el)]> service_data
    | None => service_data
    end in
  let! service_data :=
    put_int "lastSuccessfulRequestTimestamp"
            (ET.find (ET.m "lastSuccessfulRequestTimestamp") service_event) service_data in
  let! service_data :=
    put_int "lastUnsuccessfulRequestTimestamp"
            (ET.find (ET.m "lastUnsuccessfulRequestTimestamp") service_event) service_data in
  match ET.find (ET.m "lastPeriodStatistics") service_event with
  | Some stats_elem =>
      let! stats := parse_statistics stats_elem in
      Returned (<["lastPeriodStatistics" := PDict stats]> service_data)
  | None => Returned service_data
  end.

Fixpoint for_service_events (service_events : list element) (services : list pyval)
  : outcome (list pyval) :=
  match service_events with
  | [] => Returned services
  | service_event :: rest =>
      let! service_data := parse_service_event service_event in
      for_service_events rest (services ++ [PDict service_data])
  end.

Local Close Scope outcome_scope.
Local Open Scope agent_scope.

(** A step inside the [try] of the health parser: when it raises an
    [Exception], the handler logs it and the function returns the dict as
    filled so far. *)
Definition or_return {A} (health_data : gmap string pyval) (step : outcome A)
    (k : A -> M (gmap string pyval)) : M (gmap string pyval) :=
  match step with
  | Returned a => k a
  | Raised e =>
      try_catch (raise e)
        (fun e' =>
           let! _ := logger ERROR "Erro ao fazer parse da resposta de saúde: {e}" (Some e') in
           ret health_data)
  end.

Definition _parse_health_data_response (response_xml : string) : M (gmap string pyval) :=
  let health_data : gmap string pyval := ∅ in
  or_return health_data (ET_fromstring response_xml) (fun root =>
  or_return health_data
    (put_int "monitoringStartupTimestamp"
             (ET.find (ET.m "monitoringStartupTimestamp") root) health_data)
    (fun health_data =>
  or_return health_data
    (put_int "statisticsPeriodSeconds"
             (ET.find (ET.m "statisticsPeriodSeconds") root) health_data)
    (fun health_data =>
  or_return health_data
    (for_service_events
       (ET.findall (ET.m "servicesEvents") (ET.m "serviceEvents") root) [])
    (fun services => ret (<["services" := PList services]> health_data))))).

End HealthParser.

(** ** Calls to the security server *)

Section Calls.
Context {RT : Runtime}.
Variable self : XRoadMetricsClient.

Local Open Scope agent_scope.

Definition get_operational_data (records_from records_to : datetime)
    (client_filter : option string) (now : datetime) (post : transport)
  : M (list XRoadOperationalData) :=
  let! soap_request :=
    lift (_build_operational_data_request self records_from records_to client_filter now) in
  try_catch
    (let! response := lift (post soap_request) in
     if status_code response =? 200
     then _parse_operational_data_response (response_text response)
     else
       let! _ := logger ERROR "Erro ao buscar dados operacionais: {response.status_code}" None in
       ret [])
    (fun e =>
       let! _ := logger ERROR "Erro na requisição de dados operacionais: {e}" (Some e) in
       ret []).

Definition get_health_data (server_id : option string) (now : datetime) (post : transport)
  : M (gmap string pyval) :=
  let! soap_request := lift (_build_health_data_request self server_id now) in
  try_catch
    (let! response := lift (post soap_request) in
     if status_code response =? 200
     then _parse_health_data_response (response_text response)
     else
       let! _ := logger ERROR "Erro ao buscar dados de saúde: {response.status_code}" None in
       ret ∅)
    (fun e =>
       let! _ := logger ERROR "Erro na requisição de dados de saúde: {e}" (Some e) in
       ret ∅).

End Calls.

(** ** The data store *)

Module Store.

Local Open Scope outcome_scope.

(** Binding a Python [int] to a statement: it has to fit SQLite's
    64-bit INTEGER. *)
Definition bind_int (n : Z) : outcome Z :=
  if (- 2 ^ 63 <=? n) && (n <? 2 ^ 63) then Returned n else Raised OverflowError.

(** [INSERT OR IGNORE INTO operational_data (...) VALUES (...)].  The
    table has no constraint besides [NOT NULL] on [service_id] and
    [client_id] (and the key it generates itself), so the only row
    [OR IGNORE] skips is one with a NULL identifier. *)
Definition insert_or_ignore (table : list operational_row) (data : XRoadOperationalData)
  : outcome (list operational_row) :=
  let! request_size := bind_int (request_size data) in
  let! response_size := bind_int (response_size data) in
  let! duration :=
    match request_duration data with
    | Some d => let! d' := bind_int d in Returned (Some d')
    | None => Returned None
    end in
  match service_id data, client_id data with
  | Some service, Some client =>
      Returned (table ++ [{| op_service_id := service;
                             op_client_id := client;
                             op_producer_id := producer_id data;
                             op_request_timestamp := wall <$> request_timestamp data;
                             op_response_timestamp := wall <$> response_timestamp data;
                             op_request_size := request_size;
                             op_response_size := response_size;
                             op_success := success data;
                             op_error_message := error_message data;
                             op_request_duration := duration |}])
  | _, _ => Returned table
  end.

Fixpoint insert_all (table : list operational_row) (operational_data : list XRoadOperationalData)
  : outcome (list operational_row) :=
  match operational_data with
  | [] => Returned table
  | data :: rest => let! table' := insert_or_ignore table data in insert_all table' rest
  end.

(** [d.get(key, fallback)]. *)
Definition get (d : gmap string pyval) (key : string) (fallback : pyval) : pyval :=
  default fallback (d !! key).

Definition truthy (v : pyval) : bool :=
  match v with
  | PNone => false
  | PInt n => negb (n =? 0)
  | PFloat (S754_zero _) => false
  | PFloat _ => true
  | PStr s => nonempty s
  | PList l => match l with [] => false | _ => true end
  | PDict d => negb (bool_decide (d = ∅))
  end.

Section Zone.
Context {RT : Runtime}.

(** [datetime.fromtimestamp(v / 1000) if v else None], stored as the
    datetime's count.  The parser puts an [int] there; another value is
    a [TypeError] in this model. *)
Definition stored_instant (d : gmap string pyval) (key : string) : outcome (option Z) :=
  if truthy (get d key PNone) then
    match get d key (PInt 0) with
    | PInt n =>
        let! secs := PyFloat.truediv n 1000 in
        let! t := DT.fromtimestamp secs in
        Returned (Some (wall t))
    | _ => Raised TypeError
    end
  else Returned None.

Definition stored_count (v : pyval) : outcome Z :=
  match v with
  | PInt n => bind_int n
  | _ => Raised TypeError
  end.

(** A [float] bound to a statement: SQLite takes NaN for NULL, and
    keeps no negative zero in a column. *)
Definition bind_real (x : spec_float) : option spec_float :=
  match x with
  | S754_nan => None
  | S754_zero _ => Some (S754_zero false)
  | _ => Some x
  end.

Definition stored_real (v : pyval) : outcome (option spec_float) :=
  match v with
  | PFloat x => Returned (bind_real x)
  | PInt n => let! n' := bind_int n in Returned (Some (PyFloat.of_int n'))
  | _ => Raised TypeError
  end.

(** [INSERT INTO health_data (...) VALUES (...)] for one service dict;
    [service_code] is [NOT NULL], and a plain [INSERT] raises
    [IntegrityError] on NULL. *)
Definition insert_health (table : list health_row) (service : pyval)
  : outcome (list health_row) :=
  match service with
  | PDict service =>
      match get service "lastPeriodStatistics" (PDict ∅) with
      | PDict stats =>
          let! last_ok := stored_instant service "lastSuccessfulRequestTimestamp" in
          let! last_ko := stored_instant service "lastUnsuccessfulRequestTimestamp" in
          let! ok := stored_count (get stats "successfulRequestCount" (PInt 0)) in
          let! ko := stored_count (get stats "unsuccessfulRequestCount" (PInt 0)) in
          let! avg := stored_real (get stats "avgDuration" (PFloat (S754_zero false))) in
          match get service "serviceCode" PNone with
          | PStr code =>
              Returned (table ++ [{| h_service_code := code;
                                     h_last_successful_request := last_ok;
                                     h_last_unsuccessful_request := last_ko;
                                     h_successful_count := ok;
                                     h_unsuccessful_count := ko;
                                     h_avg_duration := avg |}])
          | PNone => Raised IntegrityError
          | _ => Raised TypeError
          end
      | _ => Raised AttributeError
      end
  | _ => Raised AttributeError
  end.

Fixpoint insert_all_health (table : list health_row) (services : list pyval)
  : outcome (list health_row) :=
  match services with
  | [] => Returned table
  | service :: rest =>
      let! table' := insert_health table service in insert_all_health table' rest
  end.

End Zone.

End Store.

(** ** The agent *)

(** What the host does during one collection: the two readings of
    [datetime.now()] (in the collector and in the request template), the
    transport, and the error with which the SQLite connection fails, if it
    does.  Such a failure is taken to come before the commit, so that it
    leaves the table as it was. *)
Record surroundings : Type := {
  clock : datetime;
  request_clock : datetime;
  post : transport;
  db_fault : option exn
}.

(** One turn of the monitoring loop: the surroundings of the two
    collections, and whether the process is interrupted (SIGINT, which
    raises [KeyboardInterrupt]) during the sleep that ends the cycle or
    during the pause after a failure. *)
Record turn : Type := {
  operational : surroundings;
  health : surroundings;
  nap_interrupted : bool;
  pause_interrupted : bool
}.

Inductive loop_state : Type :=
| Looping    (* about to start the next iteration *)
| Left.      (* the [while] was left by [break] *)

Section Agent.
Context {RT : Runtime}.
Variable metrics_client : XRoadMetricsClient.

Local Open Scope agent_scope.

Definition set_operational (t : list operational_row) : M unit :=
  fun w =>
    (Returned tt,
     {| tbl_operational_data := t;
        tbl_health_data := tbl_health_data w;
        journal := journal w;
        naps := naps w |}).

Definition set_health (t : list health_row) : M unit :=
  fun w =>
    (Returned tt,
     {| tbl_operational_data := tbl_operational_data w;
        tbl_health_data := t;
        journal := journal w;
        naps := naps w |}).

(** All inserts run in one transaction, committed at the end: when one
    of them raises, nothing is stored. *)
Definition _store_operational_data (operational_data : list XRoadOperationalData)
    (fault : option exn) : M unit :=
  match fault with
  | Some e => raise e
  | None =>
      fun w =>
        match Store.insert_all (tbl_operational_data w) operational_data with
        | Returned t => set_operational t w
        | Raised e => (Raised e, w)
        end
  end.

Definition _store_health_data (services : list pyval) (fault : option exn) : M unit :=
  match fault with
  | Some e => raise e
  | None =>
      fun w =>
        match Store.insert_all_health (tbl_health_data w) services with
        | Returned t => set_health t w
        | Raised e => (Raised e, w)
        end
  end.

(** [timedelta(hours=h)] in microseconds; a timedelta holds at most
    999999999 days. *)
Definition timedelta_hours (h : Z) : outcome Z :=
  if Z.abs (h * 3600 / 86400) <=? 999999999
  then Returned (h * 3600 * 1000000) else Raised OverflowError.

Definition collect_operational_data (hours_back : Z) (env : surroundings)
  : M (list XRoadOperationalData) :=
  let end_time := clock env in
  let! span := lift (timedelta_hours hours_back) in
  let! start_time := lift (DT.minus end_time span) in
  let! _ := logger INFO "Coletando dados operacionais de {start_time} até {end_time}" None in
  let! operational_data :=
    get_operational_data metrics_client start_time end_time None
                         (request_clock env) (post env) in
  let! _ :=
    match operational_data with
    | _ :: _ =>
        let! _ := _store_operational_data operational_data (db_fault env) in
        logger INFO "Coletados {len(operational_data)} registros operacionais" None
    | [] => logger WARNING "Nenhum dado operacional coletado" None
    end in
  ret operational_data.

Definition collect_health_data (env : surroundings) : M (gmap string pyval) :=
  let! _ := logger INFO "Coletando dados de saúde" None in
  let! health_data := get_health_data metrics_client None (request_clock env) (post env) in
  let! _ :=
    match health_data !! "services" with
    | Some services =>
        let! rows :=
          match services with
          | PList l => ret l
          | _ => raise TypeError
          end in
        let! _ := _store_health_data rows (db_fault env) in
        logger INFO "Coletados dados de saúde de {len(health_data['services'])} serviços" None
    | None => logger WARNING "Nenhum dado de saúde coletado" None
    end in
  ret health_data.

(** [time.sleep(seconds)]: the argument is turned into nanoseconds of the
    C time type, 64 bits wide, and is an [OverflowError] when it does not
    fit; a negative argument is a [ValueError]; an interrupt ends the sleep
    with [KeyboardInterrupt]. *)
Definition sleep (seconds : Z) (interrupted : bool) : M unit :=
  if 9223372036 <? Z.abs seconds then raise OverflowError
  else if seconds <? 0 then raise ValueError
  else if interrupted then raise KeyboardInterrupt
  else
    fun w =>
      (Returned tt,
       {| tbl_operational_data := tbl_operational_data w;
          tbl_health_data := tbl_health_data w;
          journal := journal w;
          naps := naps w ++ [seconds] |}).

(** The body of the [try] of the monitoring loop. *)
Definition cycle (interval_minutes : Z) (t : turn) : M unit :=
  let! _ := collect_operational_data 2 (operational t) in
  let! _ := collect_health_data (health t) in
  sleep (interval_minutes * 60) (nap_interrupted t).

(** [while True: try: ... except KeyboardInterrupt: ...; break
    except Exception as e: ...; time.sleep(60)], run over the turns the
    host has offered so far. *)
Fixpoint monitoring_loop (interval_minutes : Z) (turns : list turn) : M loop_state :=
  match turns with
  | [] => ret Looping
  | t :: rest =>
      fun w =>
        match cycle interval_minutes t w with
        | (Returned _, w') => monitoring_loop interval_minutes rest w'
        | (Raised KeyboardInterrupt, w') =>
            (let! _ := logger INFO "Interrompendo monitoramento..." None in ret Left) w'
        | (Raised e, w') =>
            if is_Exception e then
              (let! _ := logger ERROR "Erro no loop de monitoramento: {e}" (Some e) in
               let! _ := sleep 60 (pause_interrupted t) in
               monitoring_loop interval_minutes rest) w'
            else (Raised e, w')
        end
  end.

Definition start_monitoring_loop (interval_minutes : Z) (turns : list turn) : M loop_state :=
  let! _ := logger INFO "Iniciando loop de monitoramento (intervalo: {interval_minutes} min)" None in
  monitoring_loop interval_minutes turns.

End Agent.

(** ** Analytics *)

Module Sql.

(** [SUM] over integers: NULL on no rows. *)
Definition sum (l : list Z) : option Z :=
  match l with
  | [] => None
  | _ => Some (fold_right Z.add 0 l)
  end.

(** The non-NULL values of a column. *)
Fixpoint present (l : list (option Z)) : list Z :=
  match l with
  | [] => []
  | Some v :: rest => v :: present rest
  | None :: rest => present rest
  end.

(** [AVG]: SQLite adds the non-NULL values up in a double, row after
    row, and divides by their number; NULL when there is none. *)
Definition avg (l : list (option Z)) : option spec_float :=
  match present l with
  | [] => None
  | v :: vs =>
      Some (SFdiv PyFloat.prec PyFloat.emax
                  (fold_left (fun acc x => PyFloat.add acc (PyFloat.of_int x))
                             (v :: vs) (S754_zero false))
                  (PyFloat.of_int (Z.of_nat (length (v :: vs)))))
  end.

Definition min (l : list (option Z)) : option Z :=
  match present l with
  | [] => None
  | v :: vs => Some (fold_right Z.min v vs)
  end.

Definition max (l : list (option Z)) : option Z :=
  match present l with
  | [] => None
  | v :: vs => Some (fold_right Z.max v vs)
  end.

(** [CASE WHEN c THEN 1 ELSE 0 END]. *)
Definition flag (c : bool) : Z := if c then 1 else 0.

(** [request_timestamp > since]: never true of a NULL. *)
Definition after (since : Z) (r : operational_row) : bool :=
  match op_request_timestamp r with
  | Some t => since <? t
  | None => false
  end.

End Sql.

(** The row of the query for one service. *)
Record service_summary : Type := {
  total_requests : Z;
  successful_requests : option Z;
  failed_requests : option Z;
  avg_duration : option spec_float;
  min_duration : option Z;
  max_duration : option Z;
  avg_request_size : option spec_float;
  avg_response_size : option spec_float
}.

(** A row of the query over all services, without its [service_id]. *)
Record group_summary : Type := {
  g_total_requests : Z;
  g_successful_requests : option Z;
  g_failed_requests : option Z;
  g_avg_duration : option spec_float
}.

(** The result of [get_service_analytics].  The rows of the group_by_service query
    are kept as a map from [service_id]; the order in which [fetchall]
    lists them (by falling [total_requests]) is not modelled. *)
Inductive analytics : Type :=
| ForService (row : service_summary)
| PerService (rows : gmap string group_summary).

Section Analytics.

Local Open Scope agent_scope.

Definition select_summary (window : list operational_row) : service_summary :=
  {| total_requests := Z.of_nat (length window);
     successful_requests := Sql.sum (map (fun r => Sql.flag (op_success r)) window);
     failed_requests := Sql.sum (map (fun r => Sql.flag (negb (op_success r))) window);
     avg_duration := Sql.avg (map op_request_duration window);
     min_duration := Sql.min (map op_request_duration window);
     max_duration := Sql.max (map op_request_duration window);
     avg_request_size := Sql.avg (map (fun r => Some (op_request_size r)) window);
     avg_response_size := Sql.avg (map (fun r => Some (op_response_size r)) window) |}.

Definition select_group_summary (window : list operational_row) : group_summary :=
  {| g_total_requests := Z.of_nat (length window);
     g_successful_requests := Sql.sum (map (fun r => Sql.flag (op_success r)) window);
     g_failed_requests := Sql.sum (map (fun r => Sql.flag (negb (op_success r))) window);
     g_avg_duration := Sql.avg (map op_request_duration window) |}.

(** [WHERE service_id = ? AND request_timestamp > ?]. *)
Definition where_service_since (service : string) (since : Z) (table : list operational_row)
  : list operational_row :=
  List.filter (fun r => String.eqb (op_service_id r) service && Sql.after since r) table.

Definition group_by_service (since : Z) (table : list operational_row) : gmap string group_summary :=
  let window := List.filter (Sql.after since) table in
  fold_right
    (fun r acc =>
       <[op_service_id r := select_group_summary (where_service_since (op_service_id r) since table)]> acc)
    ∅ window.

(** [get_service_analytics(service_id, days)]; [now] is the reading of
    [datetime.now()], [fault] the error of the connection, if it
    fails. *)
Definition get_service_analytics (service_id : option string) (days : Z)
    (now : datetime) (fault : option exn) : M analytics :=
  match fault with
  | Some e => raise e
  | None =>
      let! span := lift (if Z.abs days <=? 999999999
                         then Returned (days * 86400 * 1000000)
                         else Raised OverflowError) in
      let! since := lift (DT.minus now span) in
      fun w =>
        let table := tbl_operational_data w in
        match service_id with
        | Some s =>
            if nonempty s
            then (Returned (ForService (select_summary (where_service_since s (wall since) table))), w)
            else (Returned (PerService (group_by_service (wall since) table)), w)
        | None => (Returned (PerService (group_by_service (wall since) table)), w)
        end
  end.

End Analytics.

(** ** Fixtures *)

Module Fixtures.

(** An XML reader given by the documents it knows; any other text is
    not well-formed. *)
Fixpoint reader_of (docs : list (string * element)) (text : string) : outcome element :=
  match docs with
  | [] => Raised ParseError
  | (t, root) :: rest => if String.eqb t text then Returned root else reader_of rest text
  end.

Definition leaf (name text : string) : element := Element (ET.m name) (Some text) [].

Definition full_record : element :=
  Element (ET.m "operationalDataRecord") None
    [leaf "serviceXRoadRequestId" "svc-1";
     leaf "clientXRoadRequestId" "cli-1";
     leaf "requestInTs" "1700000000000";
     leaf "responseOutTs" "1700000000250";
     leaf "requestSize" "512";
     leaf "responseSize" "2048";
     leaf "succeeded" "true"].

Definition bare_record : element :=
  Element (ET.m "operationalDataRecord") None [].

(** The size is not a number: the record is malformed. *)
Definition broken_record : element :=
  Element (ET.m "operationalDataRecord") None
    [leaf "serviceXRoadRequestId" "svc-2"; leaf "requestSize" "many"].

(** The response leaves 250 ms before the request arrives. *)
Definition backwards_record : element :=
  Element (ET.m "operationalDataRecord") None
    [leaf "serviceXRoadRequestId" "svc-3";
     leaf "clientXRoadRequestId" "cli-3";
     leaf "requestInTs" "1700000000250";
     leaf "responseOutTs" "1700000000000";
     leaf "succeeded" "true"].

Definition envelope_of (records : list element) : element :=
  Element "{http://schemas.xmlsoap.org/soap/envelope/}Envelope" None
    [Element "{http://schemas.xmlsoap.org/soap/envelope/}Body" None
       [Element (ET.m "getSecurityServerOperationalDataResponse") None
          [Element (ET.m "operationalDataRecords") None records]]].

Definition two_records : element := envelope_of [full_record; bare_record].

(** A service with a statistics block that carries the minimum, the
    average and the maximum duration of the period. *)
Definition service_event : element :=
  Element (ET.m "serviceEvents") None
    [leaf "serviceCode" "getRandom";
     Element (ET.m "lastPeriodStatistics") None
       [leaf "successfulRequestCount" "5";
        leaf "unsuccessfulRequestCount" "1";
        leaf "requestMinDuration" "10";
        leaf "requestAverageDuration" "50";
        leaf "requestMaxDuration" "90"]].

Definition health_document : element :=
  Element "{http://schemas.xmlsoap.org/soap/envelope/}Envelope" None
    [Element "{http://schemas.xmlsoap.org/soap/envelope/}Body" None
       [Element (ET.m "getSecurityServerHealthDataResponse") None
          [leaf "monitoringStartupTimestamp" "1699990000000";
           leaf "statisticsPeriodSeconds" "600";
           Element (ET.m "servicesEvents") None [service_event]]]].

Definition host : Runtime :=
  utc_host (reader_of [("<two/>"%string, two_records);
                       ("<mixed/>"%string, envelope_of [full_record; broken_record; bare_record]);
                       ("<backwards/>"%string, envelope_of [backwards_record]);
                       ("<health/>"%string, health_document)]).

Definition client : XRoadMetricsClient :=
  {| xroad_server := "https://ss.example/";
     self_client_id := "DEV/GOV/12345";
     timeout := None;
     ssl_verify := None;
     xroad_instance := None |}.

Definition at_wall (w : Z) : datetime := {| wall := w; fold := false |}.

Definition populated : XRoadOperationalData :=
  {| service_id := Some "svc-1"%string;
     client_id := Some "cli-1"%string;
     producer_id := "Unknown";
     request_timestamp := Some (at_wall 1700000000000000);
     response_timestamp := Some (at_wall 1700000000250000);
     request_size := 512;
     response_size := 2048;
     success := true;
     error_message := None;
     request_duration := Some 250 |}.

Definition backwards : XRoadOperationalData :=
  {| service_id := Some "svc-3"%string;
     client_id := Some "cli-3"%string;
     producer_id := "Unknown";
     request_timestamp := Some (at_wall 1700000000250000);
     response_timestamp := Some (at_wall 1700000000000000);
     request_size := 0;
     response_size := 0;
     success := true;
     error_message := None;
     request_duration := Some (-250) |}.

Definition backwards_row : operational_row :=
  {| op_service_id := "svc-3";
     op_client_id := "cli-3";
     op_producer_id := "Unknown";
     op_request_timestamp := Some 1700000000250000;
     op_response_timestamp := Some 1700000000000000;
     op_request_size := 0;
     op_response_size := 0;
     op_success := true;
     op_error_message := None;
     op_request_duration := Some (-250) |}.

Definition populated_row : operational_row :=
  {| op_service_id := "svc-1";
     op_client_id := "cli-1";
     op_producer_id := "Unknown";
     op_request_timestamp := Some 1700000000000000;
     op_response_timestamp := Some 1700000000250000;
     op_request_size := 512;
     op_response_size := 2048;
     op_success := true;
     op_error_message := None;
     op_request_duration := Some 250 |}.

Definition service_data : gmap string pyval :=
  <["lastPeriodStatistics" :=
      PDict (<["avgDuration" := PFloat (PyFloat.of_int 10)]>
             (<["unsuccessfulRequestCount" := PInt 1]>
              (<["successfulRequestCount" := PInt 5]> ∅)))]>
  (<["serviceCode" := PStr "getRandom"]> ∅).

Definition service_row : health_row :=
  {| h_service_code := "getRandom";
     h_last_successful_request := None;
     h_last_unsuccessful_request := None;
     h_successful_count := 5;
     h_unsuccessful_count := 1;
     h_avg_duration := Some (PyFloat.of_int 10) |}.

(** Three requests to one service: two answered after 100 ms and 300 ms,
    one that failed and has no response time. *)
Definition request_row (at_ms : Z) (duration : option Z) (ok : bool) : operational_row :=
  {| op_service_id := "svc-1";
     op_client_id := "cli-1";
     op_producer_id := "Unknown";
     op_request_timestamp := Some (at_ms * 1000);
     op_response_timestamp := (fun d => (at_ms + d) * 1000) <$> duration;
     op_request_size := 512;
     op_response_size := 2048;
     op_success := ok;
     op_error_message := None;
     op_request_duration := duration |}.

Definition three_requests : list operational_row :=
  [request_row 1700000000000 (Some 100) true;
   request_row 1700000001000 (Some 300) true;
   request_row 1700000002000 None false].

(** No route to the security server. *)
Definition offline : surroundings :=
  {| clock := at_wall 1700000000000000;
     request_clock := at_wall 1700000000000500;
     post := fun _ => Raised ConnectionError;
     db_fault := None |}.

(** The server answers with the two-record document; the database file
    is locked. *)
Definition locked : surroundings :=
  {| clock := at_wall 1700000900000000;
     request_clock := at_wall 1700000900000500;
     post := fun _ => Returned {| status_code := 200; response_text := "<two/>" |};
     db_fault := Some OperationalError |}.

Definition offline_turn : turn :=
  {| operational := offline; health := offline;
     nap_interrupted := false; pause_interrupted := false |}.

Definition locked_turn : turn :=
  {| operational := locked; health := offline;
     nap_interrupted := false; pause_interrupted := false |}.

Definition defaulted : XRoadOperationalData :=
  {| service_id := Some "Unknown"%string;
     client_id := Some "Unknown"%string;
     producer_id := "Unknown";
     request_timestamp := None;
     response_timestamp := None;
     request_size := 0;
     response_size := 0;
     success := false;
     error_message := None;
     request_duration := None |}.

End Fixtures.

(** ** Notions used in the statements *)

(** An outcome that, if it raises, raises an [Exception]. *)
Definition only_Exceptions {A} (o : outcome A) : Prop :=
  forall e, o = Raised e -> is_Exception e = true.

(** The world with more calls of the logger on record. *)
Definition logged (w : world) (entries : list log_record) : world :=
  {| tbl_operational_data := tbl_operational_data w;
     tbl_health_data := tbl_health_data w;
     journal := journal w ++ entries;
     naps := naps w |}.

(** The value of an outcome that returned. *)
Definition kept {A} (o : outcome A) : option A :=
  match o with
  | Returned a => Some a
  | Raised _ => None
  end.

(** The warning the loop logs for a record that raised. *)
Definition warning_of {A} (o : outcome A) : option log_record :=
  match o with
  | Returned _ => None
  | Raised e =>
      Some {| lvl := WARNING;
              msg := "Erro ao processar registro operacional: {e}";
              cause := Some e |}
  end.

Section Notions.
Context {RT : Runtime}.

(** The records and the warnings that the record loop makes of a list of
    record elements. *)
Definition parsed (records : list element) : list XRoadOperationalData :=
  omap (fun r => kept (parse_record r)) records.

Definition warnings (records : list element) : list log_record :=
  omap (fun r => warning_of (parse_record r)) records.

Definition record_elements (root : element) : list element :=
  ET.findall (ET.m "operationalDataRecords") (ET.m "operationalDataRecord") root.

(** The service elements of a health document. *)
Definition service_event_elements (root : element) : list element :=
  ET.findall (ET.m "servicesEvents") (ET.m "serviceEvents") root.

End Notions.

(** A row whose [avg_duration] is what the store makes of the element
    [requestMinDuration] of the statistics block of a service element: the
    number [float()] reads there, as SQLite binds it (NULL for a NaN, zero
    without a sign), and [0.0] when the block or the element is
    missing. *)
Definition read_from_requestMinDuration {RT : Runtime}
    (service_event : element) (row : health_row) : Prop :=
  match ET.find (ET.m "lastPeriodStatistics") service_event with
  | None => h_avg_duration row = Some (S754_zero false)
  | Some stats_elem =>
      match ET.find (ET.m "requestMinDuration") stats_elem with
      | Some el =>
          exists x, float_of_text (ET.text el) = Returned x
                    /\ h_avg_duration row
                       = match x with
                         | S754_nan => None
                         | S754_zero _ => Some (S754_zero false)
                         | _ => Some x
                         end
      | None => h_avg_duration row = Some (S754_zero false)
      end
  end.

(** The number of slash-separated segments of an identifier. *)
Definition segments (s : string) : nat := length (PyStr.split "/" s).

(** The text of a request document between two positions. *)
Definition excerpt (from len : nat) (o : outcome string) : option string :=
  match o with
  | Returned doc => Some (String.substring from len doc)
  | Raised _ => None
  end.

(** A request that has a duration. *)
Definition timed (r : operational_row) : bool :=
  match op_request_duration r with Some _ => true | None => false end.

(** The summary of no rows: a zero count, every other column NULL. *)
Definition empty_summary : service_summary :=
  {| total_requests := 0;
     successful_requests := None;
     failed_requests := None;
     avg_duration := None;
     min_duration := None;
     max_duration := None;
     avg_request_size := None;
     avg_response_size := None |}.

(** A computation that leaves the record of sleeps alone and raises only
    [Exception]s. *)
Definition calm {A} (c : M A) : Prop :=
  forall w, naps (snd (c w)) = naps w /\ only_Exceptions (fst (c w)).

(** A host whose reader and whose [float()] raise only [Exception]s. *)
Definition orderly (RT : Runtime) : Prop :=
  (forall text, only_Exceptions (ET_fromstring text))
  /\ (forall text, only_Exceptions (float_of_text text)).

(** Surroundings in which nothing but [Exception]s is raised: no interrupt
    and no exit request reaches the transport or the data store. *)
Definition undisturbed (env : surroundings) : Prop :=
  (forall body, only_Exceptions (post env body))
  /\ (forall e, db_fault env = Some e -> is_Exception e = true).

(** A turn without cancellation. *)
Definition uncancelled (t : turn) : Prop :=
  undisturbed (operational t) /\ undisturbed (health t)
  /\ nap_interrupted t = false /\ pause_interrupted t = false.

(** The world after the pause that follows a failure: the error is in the
    journal and a sleep of 60 seconds on record. *)
Definition after_failure (e : exn) (w : world) : world :=
  {| tbl_operational_data := tbl_operational_data w;
     tbl_health_data := tbl_health_data w;
     journal := journal w ++ [{| lvl := ERROR;
                                 msg := "Erro no loop de monitoramento: {e}";
                                 cause := Some e |}];
     naps := naps w ++ [60] |}.

(** ** Notions used in the further properties *)

(** How often a character occurs in a string. *)
Fixpoint occurrences (c : ascii) (s : string) : nat :=
  match s with
  | EmptyString => 0%nat
  | String a rest => ((if Ascii.eqb a c then 1 else 0) + occurrences c rest)%nat
  end.

(** An integer that SQLite's 64-bit INTEGER holds. *)
Definition fits_int64 (n : Z) : Prop := - 2 ^ 63 <= n < 2 ^ 63.

(** A record all of whose numbers can be bound to a statement. *)
Definition bindable (data : XRoadOperationalData) : Prop :=
  fits_int64 (request_size data)
  /\ fits_int64 (response_size data)
  /\ (forall d, request_duration data = Some d -> fits_int64 d).

(** The row a record is stored as; there is none for a record that lacks
    an identifier. *)
Definition row_of (data : XRoadOperationalData) : option operational_row :=
  match service_id data, client_id data with
  | Some service, Some client =>
      Some {| op_service_id := service;
              op_client_id := client;
              op_producer_id := producer_id data;
              op_request_timestamp := wall <$> request_timestamp data;
              op_response_timestamp := wall <$> response_timestamp data;
              op_request_size := request_size data;
              op_response_size := response_size data;
              op_success := success data;
              op_error_message := error_message data;
              op_request_duration := request_duration data |}
  | _, _ => None
  end.

(** The later world holds everything the earlier one held, at the same
    place: tables, journal and record of sleeps have only grown at the
    end. *)
Definition extends (w w' : world) : Prop :=
  (exists rows, tbl_operational_data w' = tbl_operational_data w ++ rows)
  /\ (exists rows, tbl_health_data w' = tbl_health_data w ++ rows)
  /\ (exists entries, journal w' = journal w ++ entries)
  /\ (exists pauses, naps w' = naps w ++ pauses).

(** Two worlds with the same tables and the same record of sleeps. *)
Definition same_store (w w' : world) : Prop :=
  tbl_operational_data w' = tbl_operational_data w
  /\ tbl_health_data w' = tbl_health_data w
  /\ naps w' = naps w.

(** A computation after which the world extends the world before it,
    whether it returns or raises. *)
Definition growing {A} (c : M A) : Prop := forall w, extends w (snd (c w)).

(** A computation that leaves one part of the world as it finds it,
    whether it returns or raises. *)
Definition preserves {A X} (part : world -> X) (c : M A) : Prop :=
  forall w, part (snd (c w)) = part w.

(** A transport that gets no answer with status 200 through. *)
Definition failing (post : transport) : Prop :=
  forall body,
    (exists e, post body = Raised e /\ is_Exception e = true)
    \/ (exists r, post body = Returned r /\ status_code r <> 200).

(** Further inputs on which the properties are run. *)
Module Samples.

(** A record whose service identifier element is there but empty. *)
Definition anonymous_record : element :=
  Element (ET.m "operationalDataRecord") None
    [Element (ET.m "serviceXRoadRequestId") None [];
     Fixtures.leaf "clientXRoadRequestId" "cli-9";
     Fixtures.leaf "requestSize" "7"].

Definition anonymous : XRoadOperationalData :=
  {| service_id := None;
     client_id := Some "cli-9"%string;
     producer_id := "Unknown";
     request_timestamp := None;
     response_timestamp := None;
     request_size := 7;
     response_size := 0;
     success := false;
     error_message := None;
     request_duration := None |}.

(** A record whose request is larger than SQLite can count. *)
Definition oversized : XRoadOperationalData :=
  {| service_id := Some "svc-1"%string;
     client_id := Some "cli-1"%string;
     producer_id := "Unknown";
     request_timestamp := None;
     response_timestamp := None;
     request_size := 2 ^ 63;
     response_size := 0;
     success := true;
     error_message := None;
     request_duration := None |}.

(** A service whose count of successes is not a number, and one without
    a [serviceCode]. *)
Definition broken_service : element :=
  Element (ET.m "serviceEvents") None
    [Fixtures.leaf "serviceCode" "getBroken";
     Element (ET.m "lastPeriodStatistics") None
       [Fixtures.leaf "successfulRequestCount" "many"]].

Definition nameless_service : element :=
  Element (ET.m "serviceEvents") None
    [Fixtures.leaf "lastSuccessfulRequestTimestamp" "1700000000000"].

Definition nameless_data : gmap string pyval :=
  <["lastSuccessfulRequestTimestamp" := PInt 1700000000000]> ∅.

Definition health_of (services : list element) : element :=
  Element (ET.m "getSecurityServerHealthDataResponse") None
    [Fixtures.leaf "monitoringStartupTimestamp" "1699990000000";
     Element (ET.m "servicesEvents") None services].

Definition host : Runtime :=
  utc_host (Fixtures.reader_of
              [("<sick/>"%string, health_of [Fixtures.service_event; broken_service]);
               ("<nameless/>"%string, health_of [Fixtures.service_event; nameless_service])]).

(** The server cannot be reached, and the operator presses Ctrl-C while
    the agent sleeps between two cycles. *)
Definition interrupted_nap : turn :=
  {| operational := Fixtures.offline; health := Fixtures.offline;
     nap_interrupted := true; pause_interrupted := false |}.

(** The database is locked, and the operator presses Ctrl-C during the
    pause that follows the failure. *)
Definition interrupted_pause : turn :=
  {| operational := Fixtures.locked; health := Fixtures.offline;
     nap_interrupted := false; pause_interrupted := true |}.

(** A data store that holds the three requests. *)
Definition busy : world :=
  {| tbl_operational_data := Fixtures.three_requests;
     tbl_health_data := [];
     journal := [];
     naps := [] |}.

(** A row of the operational table. *)
Definition stored_request (service : string) (at_us : option Z) (duration : option Z)
    (ok : bool) : operational_row :=
  {| op_service_id := service;
     op_client_id := "cli-1";
     op_producer_id := "Unknown";
     op_request_timestamp := at_us;
     op_response_timestamp := None;
     op_request_size := 512;
     op_response_size := 2048;
     op_success := ok;
     op_error_message := None;
     op_request_duration := duration |}.

(** A data store in which the three requests stand among rows the query
    for their service has to pass over: a request to another service, a
    request from long before the period, and one without a request
    time. *)
Definition crowded : world :=
  {| tbl_operational_data :=
       stored_request "svc-2" (Some 1700000000500000) (Some 7000) true
       :: Fixtures.three_requests
       ++ [stored_request "svc-1" (Some 1690000000000000) (Some 9000) true;
           stored_request "svc-1" None (Some 1) false];
     tbl_health_data := [];
     journal := [];
     naps := [] |}.

(** The server answers with the two-record document, and the database
    works. *)
Definition online : surroundings :=
  {| clock := Fixtures.at_wall 1700000900000000;
     request_clock := Fixtures.at_wall 1700000900000500;
     post := fun _ => Returned {| status_code := 200; response_text := "<two/>" |};
     db_fault := None |}.

(** The server answers the health request with a document in which one
    service is malformed. *)
Definition sick : surroundings :=
  {| clock := Fixtures.at_wall 1700000900000000;
     request_clock := Fixtures.at_wall 1700000900000500;
     post := fun _ => Returned {| status_code := 200; response_text := "<sick/>" |};
     db_fault := None |}.

End Samples.

(** * Properties *)

(** ** The embedding at work *)

Example split_three : PyStr.split "/" "DEV/GOV/12345" = ["DEV"; "GOV"; "12345"]%string.
Proof. reflexivity. Qed.

Example split_empty : PyStr.split "/" EmptyString = [EmptyString].
Proof. reflexivity. Qed.

Example int_plain : PyStr.int (Some " 1_700 "%string) = Returned 1700.
Proof. reflexivity. Qed.

Example int_bad : PyStr.int (Some "12a"%string) = Raised ValueError.
Proof. reflexivity. Qed.

Example int_neg : PyStr.of_int (-42) = "-42"%string.
Proof. reflexivity. Qed.

Example one_point_oh_oh_one :
  (let! s := PyFloat.truediv 1001000 1000000 in
   PyFloat.trunc (PyFloat.mul s (PyFloat.of_int 1000)))%outcome = Returned 1000.
Proof. vm_compute. reflexivity. Qed.

Example quarter_second :
  (let! s := PyFloat.truediv 250000 1000000 in
   PyFloat.trunc (PyFloat.mul s (PyFloat.of_int 1000)))%outcome = Returned 250.
Proof. vm_compute. reflexivity. Qed.

Example strftime_sample :
  DT.strftime_compact {| wall := 1700000000 * 1000000 + 5; fold := false |}
  = "20231114221320"%string.
Proof. vm_compute. reflexivity. Qed.

Example parse_full_record :
  @parse_record Fixtures.host Fixtures.full_record = Returned Fixtures.populated.
Proof. vm_compute. reflexivity. Qed.

Example parse_bare_record :
  @parse_record Fixtures.host Fixtures.bare_record = Returned Fixtures.defaulted.
Proof. vm_compute. reflexivity. Qed.

Example parse_broken_record :
  @parse_record Fixtures.host Fixtures.broken_record = Raised ValueError.
Proof. vm_compute. reflexivity. Qed.

(** ** Outcomes that raise only [Exception]s *)

Lemma only_Exceptions_Returned {A} (a : A) : only_Exceptions (Returned a).
Proof. intros e H. discriminate H. Qed.

Lemma only_Exceptions_Raised {A} (e : exn) :
  is_Exception e = true -> only_Exceptions (@Raised A e).
Proof. intros He e' H. injection H as <-. exact He. Qed.

Lemma only_Exceptions_obind {A B} (o : outcome A) (k : A -> outcome B) :
  only_Exceptions o -> (forall a, only_Exceptions (k a)) -> only_Exceptions (obind o k).
Proof.
  intros Ho Hk e. destruct o as [a|e0]; simpl.
  - apply Hk.
  - intros H. injection H as <-. apply Ho. reflexivity.
Qed.

Create HintDb raises.
#[export] Hint Resolve only_Exceptions_Returned : raises.
#[export] Hint Extern 2 (only_Exceptions (Raised _)) =>
  (apply only_Exceptions_Raised; reflexivity) : raises.
#[export] Hint Extern 3 (only_Exceptions (obind _ _)) =>
  (apply only_Exceptions_obind; [ | intros ? ]) : raises.

(** Case analysis on the tests of a definition until every branch is a
    plain [Returned] or [Raised]. *)
Ltac split_outcome :=
  repeat match goal with
         | |- only_Exceptions (if ?c then _ else _) => destruct c
         | |- only_Exceptions (match ?x with _ => _ end) => destruct x
         | |- only_Exceptions (let '(_, _) := ?p in _) => destruct p
         end;
  auto with raises.

Lemma int_of_str_raises (s : string) : only_Exceptions (PyStr.int_of_str s).
Proof. unfold PyStr.int_of_str. split_outcome. Qed.

Lemma int_raises (t : option string) : only_Exceptions (PyStr.int t).
Proof. destruct t; simpl; [apply int_of_str_raises | auto with raises]. Qed.

Lemma truediv_raises (a b : Z) : only_Exceptions (PyFloat.truediv a b).
Proof. unfold PyFloat.truediv. split_outcome. Qed.

Lemma trunc_raises (x : spec_float) : only_Exceptions (PyFloat.trunc x).
Proof. destruct x; simpl; auto with raises. Qed.

Lemma local_checked_raises `{Runtime} (u : Z) : only_Exceptions (DT.local_checked u).
Proof. unfold DT.local_checked. destruct (DT.in_range _); auto with raises. Qed.

Lemma epoch_seconds_raises `{Runtime} (d : datetime) : only_Exceptions (DT.epoch_seconds d).
Proof.
  unfold DT.epoch_seconds, DT.timestamp, DT.local_to_seconds.
  pose proof local_checked_raises as Hlocal. pose proof trunc_raises as Htrunc.
  apply only_Exceptions_obind; [|intros x; apply Htrunc].
  apply only_Exceptions_obind; [|intros u; auto with raises].
  apply only_Exceptions_obind; [apply Hlocal|intros lt].
  apply only_Exceptions_obind; [apply Hlocal|intros t1].
  apply only_Exceptions_obind.
  - destruct (t1 =? _); [|auto with raises].
    apply only_Exceptions_obind; [apply Hlocal|intros lt2; auto with raises].
  - intros b. destruct (_ && _); [auto with raises|].
    apply only_Exceptions_obind; [apply Hlocal|intros t2; auto with raises].
Qed.

Lemma fromtimestamp_raises `{Runtime} (x : spec_float) : only_Exceptions (DT.fromtimestamp x).
Proof. unfold DT.fromtimestamp. split_outcome. Qed.

#[export] Hint Resolve int_raises truediv_raises trunc_raises fromtimestamp_raises : raises.

Lemma timestamp_of_raises `{Runtime} (e : option element) : only_Exceptions (timestamp_of e).
Proof. destruct e; simpl; auto 10 with raises. Qed.

Lemma size_of_raises (e : option element) : only_Exceptions (size_of e).
Proof. destruct e; simpl; auto with raises. Qed.

Lemma succeeded_of_raises (e : option element) : only_Exceptions (succeeded_of e).
Proof. destruct e as [el|]; simpl; [destruct (ET.text el) | ]; auto with raises. Qed.

Lemma duration_of_raises (rq rs : option datetime) : only_Exceptions (duration_of rq rs).
Proof.
  destruct rq, rs; simpl; auto with raises.
  unfold DT.total_seconds. auto 10 with raises.
Qed.

#[export] Hint Resolve timestamp_of_raises size_of_raises succeeded_of_raises
  duration_of_raises : raises.

Lemma parse_record_raises `{Runtime} (record : element) :
  only_Exceptions (parse_record record).
Proof. unfold parse_record. auto 20 with raises. Qed.

(** ** The journal *)

Lemma logged_nil (w : world) : logged w [] = w.
Proof. destruct w. unfold logged. simpl. rewrite app_nil_r. reflexivity. Qed.

Lemma logged_app (w : world) (a b : list log_record) :
  logged (logged w a) b = logged w (a ++ b).
Proof. unfold logged. simpl. rewrite app_assoc. reflexivity. Qed.

Lemma logger_logged (l : level) (m : string) (c : option exn) (w : world) :
  logger l m c w = (Returned tt, logged w [{| lvl := l; msg := m; cause := c |}]).
Proof. reflexivity. Qed.

(** ** The record loop *)

Section RecordLoop.
Context {RT : Runtime}.

Lemma for_records_spec (records : list element) :
  forall (acc : list XRoadOperationalData) (w : world),
    for_records records acc w
    = (Returned (acc ++ parsed records), logged w (warnings records)).
Proof.
  induction records as [|record rest IH]; intros acc w.
  - simpl. unfold ret, parsed, warnings. simpl.
    rewrite app_nil_r, logged_nil. reflexivity.
  - simpl. unfold bind at 1. unfold try_catch, bind, lift, ret.
    unfold parsed, warnings. simpl.
    destruct (parse_record record) as [r|e] eqn:Hrec; simpl.
    + rewrite IH. rewrite <- app_assoc. reflexivity.
    + rewrite (parse_record_raises record e Hrec).
      rewrite IH. unfold logged. simpl. rewrite <- app_assoc. reflexivity.
Qed.

Lemma parsed_app (l1 l2 : list element) : parsed (l1 ++ l2) = parsed l1 ++ parsed l2.
Proof. unfold parsed. apply omap_app. Qed.

Lemma parsed_skip (bad : element) (rest : list element) (e : exn) :
  parse_record bad = Raised e -> parsed (bad :: rest) = parsed rest.
Proof. intros Hbad. unfold parsed. simpl. rewrite Hbad. reflexivity. Qed.

Lemma parsed_keep (good : element) (rest : list element) (r : XRoadOperationalData) :
  parse_record good = Returned r -> parsed (good :: rest) = r :: parsed rest.
Proof. intros Hgood. unfold parsed. simpl. rewrite Hgood. reflexivity. Qed.

(** What the parser does with a document the reader accepts. *)
Lemma parse_response_well_formed (response_xml : string) (root : element) (w : world) :
  ET_fromstring response_xml = Returned root ->
  _parse_operational_data_response response_xml w
  = (Returned (parsed (record_elements root)),
     logged w (warnings (record_elements root))).
Proof.
  intros Hroot. unfold _parse_operational_data_response, try_catch, bind, lift.
  rewrite Hroot. fold (record_elements root).
  rewrite for_records_spec. reflexivity.
Qed.

(** What it does with a document the reader rejects. *)
Lemma parse_response_rejected (response_xml : string) (e : exn) (w : world) :
  ET_fromstring response_xml = Raised e ->
  is_Exception e = true ->
  _parse_operational_data_response response_xml w
  = (Returned [],
     logged w [{| lvl := ERROR;
                  msg := "Erro ao fazer parse da resposta operacional: {e}";
                  cause := Some e |}]).
Proof.
  intros Hroot He. unfold _parse_operational_data_response, try_catch, bind, lift.
  rewrite Hroot, He. reflexivity.
Qed.

(** A record that parses has each field from its own element. *)
Lemma parse_record_inv (record : element) (r : XRoadOperationalData) :
  parse_record record = Returned r ->
  service_id r
  = match ET.find (ET.m "serviceXRoadRequestId") record with
    | Some el => ET.text el
    | None => Some "Unknown"%string
    end
  /\ client_id r
     = match ET.find (ET.m "clientXRoadRequestId") record with
       | Some el => ET.text el
       | None => Some "Unknown"%string
       end
  /\ producer_id r = "Unknown"%string
  /\ timestamp_of (ET.find (ET.m "requestInTs") record) = Returned (request_timestamp r)
  /\ timestamp_of (ET.find (ET.m "responseOutTs") record) = Returned (response_timestamp r)
  /\ size_of (ET.find (ET.m "requestSize") record) = Returned (request_size r)
  /\ size_of (ET.find (ET.m "responseSize") record) = Returned (response_size r)
  /\ succeeded_of (ET.find (ET.m "succeeded") record) = Returned (success r)
  /\ error_message r
     = match ET.find (ET.m "faultString") record with
       | Some el => ET.text el
       | None => None
       end
  /\ duration_of (request_timestamp r) (response_timestamp r)
     = Returned (request_duration r).
Proof.
  unfold parse_record. intros Hr.
  destruct (timestamp_of (ET.find (ET.m "requestInTs") record)) as [rq|] eqn:Hrq;
    simpl in Hr; [|discriminate Hr].
  destruct (timestamp_of (ET.find (ET.m "responseOutTs") record)) as [rs|] eqn:Hrs;
    simpl in Hr; [|discriminate Hr].
  destruct (size_of (ET.find (ET.m "requestSize") record)) as [n1|] eqn:Hn1;
    simpl in Hr; [|discriminate Hr].
  destruct (size_of (ET.find (ET.m "responseSize") record)) as [n2|] eqn:Hn2;
    simpl in Hr; [|discriminate Hr].
  destruct (succeeded_of (ET.find (ET.m "succeeded") record)) as [ok|] eqn:Hok;
    simpl in Hr; [|discriminate Hr].
  destruct (duration_of rq rs) as [d|] eqn:Hd; simpl in Hr; [|discriminate Hr].
  injection Hr as <-. simpl. repeat split; assumption.
Qed.

Lemma parse_record_producer (record : element) (r : XRoadOperationalData) :
  parse_record record = Returned r -> producer_id r = "Unknown"%string.
Proof. intros Hr. apply (parse_record_inv record r Hr). Qed.

Lemma parsed_producer (records : list element) :
  Forall (fun r => producer_id r = "Unknown"%string) (parsed records).
Proof.
  induction records as [|record rest IH]; [constructor|].
  destruct (parse_record record) as [r|e] eqn:Hrec.
  - rewrite (parsed_keep _ _ _ Hrec). constructor; [|exact IH].
    apply (parse_record_producer record r Hrec).
  - rewrite (parsed_skip _ _ _ Hrec). exact IH.
Qed.

End RecordLoop.

(** ** The operational parser: claims *)

(** C5.  When the XML reader rejects the response text,
    [_parse_operational_data_response] returns the empty list and does not
    raise; the failure is reported as one error record of the logger. *)
Theorem rejected_document_yields_empty_list `{Runtime}
    (response_xml : string) (e : exn) (w : world) :
  ET_fromstring response_xml = Raised e ->
  is_Exception e = true ->
  _parse_operational_data_response response_xml w
  = (Returned [],
     logged w [{| lvl := ERROR;
                  msg := "Erro ao fazer parse da resposta operacional: {e}";
                  cause := Some e |}]).
Proof. apply parse_response_rejected. Qed.

Lemma rejected_document_witness :
  @_parse_operational_data_response Fixtures.host "<two>" empty_world
  = (Returned [],
     logged empty_world
       [{| lvl := ERROR;
           msg := "Erro ao fazer parse da resposta operacional: {e}";
           cause := Some ParseError |}]).
Proof.
  apply (@rejected_document_yields_empty_list Fixtures.host "<two>" ParseError empty_world).
  - reflexivity.
  - reflexivity.
Defined.

(** C10.  Every record [_parse_operational_data_response] returns has
    [producer_id] equal to the constant ["Unknown"], whatever the
    document. *)
Theorem producer_id_is_always_Unknown `{Runtime}
    (response_xml : string) (w w' : world) (l : list XRoadOperationalData) :
  _parse_operational_data_response response_xml w = (Returned l, w') ->
  Forall (fun r => producer_id r = "Unknown"%string) l.
Proof.
  intros Hparse.
  destruct (ET_fromstring response_xml) as [root|e] eqn:Hroot.
  - rewrite (parse_response_well_formed _ _ _ Hroot) in Hparse.
    injection Hparse as <- _. apply parsed_producer.
  - destruct (is_Exception e) eqn:He.
    + rewrite (parse_response_rejected _ _ _ Hroot He) in Hparse.
      injection Hparse as <- _. constructor.
    + unfold _parse_operational_data_response, try_catch, bind, lift in Hparse.
      rewrite Hroot, He in Hparse. discriminate Hparse.
Qed.

Lemma producer_id_witness :
  Forall (fun r => producer_id r = "Unknown"%string)
         [Fixtures.populated; Fixtures.defaulted].
Proof.
  apply (@producer_id_is_always_Unknown Fixtures.host "<two/>" empty_world empty_world).
  vm_compute. reflexivity.
Defined.

(** C4.  The record elements of a document are parsed one by one: a record
    that raises is dropped (and logged as a warning) while the records
    before and after it are kept; in a record that parses, an absent
    element leaves its own field at the default (["Unknown"] for the two
    identifiers, [None] for the timestamps and the error text, [0] for the
    sizes, [False] for success) whatever the other elements are; a record
    element without children yields the all-default record; and on a host
    on UTC the document with one complete and one empty record yields
    exactly these two records and logs nothing. *)
Theorem malformed_record_skipped_absent_fields_defaulted `{Runtime} :
  (forall (response_xml : string) (root : element) (w : world)
          (before after : list element) (bad : element) (e : exn),
      ET_fromstring response_xml = Returned root ->
      record_elements root = before ++ bad :: after ->
      parse_record bad = Raised e ->
      _parse_operational_data_response response_xml w
      = (Returned (parsed before ++ parsed after),
         logged w (warnings before
                   ++ {| lvl := WARNING;
                         msg := "Erro ao processar registro operacional: {e}";
                         cause := Some e |} :: warnings after)))
  /\ (forall (record : element) (r : XRoadOperationalData),
         parse_record record = Returned r ->
         (ET.find (ET.m "serviceXRoadRequestId") record = None ->
          service_id r = Some "Unknown"%string)
         /\ (ET.find (ET.m "clientXRoadRequestId") record = None ->
             client_id r = Some "Unknown"%string)
         /\ (ET.find (ET.m "requestInTs") record = None -> request_timestamp r = None)
         /\ (ET.find (ET.m "responseOutTs") record = None -> response_timestamp r = None)
         /\ (ET.find (ET.m "requestSize") record = None -> request_size r = 0)
         /\ (ET.find (ET.m "responseSize") record = None -> response_size r = 0)
         /\ (ET.find (ET.m "succeeded") record = None -> success r = false)
         /\ (ET.find (ET.m "faultString") record = None -> error_message r = None))
  /\ (forall (name : string) (text : option string),
         parse_record (Element name text []) = Returned Fixtures.defaulted)
  /\ (forall (reader : string -> outcome element) (response_xml : string) (w : world),
         reader response_xml = Returned Fixtures.two_records ->
         @_parse_operational_data_response (utc_host reader) response_xml w
         = (Returned [Fixtures.populated; Fixtures.defaulted], w)).
Proof.
  split; [|split; [|split]].
  - intros response_xml root w before after bad e Hroot Hsplit Hbad.
    rewrite (parse_response_well_formed _ _ _ Hroot). rewrite Hsplit.
    rewrite parsed_app, (parsed_skip _ _ _ Hbad).
    unfold warnings. rewrite omap_app. simpl. rewrite Hbad. reflexivity.
  - intros record r Hr.
    destruct (parse_record_inv record r Hr)
      as (Hs & Hc & _ & Hrq & Hrs & Hn1 & Hn2 & Hok & Hf & _).
    repeat split; intros Habsent; rewrite Habsent in *; simpl in *; congruence.
  - intros name text. reflexivity.
  - intros reader response_xml w Hroot.
    rewrite (@parse_response_well_formed (utc_host reader) _ _ _ Hroot).
    replace (@parsed (utc_host reader) (record_elements Fixtures.two_records))
      with [Fixtures.populated; Fixtures.defaulted] by (vm_compute; reflexivity).
    replace (@warnings (utc_host reader) (record_elements Fixtures.two_records))
      with (@nil log_record) by (vm_compute; reflexivity).
    rewrite logged_nil. reflexivity.
Qed.

Lemma malformed_record_witness :
  @_parse_operational_data_response Fixtures.host "<mixed/>" empty_world
  = (Returned [Fixtures.populated; Fixtures.defaulted],
     logged empty_world
       [{| lvl := WARNING;
           msg := "Erro ao processar registro operacional: {e}";
           cause := Some ValueError |}]).
Proof.
  destruct (@malformed_record_skipped_absent_fields_defaulted Fixtures.host) as [Hbatch _].
  rewrite (Hbatch "<mixed/>"%string
                  (Fixtures.envelope_of
                     [Fixtures.full_record; Fixtures.broken_record; Fixtures.bare_record])
                  empty_world [Fixtures.full_record] [Fixtures.bare_record]
                  Fixtures.broken_record ValueError eq_refl eq_refl eq_refl).
  vm_compute. reflexivity.
Defined.

Lemma bind_int_value (n n' : Z) : Store.bind_int n = Returned n' -> n' = n.
Proof.
  unfold Store.bind_int. destruct (_ && _); intros Hn; [|discriminate Hn].
  injection Hn as <-. reflexivity.
Qed.

Lemma snoc_not_self {A} (l : list A) (x : A) : l <> l ++ [x].
Proof.
  intros Heq. apply (f_equal (@length A)) in Heq.
  rewrite length_app in Heq. simpl in Heq. lia.
Qed.

Lemma insert_or_ignore_duration (table table' : list operational_row)
    (r : XRoadOperationalData) (row : operational_row) :
  Store.insert_or_ignore table r = Returned table' ->
  table' = table ++ [row] ->
  op_request_duration row = request_duration r.
Proof.
  unfold Store.insert_or_ignore. intros Hins Hrow.
  destruct (Store.bind_int (request_size r)) as [n1|]; simpl in Hins; [|discriminate Hins].
  destruct (Store.bind_int (response_size r)) as [n2|]; simpl in Hins; [|discriminate Hins].
  assert (Hdur : forall od,
             match request_duration r with
             | Some d => obind (Store.bind_int d) (fun d' => Returned (Some d'))
             | None => Returned None
             end = Returned od -> od = request_duration r).
  { intros od. destruct (request_duration r) as [d|].
    - destruct (Store.bind_int d) as [d'|] eqn:Hd'; simpl; intros Hod; [|discriminate Hod].
      apply bind_int_value in Hd'. subst d'. injection Hod as <-. reflexivity.
    - intros Hod. injection Hod as <-. reflexivity. }
  destruct (match request_duration r with Some _ => _ | None => _ end) as [od|];
    simpl in Hins; [|discriminate Hins].
  specialize (Hdur od eq_refl). subst od.
  destruct (service_id r), (client_id r); injection Hins as <-;
    try (exfalso; exact (snoc_not_self _ _ Hrow)).
  apply app_inv_head in Hrow. injection Hrow as <-. reflexivity.
Qed.

(** ** Binary64: one rounding stays within one unit of the last place *)

Lemma digits2_pos_bounds (p : positive) :
  2 ^ (Zpos (digits2_pos p) - 1) <= Zpos p < 2 ^ Zpos (digits2_pos p).
Proof.
  induction p as [p IH|p IH|]; simpl digits2_pos.
  - rewrite Pos2Z.inj_succ. replace (Z.succ (Zpos (digits2_pos p)) - 1) with (Zpos (digits2_pos p)) by lia.
    rewrite Z.pow_succ_r by lia.
    replace (2 ^ Zpos (digits2_pos p)) with (2 * 2 ^ (Zpos (digits2_pos p) - 1)) in *
      by (rewrite <- Z.pow_succ_r by lia; f_equal; lia).
    lia.
  - rewrite Pos2Z.inj_succ. replace (Z.succ (Zpos (digits2_pos p)) - 1) with (Zpos (digits2_pos p)) by lia.
    rewrite Z.pow_succ_r by lia.
    replace (2 ^ Zpos (digits2_pos p)) with (2 * 2 ^ (Zpos (digits2_pos p) - 1)) in *
      by (rewrite <- Z.pow_succ_r by lia; f_equal; lia).
    lia.
  - simpl. lia.
Qed.

Lemma digits2_pos_unique (p : positive) (n : Z) :
  2 ^ (n - 1) <= Zpos p < 2 ^ n -> Zpos (digits2_pos p) = n.
Proof.
  intros [Hlo Hhi]. pose proof (digits2_pos_bounds p) as [Hlo' Hhi'].
  set (d := Zpos (digits2_pos p)) in *.
  assert (0 < d) by (unfold d; lia).
  assert (0 < n).
  { destruct (Z_lt_le_dec 0 n) as [|Hn]; [assumption|].
    assert (2 ^ n <= 1).
    { destruct (Z.eq_dec n 0) as [->|]; [simpl; lia|].
      rewrite Z.pow_neg_r by lia. lia. }
    lia. }
  destruct (Z_lt_le_dec d n) as [Hlt|Hge].
  - assert (2 ^ d <= 2 ^ (n - 1)) by (apply Z.pow_le_mono_r; lia). lia.
  - destruct (Z_lt_le_dec n d) as [Hlt|Hle]; [|lia].
    assert (2 ^ n <= 2 ^ (d - 1)) by (apply Z.pow_le_mono_r; lia). lia.
Qed.

Lemma shr_1_div2 (r : shr_record) :
  0 <= shr_m r -> shr_m (shr_1 r) = shr_m r / 2.
Proof.
  destruct r as [m b c]. simpl. intros Hm.
  rewrite <- Z.div2_div. destruct m as [|[p|p|]|p]; try reflexivity. lia.
Qed.

Lemma iter_shr_1 (n : positive) :
  forall r, 0 <= shr_m r -> shr_m (SpecFloat.iter_pos shr_1 n r) = shr_m r / 2 ^ Zpos n.
Proof.
  induction n as [n IH|n IH|]; intros r Hr; simpl SpecFloat.iter_pos.
  - assert (H1 : 0 <= shr_m (shr_1 r)) by (rewrite shr_1_div2 by lia; apply Z.div_pos; lia).
    assert (H2 : 0 <= shr_m (SpecFloat.iter_pos shr_1 n (shr_1 r)))
      by (rewrite IH by lia; apply Z.div_pos; [lia|apply Z.pow_pos_nonneg; lia]).
    rewrite IH by lia. rewrite IH by lia. rewrite shr_1_div2 by lia.
    rewrite !Z.div_div by (try apply Z.pow_pos_nonneg; lia).
    f_equal. replace (Zpos n~1) with (1 + Zpos n + Zpos n) by lia.
    rewrite !Z.pow_add_r by lia. lia.
  - assert (H2 : 0 <= shr_m (SpecFloat.iter_pos shr_1 n r))
      by (rewrite IH by lia; apply Z.div_pos; [lia|apply Z.pow_pos_nonneg; lia]).
    rewrite IH by lia. rewrite IH by lia.
    rewrite !Z.div_div by (try apply Z.pow_pos_nonneg; lia).
    f_equal. replace (Zpos n~0) with (Zpos n + Zpos n) by lia.
    rewrite !Z.pow_add_r by lia. lia.
  - rewrite shr_1_div2 by lia. reflexivity.
Qed.

Lemma shr_m_of_loc (m : Z) (l : location) : shr_m (shr_record_of_loc m l) = m.
Proof. destruct l as [|[| |]]; reflexivity. Qed.

Lemma shr_spec (r : shr_record) (e n : Z) :
  0 <= shr_m r ->
  shr_m (fst (shr r e n)) = shr_m r / 2 ^ Z.max n 0
  /\ snd (shr r e n) = e + Z.max n 0.
Proof.
  intros Hr. destruct n as [|p|p]; simpl shr; simpl fst; simpl snd.
  - rewrite Z.div_1_r. split; [reflexivity|lia].
  - rewrite iter_shr_1 by lia. replace (Z.max (Zpos p) 0) with (Zpos p) by lia.
    split; reflexivity.
  - replace (Z.max (Zneg p) 0) with 0 by lia. rewrite Z.div_1_r. split; [reflexivity|lia].
Qed.

Lemma round_nearest_even_bounds (m : Z) (l : location) :
  m <= round_nearest_even m l <= m + 1.
Proof.
  destruct l as [|[| |]]; simpl; try lia. destruct (Z.even m); lia.
Qed.


Lemma Zdigits2_bounds (mx : Z) :
  0 < mx -> 2 ^ (Zdigits2 mx - 1) <= mx < 2 ^ Zdigits2 mx.
Proof.
  destruct mx as [|p|p]; try lia. intros _. apply digits2_pos_bounds.
Qed.

Lemma Zdigits2_unique (mx n : Z) :
  0 < mx -> 2 ^ (n - 1) <= mx < 2 ^ n -> Zdigits2 mx = n.
Proof.
  destruct mx as [|p|p]; try lia. intros _. apply digits2_pos_unique.
Qed.

Lemma fexp_normal (e : Z) : -1021 <= e -> fexp 53 1024 e = e - 53.
Proof. intros He. unfold fexp, emin. lia. Qed.

(** Rounding a mantissa of at least 53 digits in the range of the normal
    numbers: unless it overflows, the result has 53 digits and lies within
    one unit of its last place of the value rounded. *)
Lemma binary_round_aux_faithful (s : bool) (mx ex : Z) (lx : location) :
  0 < mx ->
  53 <= Zdigits2 mx ->
  -1074 <= ex ->
  binary_round_aux 53 1024 s mx ex lx = S754_infinity s
  \/ exists (m : positive) (T : Z),
       binary_round_aux 53 1024 s mx ex lx = S754_finite s m (ex + T)
       /\ Zdigits2 mx - 53 <= T <= Zdigits2 mx - 52
       /\ 2 ^ 52 <= Zpos m < 2 ^ 53
       /\ (Zpos m - 1) * 2 ^ T <= mx < (Zpos m + 1) * 2 ^ T.
Proof.
  intros Hmx Hd Hex.
  pose proof (Zdigits2_bounds mx Hmx) as [Hlo Hhi].
  set (d := Zdigits2 mx) in *. set (N := d - 53).
  assert (HN : 0 <= N) by (unfold N; lia).
  assert (HpN : 0 < 2 ^ N) by (apply Z.pow_pos_nonneg; lia).
  unfold binary_round_aux, shr_fexp. fold d.
  rewrite (fexp_normal (d + ex)) by lia.
  replace (d + ex - 53 - ex) with N by (unfold N; lia).
  pose proof (shr_spec (shr_record_of_loc mx lx) ex N) as Hshr1.
  rewrite shr_m_of_loc in Hshr1. specialize (Hshr1 ltac:(lia)).
  destruct (shr (shr_record_of_loc mx lx) ex N) as [mrs1 e1]. simpl fst in Hshr1.
  simpl snd in Hshr1. destruct Hshr1 as [Ha He1].
  replace (Z.max N 0) with N in Ha, He1 by lia.
  set (a := mx / 2 ^ N) in *.
  assert (Hdm : mx = 2 ^ N * a + mx mod 2 ^ N) by (apply Z.div_mod; lia).
  pose proof (Z.mod_pos_bound mx (2 ^ N) HpN) as Hmod.
  assert (Hsplit : 2 ^ d = 2 ^ N * 2 ^ 53).
  { rewrite <- Z.pow_add_r by lia. f_equal. unfold N. lia. }
  assert (Hsplit' : 2 ^ (d - 1) = 2 ^ N * 2 ^ 52).
  { rewrite <- Z.pow_add_r by lia. f_equal. unfold N. lia. }
  assert (Ha52 : 2 ^ 52 <= a < 2 ^ 53) by nia.
  pose proof (round_nearest_even_bounds (shr_m mrs1) (loc_of_shr_record mrs1)) as Hrne.
  set (m1 := round_nearest_even (shr_m mrs1) (loc_of_shr_record mrs1)) in *.
  rewrite Ha in Hrne. clearbody m1.
  destruct (Z_lt_le_dec m1 (2 ^ 53)) as [Hsmall|Hbig].
  - assert (Hd1 : Zdigits2 m1 = 53) by (apply Zdigits2_unique; simpl; lia).
    rewrite Hd1. rewrite (fexp_normal (53 + e1)) by lia.
    replace (53 + e1 - 53 - e1) with 0 by lia. simpl shr.
    cbv beta iota zeta delta [shr_m].
    destruct m1 as [|m|m] eqn:Hm1; try lia.
    destruct (e1 <=? 1024 - 53); [right|left; reflexivity].
    exists m, N. rewrite He1.
    split; [reflexivity|]. split; [unfold N; lia|]. split; [lia|]. nia.
  - assert (Hm1 : m1 = 2 ^ 53) by lia.
    assert (Hd1 : Zdigits2 m1 = 54) by (apply Zdigits2_unique; rewrite Hm1; simpl; lia).
    rewrite Hd1. rewrite (fexp_normal (54 + e1)) by lia.
    replace (54 + e1 - 53 - e1) with 1 by lia.
    pose proof (shr_spec (shr_record_of_loc m1 loc_Exact) e1 1) as Hshr2.
    rewrite shr_m_of_loc in Hshr2. specialize (Hshr2 ltac:(lia)).
    destruct (shr (shr_record_of_loc m1 loc_Exact) e1 1) as [mrs2 e2].
    simpl fst in Hshr2. simpl snd in Hshr2. destruct Hshr2 as [Hm2 He2].
    rewrite Hm1 in Hm2. change (2 ^ 53 / 2 ^ Z.max 1 0) with (Zpos (2 ^ 52)) in Hm2.
    rewrite Hm2.
    destruct (e2 <=? 1024 - 53); [right|left; reflexivity].
    exists (2 ^ 52)%positive, (N + 1). rewrite He2, He1.
    replace (Z.max 1 0) with 1 by lia.
    split; [f_equal; lia|]. split; [unfold N; lia|]. split; [simpl; lia|].
    rewrite Z.pow_add_r by lia. change (2 ^ 1) with 2.
    change (Zpos (2 ^ 52)) with (2 ^ 52). nia.
Qed.

Lemma Zdigits2_upper (mx n : Z) : 0 < mx -> mx < 2 ^ n -> Zdigits2 mx <= n.
Proof.
  intros Hmx Hn. pose proof (Zdigits2_bounds mx Hmx) as [Hlo _].
  destruct (Z_lt_le_dec n (Zdigits2 mx)) as [Hlt|]; [|lia].
  assert (0 <= n).
  { destruct (Z_lt_le_dec n 0) as [Hneg|]; [|lia]. rewrite Z.pow_neg_r in Hn by lia. lia. }
  assert (2 ^ n <= 2 ^ (Zdigits2 mx - 1)) by (apply Z.pow_le_mono_r; lia). lia.
Qed.

Lemma Zdigits2_lower (mx n : Z) : 0 <= n -> 2 ^ n <= mx -> n + 1 <= Zdigits2 mx.
Proof.
  intros Hn Hlo. assert (Hmx : 0 < mx) by (pose proof (Z.pow_pos_nonneg 2 n); lia).
  pose proof (Zdigits2_bounds mx Hmx) as [_ Hhi].
  destruct (Z_lt_le_dec (Zdigits2 mx) (n + 1)) as [Hlt|]; [|lia].
  assert (0 < Zdigits2 mx) by (destruct mx; simpl; lia).
  assert (2 ^ Zdigits2 mx <= 2 ^ n) by (apply Z.pow_le_mono_r; lia). lia.
Qed.

(** The quotient of a count of microseconds by a million: unless it
    overflows, a double with 53 digits within one unit of its last place
    of the quotient. *)
Lemma SFdiv_micro (s : bool) (p : positive) :
  SFdiv 53 1024 (S754_finite s p 0) (S754_finite false 1000000 0) = S754_infinity s
  \/ exists (m : positive) (sh T : Z),
       SFdiv 53 1024 (S754_finite s p 0) (S754_finite false 1000000 0)
       = S754_finite s m (T - sh)
       /\ 0 <= sh <= 72 /\ 0 <= T
       /\ 2 ^ 52 <= Zpos m < 2 ^ 53
       /\ (Zpos m - 1) * 2 ^ T * 1000000 <= Zpos p * 2 ^ sh
          < (Zpos m + 1) * 2 ^ T * 1000000.
Proof.
  pose proof (Zdigits2_bounds (Zpos p) eq_refl) as [Hlo Hhi].
  assert (Hk : 1 <= Zdigits2 (Zpos p)) by (simpl; lia).
  unfold SFdiv, SFdiv_core_binary. change (Zdigits2 1000000) with 20.
  set (k := Zdigits2 (Zpos p)) in *.
  replace (k + 0 - (20 + 0)) with (k - 20) by lia.
  rewrite (fexp_normal (k - 20)) by lia.
  set (sh := Z.max (73 - k) 0).
  replace (Z.min (k - 20 - 53) (0 - 0)) with (- sh) by (unfold sh; lia).
  replace (0 - 0 - - sh) with sh by lia.
  assert (Hsh : 0 <= sh <= 72) by (unfold sh; lia).
  assert (Hshift :
            match sh with
            | 0 => Zpos p
            | Zpos _ => Z.shiftl (Zpos p) sh
            | Zneg _ => 0
            end = Zpos p * 2 ^ sh).
  { destruct sh eqn:Hs; try lia. apply Z.shiftl_mul_pow2. lia. }
  rewrite Hshift.
  pose proof (Z_div_mod (Zpos p * 2 ^ sh) 1000000 eq_refl) as Hdiv.
  destruct (Z.div_eucl (Zpos p * 2 ^ sh) 1000000) as [q r]. destruct Hdiv as [Hq Hr].
  assert (Hpsh : 0 < 2 ^ sh) by (apply Z.pow_pos_nonneg; lia).
  assert (Hbig : 2 ^ 72 <= Zpos p * 2 ^ sh).
  { destruct (Z_le_gt_dec k 73) as [Hle|Hgt].
    - assert (Hpow' : 2 ^ 72 = 2 ^ (k - 1) * 2 ^ sh).
      { rewrite <- Z.pow_add_r by lia. f_equal. unfold sh. lia. }
      nia.
    - assert (2 ^ 72 <= 2 ^ (k - 1)) by (apply Z.pow_le_mono_r; lia). nia. }
  assert (Hq52 : 2 ^ 52 <= q) by lia.
  assert (Hdq : 53 <= Zdigits2 q) by (apply (Zdigits2_lower q 52); lia).
  destruct (binary_round_aux_faithful (xorb s false) q (- sh) (new_location 1000000 r))
    as [Hinf|(m & T & Hround & HT & Hm & Hfaith)]; try lia.
  { left. rewrite Hinf, xorb_false_r. reflexivity. }
  right. rewrite Hround. rewrite xorb_false_r.
  exists m, sh, T. split; [f_equal; lia|].
  split; [lia|]. split; [lia|]. split; [exact Hm|]. nia.
Qed.

(** The product of such a double by a thousand. *)
Lemma SFmul_thousand (s : bool) (m : positive) (e : Z) :
  2 ^ 52 <= Zpos m < 2 ^ 53 ->
  -72 <= e ->
  SFmul 53 1024 (S754_finite s m e) (S754_finite false 8796093022208000 (-43))
  = S754_infinity s
  \/ exists (m2 : positive) (T2 : Z),
       SFmul 53 1024 (S754_finite s m e) (S754_finite false 8796093022208000 (-43))
       = S754_finite s m2 (e - 43 + T2)
       /\ 52 <= T2 <= 54
       /\ 2 ^ 52 <= Zpos m2 < 2 ^ 53
       /\ (Zpos m2 - 1) * 2 ^ T2 <= Zpos m * (1000 * 2 ^ 43) < (Zpos m2 + 1) * 2 ^ T2.
Proof.
  intros Hm He. unfold SFmul. rewrite xorb_false_r.
  rewrite Pos2Z.inj_mul.
  set (P := Zpos m * Zpos 8796093022208000).
  assert (HP : 2 ^ 104 <= P < 2 ^ 106) by (unfold P; change (2 ^ 104) with (2 ^ 52 * 2 ^ 52);
    change (2 ^ 106) with (2 ^ 53 * 2 ^ 53); nia).
  assert (HdP : 105 <= Zdigits2 P <= 106).
  { split; [apply (Zdigits2_lower P 104); lia|apply Zdigits2_upper; lia]. }
  destruct (binary_round_aux_faithful s P (e + -43) loc_Exact)
    as [Hinf|(m2 & T2 & Hround & HT & Hm2 & Hfaith)]; try lia.
  { left. exact Hinf. }
  right. exists m2, T2. rewrite Hround.
  split; [f_equal; lia|]. split; [lia|]. split; [exact Hm2|].
  unfold P in Hfaith. change (1000 * 2 ^ 43) with 8796093022208000. exact Hfaith.
Qed.

Lemma of_int_thousand :
  PyFloat.of_int 1000 = S754_finite false 8796093022208000 (-43).
Proof. vm_compute. reflexivity. Qed.

(** The chain of roundings of [int(td.total_seconds() * 1000)], in whole
    numbers: [m] and [m2] are the mantissas of the quotient and of the
    product, [ms] the whole part of the product. *)
Lemma milliseconds_bounds (p m m2 ms sh T T2 : Z) :
  0 < p -> 0 <= sh -> 0 <= T -> 0 <= T2 ->
  2 ^ 52 <= m -> 2 ^ 52 <= m2 ->
  (m - 1) * 2 ^ T * 1000000 <= p * 2 ^ sh < (m + 1) * 2 ^ T * 1000000 ->
  (m2 - 1) * 2 ^ T2 <= m * (1000 * 2 ^ 43) < (m2 + 1) * 2 ^ T2 ->
  ms = PyFloat.int_part (Z.to_pos m2) (T - sh - 43 + T2) ->
  0 <= ms /\ p - p / 2 ^ 50 - 1000 <= 1000 * ms <= p + p / 2 ^ 50.
Proof.
  intros Hp Hsh HT HT2 Hm Hm2 [Hx1 Hx2] [Hy1 Hy2] Hms.
  assert (HA : 0 < 2 ^ sh) by (apply Z.pow_pos_nonneg; lia).
  assert (HB : 0 < 2 ^ T) by (apply Z.pow_pos_nonneg; lia).
  assert (HC : 0 < 2 ^ T2) by (apply Z.pow_pos_nonneg; lia).
  assert (Hexp : 2 ^ T * 2 ^ T2 = 2 ^ (T + T2)) by (rewrite Z.pow_add_r by lia; reflexivity).
  unfold PyFloat.int_part in Hms. rewrite Z2Pos.id in Hms by lia.
  change (1000 * 2 ^ 43) with 8796093022208000 in Hy1, Hy2.
  change (2 ^ 52) with 4503599627370496 in Hm, Hm2.
  set (A := 2 ^ sh) in *. set (B := 2 ^ T) in *. set (C := 2 ^ T2) in *.
  (* the quotient: one rounding *)
  assert (F1 : 4503599627370496 * B <= m * B)
    by (apply Z.mul_le_mono_nonneg_r; lia).
  assert (F2 : 4503599627370496 * C <= m2 * C)
    by (apply Z.mul_le_mono_nonneg_r; lia).
  assert (Hx1' : 4503599627370495 * 1000000 * (m * B) <= 4503599627370496 * (p * A)) by lia.
  assert (Hx2' : 4503599627370496 * (p * A) < 4503599627370497 * 1000000 * (m * B)) by lia.
  (* the product: a second rounding *)
  assert (Hy1' : 4503599627370495 * (m2 * C) <= 4503599627370496 * 8796093022208000 * m) by lia.
  assert (Hy2' : 4503599627370496 * 8796093022208000 * m < 4503599627370497 * (m2 * C)) by lia.
  assert (G1 : 4503599627370495 * (m2 * C) * B <= 4503599627370496 * 8796093022208000 * m * B)
    by (apply Z.mul_le_mono_nonneg_r; lia).
  assert (G2 : 4503599627370496 * 8796093022208000 * m * B < 4503599627370497 * (m2 * C) * B)
    by (apply Z.mul_lt_mono_pos_r; lia).
  assert (Hlow : 4503599627370495 * 4503599627370495 * 1000 * (m2 * (B * C))
                 <= 4503599627370496 * 4503599627370496 * 8796093022208 * (p * A)) by lia.
  assert (Hupp : 4503599627370496 * 4503599627370496 * 8796093022208 * (p * A)
                 < 4503599627370497 * 4503599627370497 * 1000 * (m2 * (B * C))) by lia.
  clear Hx1 Hx2 Hy1 Hy2 Hx1' Hx2' Hy1' Hy2' G1 G2 F1 F2.
  assert (Hrel :
            (0 <= T - sh - 43 + T2 /\ B * C = 2 ^ (T - sh - 43 + T2) * (8796093022208 * A))
            \/ (T - sh - 43 + T2 < 0
                /\ 8796093022208 * A = 2 ^ (- (T - sh - 43 + T2)) * (B * C))).
  { destruct (Z_le_gt_dec 0 (T - sh - 43 + T2)) as [Hpos|Hneg]; [left|right].
    - split; [exact Hpos|]. unfold A, B, C. change 8796093022208 with (2 ^ 43).
      rewrite <- !Z.pow_add_r by lia. f_equal. lia.
    - split; [lia|]. unfold A, B, C. change 8796093022208 with (2 ^ 43).
      rewrite <- !Z.pow_add_r by lia. f_equal. lia. }
  assert (HBC : 0 < B * C) by (apply Z.mul_pos_pos; assumption).
  set (BC := B * C) in *. set (e2 := T - sh - 43 + T2) in *.
  clearbody BC A e2. clear B C HB HC Hexp.
  pose proof (Z.div_mod p (2 ^ 50) ltac:(lia)) as Hg.
  pose proof (Z.mod_pos_bound p (2 ^ 50) ltac:(lia)) as Hr.
  change (2 ^ 50) with 1125899906842624 in *.
  set (g := p / 1125899906842624) in *. set (r := p mod 1125899906842624) in *.
  clearbody g r.
  destruct Hrel as [[Hpos Hexp]|[Hneg Hexp]].
  - assert (Hle : (0 <=? e2) = true) by (apply Z.leb_le; exact Hpos).
    rewrite Hle in Hms.
    assert (HE : 0 < 2 ^ e2) by (apply Z.pow_pos_nonneg; lia).
    set (E := 2 ^ e2) in *. clearbody E.
    assert (Heq : m2 * BC = ms * (8796093022208 * A)) by (rewrite Hms, Hexp; ring).
    rewrite Heq in Hlow, Hupp.
    assert (Hlow' : 4503599627370495 * 4503599627370495 * 1000 * ms
                    <= 4503599627370496 * 4503599627370496 * p).
    { apply (Z.mul_le_mono_pos_r _ _ (8796093022208 * A)); lia. }
    assert (Hupp' : 4503599627370496 * 4503599627370496 * p
                    < 4503599627370497 * 4503599627370497 * 1000 * ms).
    { apply (Z.mul_lt_mono_pos_r (8796093022208 * A)); lia. }
    assert (H0 : 0 <= ms) by (rewrite Hms; apply Z.mul_nonneg_nonneg; lia).
    split; [exact H0|]. lia.
  - assert (Hle : (0 <=? e2) = false) by (apply Z.leb_gt; exact Hneg).
    rewrite Hle in Hms.
    assert (HU : 0 < 2 ^ (- e2)) by (apply Z.pow_pos_nonneg; lia).
    set (U := 2 ^ (- e2)) in *. clearbody U.
    pose proof (Z.div_mod m2 U ltac:(lia)) as Hdm.
    pose proof (Z.mod_pos_bound m2 U HU) as Hmod.
    rewrite <- Hms in Hdm. set (r2 := m2 mod U) in *. clearbody r2.
    assert (H0 : 0 <= ms) by (rewrite Hms; apply Z.div_pos; lia).
    assert (Hfloor : U * ms * BC <= m2 * BC)
      by (apply Z.mul_le_mono_nonneg_r; lia).
    assert (Hceil : m2 * BC < U * (ms + 1) * BC)
      by (apply Z.mul_lt_mono_pos_r; lia).
    assert (Heq1 : U * ms * BC = ms * (8796093022208 * A)) by (rewrite Hexp; ring).
    assert (Heq2 : U * (ms + 1) * BC = (ms + 1) * (8796093022208 * A)) by (rewrite Hexp; ring).
    rewrite Heq1 in Hfloor. rewrite Heq2 in Hceil.
    assert (Hlow' : 4503599627370495 * 4503599627370495 * 1000 * ms
                    <= 4503599627370496 * 4503599627370496 * p).
    { apply (Z.mul_le_mono_pos_r _ _ (8796093022208 * A)); lia. }
    assert (Hupp' : 4503599627370496 * 4503599627370496 * p
                    < 4503599627370497 * 4503599627370497 * 1000 * (ms + 1)).
    { apply (Z.mul_lt_mono_pos_r (8796093022208 * A)); lia. }
    split; [exact H0|]. lia.
Qed.

(** The sign of the value rounded goes through unchanged. *)
Lemma binary_round_aux_opp (s : bool) (mx ex : Z) (lx : location) :
  binary_round_aux 53 1024 (negb s) mx ex lx = SFopp (binary_round_aux 53 1024 s mx ex lx).
Proof.
  unfold binary_round_aux.
  destruct (shr_fexp 53 1024 mx ex lx) as [mrs1 e1].
  destruct (shr_fexp 53 1024 _ e1 loc_Exact) as [mrs2 e2].
  destruct (shr_m mrs2); [reflexivity| |reflexivity].
  destruct (e2 <=? 1024 - 53); reflexivity.
Qed.

Lemma SFdiv_opp (x : spec_float) (q : positive) :
  SFdiv 53 1024 (SFopp x) (S754_finite false q 0)
  = SFopp (SFdiv 53 1024 x (S754_finite false q 0)).
Proof.
  destruct x as [[]|[]| |s m e]; try reflexivity.
  unfold SFdiv, SFopp at 1.
  destruct (SFdiv_core_binary 53 1024 (Zpos m) e (Zpos q) 0) as [[mz ez] lz].
  rewrite !xorb_false_r. apply binary_round_aux_opp.
Qed.

Lemma SFmul_opp (x : spec_float) (m : positive) (e : Z) :
  SFmul 53 1024 (SFopp x) (S754_finite false m e)
  = SFopp (SFmul 53 1024 x (S754_finite false m e)).
Proof.
  destruct x as [[]|[]| |s mx ex]; try reflexivity.
  unfold SFmul, SFopp at 1. rewrite !xorb_false_r. apply binary_round_aux_opp.
Qed.

Lemma trunc_opp (x : spec_float) :
  PyFloat.trunc (SFopp x)
  = match PyFloat.trunc x with
    | Returned n => Returned (- n)
    | Raised e => Raised e
    end.
Proof.
  destruct x as [s|s| |s m e]; try reflexivity.
  simpl. destruct s; simpl; f_equal; lia.
Qed.

Lemma exact_opp (a : Z) : a <> 0 -> PyFloat.exact (- a) = SFopp (PyFloat.exact a).
Proof. destruct a; [contradiction|reflexivity|reflexivity]. Qed.

Lemma truediv_opp (a : Z) :
  a <> 0 ->
  PyFloat.truediv (- a) 1000000
  = match PyFloat.truediv a 1000000 with
    | Returned x => Returned (SFopp x)
    | Raised e => Raised e
    end.
Proof.
  intros Ha. unfold PyFloat.truediv, PyFloat.prec, PyFloat.emax.
  change (1000000 =? 0) with false. cbv iota.
  rewrite (exact_opp a Ha). change (PyFloat.exact 1000000) with (S754_finite false 1000000 0).
  rewrite SFdiv_opp.
  destruct (SFdiv 53 1024 (PyFloat.exact a) (S754_finite false 1000000 0)); reflexivity.
Qed.

(** [int(td.total_seconds() * 1000)] for a timedelta of [delta]
    microseconds. *)
Lemma milliseconds_opp (delta : Z) :
  (let! secs := DT.total_seconds (- delta) in
   PyFloat.trunc (PyFloat.mul secs (PyFloat.of_int 1000)))%outcome
  = match (let! secs := DT.total_seconds delta in
           PyFloat.trunc (PyFloat.mul secs (PyFloat.of_int 1000)))%outcome with
    | Returned n => Returned (- n)
    | Raised e => Raised e
    end.
Proof.
  destruct (Z.eq_dec delta 0) as [->|Hne]; [vm_compute; reflexivity|].
  unfold DT.total_seconds, PyFloat.mul, PyFloat.prec, PyFloat.emax.
  rewrite (truediv_opp delta Hne), of_int_thousand.
  destruct (PyFloat.truediv delta 1000000) as [x|e]; [|reflexivity].
  unfold obind. rewrite SFmul_opp. apply trunc_opp.
Qed.

Lemma milliseconds_magnitude (s : bool) (p : positive) (ms : Z) :
  (let! secs := DT.total_seconds (PyFloat.signed s (Zpos p)) in
   PyFloat.trunc (PyFloat.mul secs (PyFloat.of_int 1000)))%outcome = Returned ms ->
  exists n : Z,
    ms = PyFloat.signed s n
    /\ 0 <= n
    /\ Zpos p - Zpos p / 2 ^ 50 - 1000 <= 1000 * n <= Zpos p + Zpos p / 2 ^ 50.
Proof.
  unfold DT.total_seconds, PyFloat.truediv, PyFloat.mul, PyFloat.prec, PyFloat.emax.
  change (1000000 =? 0) with false. cbv iota.
  change (PyFloat.exact 1000000) with (S754_finite false 1000000 0).
  assert (Hexact : PyFloat.exact (PyFloat.signed s (Zpos p)) = S754_finite s p 0)
    by (destruct s; reflexivity).
  rewrite Hexact, of_int_thousand.
  destruct (SFdiv_micro s p) as [Hinf|(m & sh & T & Hdiv & Hsh & HT & Hm & Hx)];
    [rewrite Hinf; discriminate|].
  rewrite Hdiv. cbv beta iota delta [obind].
  destruct (SFmul_thousand s m (T - sh) Hm ltac:(lia))
    as [Hinf|(m2 & T2 & Hmul & HT2 & Hm2 & Hy)];
    [rewrite Hinf; discriminate|].
  rewrite Hmul. simpl PyFloat.trunc. intros Hms. injection Hms as <-.
  exists (PyFloat.int_part m2 (T - sh - 43 + T2)). split; [reflexivity|].
  apply (milliseconds_bounds (Zpos p) (Zpos m) (Zpos m2) _ sh T T2); try lia.
  reflexivity.
Qed.

Lemma duration_of_present (rq rs : option datetime) (d : option Z) :
  duration_of rq rs = Returned d -> (is_Some d <-> is_Some rq /\ is_Some rs).
Proof.
  destruct rq as [rq|], rs as [rs|]; simpl; intros Hd.
  - destruct (DT.total_seconds (DT.diff rs rq)) as [secs|]; simpl in Hd; [|discriminate Hd].
    destruct (PyFloat.trunc _) as [ms|]; simpl in Hd; [|discriminate Hd].
    injection Hd as <-. split; [intros _; split; eauto | intros _; eauto].
  - injection Hd as <-. split; [intros [? ?]; discriminate | intros [_ [? ?]]; discriminate].
  - injection Hd as <-. split; [intros [? ?]; discriminate | intros [[? ?] _]; discriminate].
  - injection Hd as <-. split; [intros [? ?]; discriminate | intros [[? ?] _]; discriminate].
Qed.

(** The duration is a function of the difference of the two datetimes. *)
Lemma duration_of_diff (rq rs : datetime) (delta : Z) :
  wall rs - wall rq = delta ->
  duration_of (Some rq) (Some rs) = duration_of (Some (Fixtures.at_wall 0)) (Some (Fixtures.at_wall delta)).
Proof.
  intros Hdelta. simpl. unfold DT.diff. simpl. rewrite Hdelta, Z.sub_0_r. reflexivity.
Qed.

(** The duration in terms of the difference. *)
Lemma duration_of_eq (rq rs : datetime) :
  duration_of (Some rq) (Some rs)
  = match (let! secs := DT.total_seconds (wall rs - wall rq) in
           PyFloat.trunc (PyFloat.mul secs (PyFloat.of_int 1000)))%outcome with
    | Returned ms => Returned (Some ms)
    | Raised e => Raised e
    end.
Proof.
  unfold duration_of, DT.diff, obind.
  destruct (DT.total_seconds (wall rs - wall rq)); reflexivity.
Qed.

(** Swapping the two datetimes negates the duration. *)
Lemma duration_of_swap (a b : option datetime) (d : option Z) :
  duration_of a b = Returned d -> duration_of b a = Returned (Z.opp <$> d).
Proof.
  destruct a as [rq|], b as [rs|];
    try (intros Hd; injection Hd as <-; reflexivity).
  rewrite !duration_of_eq.
  replace (wall rq - wall rs) with (- (wall rs - wall rq)) by lia.
  rewrite milliseconds_opp.
  destruct (let! secs := DT.total_seconds (wall rs - wall rq) in
            PyFloat.trunc (PyFloat.mul secs (PyFloat.of_int 1000)))%outcome as [ms|e];
    intros Hd; [|discriminate Hd].
  injection Hd as <-. reflexivity.
Qed.

(** The duration against the difference [delta] of the two datetimes in
    microseconds: it has the sign of [delta], and a thousand times its
    magnitude lies within a thousand (and the two roundings) of the
    magnitude of [delta]. *)
Lemma duration_of_bounds (rq rs : datetime) (d : option Z) :
  duration_of (Some rq) (Some rs) = Returned d ->
  exists ms : Z,
    d = Some ms
    /\ 0 <= ms * (wall rs - wall rq)
    /\ Z.abs (wall rs - wall rq) - Z.abs (wall rs - wall rq) / 2 ^ 50 - 1000
       <= 1000 * Z.abs ms
       <= Z.abs (wall rs - wall rq) + Z.abs (wall rs - wall rq) / 2 ^ 50.
Proof.
  rewrite duration_of_eq. set (delta := wall rs - wall rq).
  destruct (let! secs := DT.total_seconds delta in
            PyFloat.trunc (PyFloat.mul secs (PyFloat.of_int 1000)))%outcome
    as [ms|e] eqn:Hms; intros Hd; [|discriminate Hd].
  injection Hd as <-. exists ms. split; [reflexivity|].
  destruct delta as [|p|p].
  - vm_compute in Hms. injection Hms as <-. split; [lia|].
    vm_compute. split; discriminate.
  - destruct (milliseconds_magnitude false p ms Hms) as (n & -> & Hn & Hbounds).
    simpl PyFloat.signed. rewrite (Z.abs_eq n) by lia.
    change (Z.abs (Zpos p)) with (Zpos p). split; [lia|exact Hbounds].
  - destruct (milliseconds_magnitude true p ms Hms) as (n & -> & Hn & Hbounds).
    simpl PyFloat.signed. rewrite Z.abs_opp, (Z.abs_eq n) by lia.
    change (Z.abs (Zneg p)) with (Zpos p). split; [|exact Hbounds]. nia.
Qed.

(** A record the parser makes of an element of the document is among the
    records returned. *)
Lemma parsed_In `{Runtime} (records : list element) (record : element)
    (r : XRoadOperationalData) :
  In record records -> parse_record record = Returned r -> In r (parsed records).
Proof.
  intros Hin Hr. induction records as [|el rest IH]; [destruct Hin|].
  destruct (parse_record el) as [r'|e] eqn:Hel.
  - rewrite (parsed_keep el rest r' Hel). destruct Hin as [->|Hin].
    + left. congruence.
    + right. apply IH, Hin.
  - rewrite (parsed_skip el rest e Hel). destruct Hin as [->|Hin]; [congruence|].
    apply IH, Hin.
Qed.

(** A record with both identifiers whose numbers fit is stored, with its
    duration as it is. *)
Lemma insert_or_ignore_stores (table : list operational_row) (r : XRoadOperationalData)
    (service client : string) :
  bindable r ->
  service_id r = Some service ->
  client_id r = Some client ->
  exists row : operational_row,
    Store.insert_or_ignore table r = Returned (table ++ [row])
    /\ op_request_duration row = request_duration r.
Proof.
  intros (Hrq & Hrs & Hd) Hservice Hclient. unfold Store.insert_or_ignore.
  assert (Hfits : forall n, fits_int64 n -> Store.bind_int n = Returned n).
  { intros n [Hlo Hhi]. unfold Store.bind_int.
    destruct (Z.leb_spec (- 2 ^ 63) n); [|lia]. destruct (Z.ltb_spec n (2 ^ 63)); [|lia].
    reflexivity. }
  rewrite (Hfits _ Hrq), (Hfits _ Hrs), Hservice, Hclient. simpl.
  destruct (request_duration r) as [d|] eqn:Hdur; simpl.
  - rewrite (Hfits d (Hd d eq_refl)). simpl. eexists. split; reflexivity.
  - eexists. split; reflexivity.
Qed.

(** C2, as the code has it.  In a record the parser returns, the duration
    is present exactly when both timestamps are.  When it is present, it
    is [int((response - request).total_seconds() * 1000)], which depends on
    the difference [delta] of the two datetimes in microseconds and on
    nothing else: it has the sign of [delta] or is zero, and a thousand
    times its magnitude is at most the magnitude of [delta] and falls short
    of it by at most a thousand, up to the two roundings in binary64 (one
    part in [2^50]); for a difference below [2^50] microseconds (35 years)
    it is the difference in milliseconds cut towards zero, but a whole
    number [k] of milliseconds may give [k - 1] (1001 ms give 1000).  It is
    not clamped: a response stamped
    a millisecond or more before the request has a negative duration, a
    record with the two timestamps swapped the negated duration; a response
    250 ms after the request gives 250, one 250 ms before it -250.
    Whatever its duration, the record is among those the parser returns
    for a document that holds its element, and the parser logs nothing
    about it; and the data store writes the record, when it has both
    identifiers and its numbers fit, with the duration as it is. *)
Theorem duration_present_iff_both_timestamps `{Runtime}
    (record : element) (r : XRoadOperationalData) :
  parse_record record = Returned r ->
  (is_Some (request_duration r)
   <-> is_Some (request_timestamp r) /\ is_Some (response_timestamp r))
  /\ (forall rq rs : datetime,
         request_timestamp r = Some rq ->
         response_timestamp r = Some rs ->
         exists ms : Z,
           request_duration r = Some ms
           /\ 0 <= ms * (wall rs - wall rq)
           /\ Z.abs (wall rs - wall rq) - Z.abs (wall rs - wall rq) / 2 ^ 50 - 1000
              <= 1000 * Z.abs ms
              <= Z.abs (wall rs - wall rq) + Z.abs (wall rs - wall rq) / 2 ^ 50
           /\ (Z.abs (wall rs - wall rq) < 2 ^ 50 ->
               Z.abs ms = Z.abs (wall rs - wall rq) / 1000
               \/ (Z.abs (wall rs - wall rq) mod 1000 = 0
                   /\ Z.abs ms = Z.abs (wall rs - wall rq) / 1000 - 1))
           /\ (wall rs - wall rq <= -1000 -> ms < 0)
           /\ (wall rs - wall rq = 250000 -> ms = 250)
           /\ (wall rs - wall rq = -250000 -> ms = -250))
  /\ (forall (other : element) (r' : XRoadOperationalData),
         parse_record other = Returned r' ->
         (forall rq rs rq' rs' : datetime,
             request_timestamp r = Some rq -> response_timestamp r = Some rs ->
             request_timestamp r' = Some rq' -> response_timestamp r' = Some rs' ->
             wall rs' - wall rq' = wall rs - wall rq ->
             request_duration r' = request_duration r)
         /\ (request_timestamp r' = response_timestamp r ->
             response_timestamp r' = request_timestamp r ->
             request_duration r' = Z.opp <$> request_duration r))
  /\ (forall (response_xml : string) (root : element) (w : world),
         ET_fromstring response_xml = Returned root ->
         In record (record_elements root) ->
         exists records : list XRoadOperationalData,
           _parse_operational_data_response response_xml w
           = (Returned records, logged w (warnings (record_elements root)))
           /\ In r records
           /\ warning_of (parse_record record) = None)
  /\ (forall (table : list operational_row) (service client : string),
         bindable r ->
         service_id r = Some service ->
         client_id r = Some client ->
         exists row : operational_row,
           Store.insert_or_ignore table r = Returned (table ++ [row])
           /\ op_request_duration row = request_duration r)
  /\ (forall (table table' : list operational_row) (row : operational_row),
         Store.insert_or_ignore table r = Returned table' ->
         table' = table ++ [row] ->
         op_request_duration row = request_duration r).
Proof.
  intros Hr.
  destruct (parse_record_inv record r Hr) as (_ & _ & _ & _ & _ & _ & _ & _ & _ & Hd).
  split; [|split; [|split; [|split; [|split]]]].
  - apply (duration_of_present _ _ _ Hd).
  - intros rq rs Hrq Hrs. rewrite Hrq, Hrs in Hd.
    destruct (duration_of_bounds rq rs _ Hd) as (ms & Hms & Hsign & Hbounds).
    exists ms. split; [exact Hms|]. split; [exact Hsign|]. split; [exact Hbounds|].
    rewrite Hms in Hd. clear Hms.
    split; [|split; [|split]].
    + intros Hsmall.
      rewrite (Z.div_small (Z.abs (wall rs - wall rq)) (2 ^ 50)) in Hbounds by lia.
      pose proof (Z.div_mod (Z.abs (wall rs - wall rq)) 1000 ltac:(lia)) as Hq.
      pose proof (Z.mod_pos_bound (Z.abs (wall rs - wall rq)) 1000 ltac:(lia)) as Hmod.
      lia.
    + intros Hneg.
      destruct (Z.eq_dec (wall rs - wall rq) (-1000)) as [Heq|Hne].
      * rewrite (duration_of_diff rq rs _ Heq) in Hd.
        vm_compute in Hd. injection Hd as <-. lia.
      * pose proof (Z.div_mod (Z.abs (wall rs - wall rq)) (2 ^ 50) ltac:(lia)) as Hg.
        pose proof (Z.mod_pos_bound (Z.abs (wall rs - wall rq)) (2 ^ 50) ltac:(lia)) as Hmod.
        assert (Hnz : ms <> 0) by lia. nia.
    + intros Hdelta. rewrite (duration_of_diff rq rs _ Hdelta) in Hd.
      vm_compute in Hd. injection Hd as <-. reflexivity.
    + intros Hdelta. rewrite (duration_of_diff rq rs _ Hdelta) in Hd.
      vm_compute in Hd. injection Hd as <-. reflexivity.
  - intros other r' Hr'.
    destruct (parse_record_inv other r' Hr') as (_ & _ & _ & _ & _ & _ & _ & _ & _ & Hd').
    split.
    + intros rq rs rq' rs' Hrq Hrs Hrq' Hrs' Hsame.
      rewrite Hrq, Hrs in Hd. rewrite Hrq', Hrs' in Hd'.
      rewrite (duration_of_diff rq' rs' _ Hsame) in Hd'.
      rewrite (duration_of_diff rq rs _ eq_refl) in Hd.
      rewrite Hd in Hd'. injection Hd' as <-. reflexivity.
    + intros Hrq' Hrs'. rewrite Hrq', Hrs' in Hd'.
      rewrite (duration_of_swap _ _ _ Hd) in Hd'. injection Hd' as <-. reflexivity.
  - intros response_xml root w Hroot Hin.
    exists (parsed (record_elements root)).
    split; [apply (parse_response_well_formed _ _ _ Hroot)|].
    split; [apply (parsed_In _ _ _ Hin Hr)|]. rewrite Hr. reflexivity.
  - intros table service client. apply insert_or_ignore_stores.
  - intros table table' row. apply insert_or_ignore_duration.
Qed.

Lemma duration_witness : request_duration Fixtures.populated = Some 250.
Proof.
  destruct (@duration_present_iff_both_timestamps
              Fixtures.host Fixtures.full_record Fixtures.populated eq_refl)
    as (_ & Hdelta & _).
  destruct (Hdelta (Fixtures.at_wall 1700000000000000) (Fixtures.at_wall 1700000000250000)
                   eq_refl eq_refl) as (ms & Hms & _ & _ & _ & _ & Hquarter & _).
  rewrite Hms. f_equal. apply Hquarter. reflexivity.
Defined.

(** C2, as the specification states it, fails: the duration is not clamped
    at zero.  A record whose response is stamped 250 ms before its request
    is returned with duration -250, nothing is logged, and the data store
    writes the row with that duration. *)
Lemma negative_duration_returned_and_stored :
  @_parse_operational_data_response Fixtures.host "<backwards/>" empty_world
  = (Returned [Fixtures.backwards], empty_world)
  /\ request_duration Fixtures.backwards = Some (-250)
  /\ ~ (0 <= -250)
  /\ _store_operational_data [Fixtures.backwards] None empty_world
     = (Returned tt,
        {| tbl_operational_data := [Fixtures.backwards_row];
           tbl_health_data := [];
           journal := [];
           naps := [] |}).
Proof.
  split; [vm_compute; reflexivity|].
  split; [reflexivity|].
  split; [lia|].
  vm_compute. reflexivity.
Qed.

(** ** Identifiers and request documents *)

Lemma index_in_range {A} (l : list A) (i : nat) :
  (i < length l)%nat -> exists x, PyStr.index l i = Returned x /\ nth_error l i = Some x.
Proof.
  intros Hi. unfold PyStr.index.
  destruct (nth_error l i) as [x|] eqn:Hx.
  - exists x. split; reflexivity.
  - apply nth_error_None in Hx. lia.
Qed.

Lemma index_out_of_range {A} (l : list A) (i : nat) :
  (length l <= i)%nat -> PyStr.index l i = Raised IndexError.
Proof.
  intros Hi. unfold PyStr.index.
  apply nth_error_None in Hi. rewrite Hi. reflexivity.
Qed.

Lemma index_raises {A} (l : list A) (i : nat) (e : exn) :
  PyStr.index l i = Raised e -> e = IndexError /\ (length l <= i)%nat.
Proof.
  unfold PyStr.index. destruct (nth_error l i) eqn:Hx; intros He; [discriminate He|].
  injection He as <-. split; [reflexivity|]. apply nth_error_None. exact Hx.
Qed.

(** Both places of an identifier are there exactly when it has three
    segments. *)
Lemma member_of_three_segments (s : string) :
  (3 <= segments s)%nat ->
  exists c k, member_class s = Returned c /\ member_code s = Returned k
              /\ nth_error (PyStr.split "/" s) 1 = Some c
              /\ nth_error (PyStr.split "/" s) 2 = Some k.
Proof.
  unfold segments, member_class, member_code. intros Hlen.
  destruct (index_in_range (PyStr.split "/" s) 1) as (c & Hc & Hc'); [lia|].
  destruct (index_in_range (PyStr.split "/" s) 2) as (k & Hk & Hk'); [lia|].
  exists c, k. repeat split; assumption.
Qed.

Lemma member_code_short (s : string) :
  (segments s < 3)%nat -> member_code s = Raised IndexError.
Proof. unfold segments, member_code. intros Hlen. apply index_out_of_range. lia. Qed.

Lemma member_class_short (s : string) :
  (segments s < 2)%nat -> member_class s = Raised IndexError.
Proof. unfold segments, member_class. intros Hlen. apply index_out_of_range. lia. Qed.

Lemma health_request_short (self : XRoadMetricsClient)
    (server_id : option string) (now : datetime) :
  (segments (self_client_id self) < 3)%nat ->
  _build_health_data_request self server_id now = Raised IndexError.
Proof.
  intros Hlen. unfold _build_health_data_request.
  destruct (member_class (self_client_id self)) as [c|e] eqn:Hc; simpl.
  - rewrite (member_code_short _ Hlen). reflexivity.
  - apply index_raises in Hc. destruct Hc as [-> _]. reflexivity.
Qed.

Lemma health_request_long (self : XRoadMetricsClient)
    (server_id : option string) (now : datetime) :
  (3 <= segments (self_client_id self))%nat ->
  exists doc, _build_health_data_request self server_id now = Returned doc.
Proof.
  intros Hlen. unfold _build_health_data_request.
  destruct (member_of_three_segments _ Hlen) as (c & k & Hc & Hk & _).
  rewrite Hc, Hk. simpl. eexists. reflexivity.
Qed.

(** C7, as the code has it.  The class and the code of a compact
    identifier are its segments 1 and 2 (counted from 0): both are found
    when the identifier has at least three slash-separated segments; with
    fewer than three the code is missing and the extraction raises
    [IndexError], which is also what the request builder then raises. *)
Theorem compact_identifier_needs_three_segments (s : string) :
  ((3 <= segments s)%nat ->
   exists c k, member_class s = Returned c /\ member_code s = Returned k
               /\ nth_error (PyStr.split "/" s) 1 = Some c
               /\ nth_error (PyStr.split "/" s) 2 = Some k)
  /\ ((segments s < 3)%nat ->
      member_code s = Raised IndexError
      /\ forall (self : XRoadMetricsClient) (server_id : option string) (now : datetime),
           self_client_id self = s ->
           _build_health_data_request self server_id now = Raised IndexError).
Proof.
  split.
  - apply member_of_three_segments.
  - intros Hlen. split; [apply member_code_short; exact Hlen|].
    intros self server_id now <-. apply health_request_short. exact Hlen.
Qed.

Lemma compact_identifier_witness :
  member_class "DEV/GOV/12345" = Returned "GOV"%string
  /\ member_code "DEV/GOV/12345" = Returned "12345"%string
  /\ member_code "GOV" = Raised IndexError.
Proof.
  destruct (compact_identifier_needs_three_segments "DEV/GOV/12345") as [Hlong _].
  destruct (compact_identifier_needs_three_segments "GOV") as [_ Hshort].
  destruct Hlong as (c & k & Hc & Hk & Hc' & Hk'); [vm_compute; lia|].
  destruct Hshort as [Hcode _]; [vm_compute; lia|].
  rewrite Hc, Hk. vm_compute in Hc', Hk'. injection Hc' as <-. injection Hk' as <-.
  split; [reflexivity|]. split; [reflexivity|]. exact Hcode.
Defined.

(** C7, as the specification states it, fails: an identifier of two
    segments is not enough.  ["GOV/12345"] has two segments, its code is
    missing, and the request builder raises the untyped [IndexError]. *)
Lemma two_segments_raise_IndexError :
  segments "GOV/12345" = 2%nat
  /\ member_class "GOV/12345" = Returned "12345"%string
  /\ member_code "GOV/12345" = Raised IndexError
  /\ _build_health_data_request
       {| xroad_server := "https://ss.example/";
          self_client_id := "GOV/12345";
          timeout := None;
          ssl_verify := None;
          xroad_instance := None |}
       None (Fixtures.at_wall 0)
     = Raised IndexError.
Proof. repeat split. Qed.

Lemma strftime_same_second (now now' : datetime) :
  wall now / 1000000 = wall now' / 1000000 ->
  DT.strftime_compact now = DT.strftime_compact now'.
Proof. intros Hsec. unfold DT.strftime_compact. rewrite Hsec. reflexivity. Qed.

Lemma client_filter_clause_raises (self : XRoadMetricsClient)
    (client_filter : option string) (e : exn) :
  client_filter_clause self client_filter = Raised e ->
  e = IndexError
  /\ exists f, client_filter = Some f /\ nonempty f = true /\ (segments f < 3)%nat.
Proof.
  unfold client_filter_clause. destruct client_filter as [f|]; [|discriminate].
  destruct (nonempty f) eqn:Hf; [|discriminate].
  destruct (member_class f) as [c|e1] eqn:Hc; simpl.
  - destruct (member_code f) as [k|e2] eqn:Hk; simpl; [discriminate|].
    intros He. injection He as <-. apply index_raises in Hk. destruct Hk as [-> Hlen].
    split; [reflexivity|]. exists f. unfold segments. repeat split; [assumption|lia].
  - intros He. injection He as <-. apply index_raises in Hc. destruct Hc as [-> Hlen].
    split; [reflexivity|]. exists f. unfold segments. repeat split; [assumption|lia].
Qed.

Lemma member_raises (s : string) (e : exn) :
  member_class s = Raised e \/ member_code s = Raised e ->
  e = IndexError /\ (segments s < 3)%nat.
Proof.
  unfold member_class, member_code, segments.
  intros [He|He]; apply index_raises in He; destruct He as [-> Hlen];
    (split; [reflexivity|lia]).
Qed.

(** C8, as the code has it.  Each request builder is a function of its
    arguments and of the reading of the clock, of which only the whole
    second enters the document (as the request id): with equal arguments
    and readings within the same second the two documents are identical.
    Given window bounds that convert to epoch seconds, a builder raises
    nothing but [IndexError], and only for an identifier (the client's, or
    a non-empty client filter) of fewer than three segments. *)
Theorem request_builders_depend_on_clock_second `{Runtime}
    (self : XRoadMetricsClient) (records_from records_to : datetime)
    (client_filter server_id : option string) (now now' : datetime) (from_ts to_ts : Z) :
  wall now / 1000000 = wall now' / 1000000 ->
  DT.epoch_seconds records_from = Returned from_ts ->
  DT.epoch_seconds records_to = Returned to_ts ->
  _build_operational_data_request self records_from records_to client_filter now
  = _build_operational_data_request self records_from records_to client_filter now'
  /\ _build_health_data_request self server_id now
     = _build_health_data_request self server_id now'
  /\ (forall e,
         _build_operational_data_request self records_from records_to client_filter now
         = Raised e ->
         e = IndexError
         /\ ((segments (self_client_id self) < 3)%nat
             \/ exists f, client_filter = Some f /\ nonempty f = true
                          /\ (segments f < 3)%nat))
  /\ (forall e,
         _build_health_data_request self server_id now = Raised e ->
         e = IndexError /\ (segments (self_client_id self) < 3)%nat).
Proof.
  intros Hsec Hfrom Hto.
  pose proof (strftime_same_second now now' Hsec) as Hid.
  split; [|split; [|split]].
  - unfold _build_operational_data_request. rewrite Hid. reflexivity.
  - unfold _build_health_data_request. rewrite Hid. reflexivity.
  - intros e. unfold _build_operational_data_request. rewrite Hfrom, Hto. simpl.
    destruct (client_filter_clause self client_filter) as [clause|e1] eqn:Hclause; simpl.
    + destruct (member_class (self_client_id self)) as [c|e2] eqn:Hc; simpl.
      * destruct (member_code (self_client_id self)) as [k|e3] eqn:Hk; simpl; [discriminate|].
        intros He. injection He as <-.
        destruct (member_raises _ _ (or_intror Hk)) as [-> Hlen]. auto.
      * intros He. injection He as <-.
        destruct (member_raises _ _ (or_introl Hc)) as [-> Hlen]. auto.
    + intros He. injection He as <-.
      destruct (client_filter_clause_raises _ _ _ Hclause) as [-> Hf]. auto.
  - intros e. unfold _build_health_data_request.
    destruct (member_class (self_client_id self)) as [c|e2] eqn:Hc; simpl.
    + destruct (member_code (self_client_id self)) as [k|e3] eqn:Hk; simpl; [discriminate|].
      intros He. injection He as <-. apply (member_raises _ _ (or_intror Hk)).
    + intros He. injection He as <-. apply (member_raises _ _ (or_introl Hc)).
Qed.

Lemma request_builders_witness :
  _build_health_data_request Fixtures.client None (Fixtures.at_wall 1700000000000000)
  = _build_health_data_request Fixtures.client None (Fixtures.at_wall 1700000000999999).
Proof.
  apply (@request_builders_depend_on_clock_second Fixtures.host Fixtures.client
           (Fixtures.at_wall 1699992800000000) (Fixtures.at_wall 1700000000000000)
           None None
           (Fixtures.at_wall 1700000000000000) (Fixtures.at_wall 1700000000999999)
           1699992800 1700000000).
  - reflexivity.
  - vm_compute. reflexivity.
  - vm_compute. reflexivity.
Defined.

(** C8, as the specification states it, fails: the builders are not
    functions of their arguments alone.  The same client asking for health
    data at two readings of the clock one second apart gets two different
    documents: the request ids differ. *)
Lemma same_inputs_different_documents :
  _build_health_data_request Fixtures.client None (Fixtures.at_wall 1700000000000000)
  <> _build_health_data_request Fixtures.client None (Fixtures.at_wall 1700000001000000).
Proof.
  intros Heq. apply (f_equal (excerpt 820 14)) in Heq.
  vm_compute in Heq. discriminate Heq.
Qed.

(** ** Health data *)

Section HealthClaims.
Context {RT : Runtime}.

Lemma put_int_other (key k : string) (e : option element) (d d' : gmap string pyval) :
  put_int key e d = Returned d' -> key <> k -> d' !! k = d !! k.
Proof.
  unfold put_int. destruct e as [el|]; intros Hput Hne.
  - destruct (PyStr.int (ET.text el)) as [n|]; simpl in Hput; [|discriminate Hput].
    injection Hput as <-. apply lookup_insert_ne. exact Hne.
  - injection Hput as <-. reflexivity.
Qed.

(** The entry [avgDuration] of the statistics dict is read from the
    element [requestMinDuration], and is missing when that element is. *)
Lemma parse_statistics_avgDuration (stats_elem : element) (stats : gmap string pyval) :
  parse_statistics stats_elem = Returned stats ->
  match ET.find (ET.m "requestMinDuration") stats_elem with
  | Some el =>
      exists x, float_of_text (ET.text el) = Returned x
                /\ stats !! "avgDuration" = Some (PFloat x)
  | None => stats !! "avgDuration" = None
  end.
Proof.
  unfold parse_statistics. intros Hstats.
  destruct (put_int "successfulRequestCount" _ _) as [s1|] eqn:H1;
    simpl in Hstats; [|discriminate Hstats].
  destruct (put_int "unsuccessfulRequestCount" _ _) as [s2|] eqn:H2;
    simpl in Hstats; [|discriminate Hstats].
  assert (Hnone : s2 !! "avgDuration" = None).
  { rewrite (put_int_other _ "avgDuration" _ _ _ H2) by discriminate.
    rewrite (put_int_other _ "avgDuration" _ _ _ H1) by discriminate.
    apply lookup_empty. }
  destruct (ET.find (ET.m "requestMinDuration") stats_elem) as [el|].
  - destruct (float_of_text (ET.text el)) as [x|]; simpl in Hstats; [|discriminate Hstats].
    injection Hstats as <-. exists x. split; [reflexivity|]. apply lookup_insert_eq.
  - injection Hstats as <-. exact Hnone.
Qed.

Lemma parse_service_event_statistics (service_event : element)
    (service_data : gmap string pyval) :
  parse_service_event service_event = Returned service_data ->
  match ET.find (ET.m "lastPeriodStatistics") service_event with
  | Some stats_elem =>
      exists stats, parse_statistics stats_elem = Returned stats
                    /\ service_data !! "lastPeriodStatistics" = Some (PDict stats)
  | None => service_data !! "lastPeriodStatistics" = None
  end.
Proof.
  unfold parse_service_event. intros Hsd.
  set (d0 := match ET.find (ET.m "serviceCode") service_event with
             | Some el => <["serviceCode" := text_value (ET.text el)]> (∅ : gmap string pyval)
             | None => ∅
             end) in Hsd.
  assert (H0 : d0 !! "lastPeriodStatistics" = None).
  { unfold d0. destruct (ET.find (ET.m "serviceCode") service_event).
    - rewrite lookup_insert_ne by discriminate. apply lookup_empty.
    - apply lookup_empty. }
  destruct (put_int "lastSuccessfulRequestTimestamp" _ d0) as [d1|] eqn:H1;
    simpl in Hsd; [|discriminate Hsd].
  destruct (put_int "lastUnsuccessfulRequestTimestamp" _ d1) as [d2|] eqn:H2;
    simpl in Hsd; [|discriminate Hsd].
  assert (Hnone : d2 !! "lastPeriodStatistics" = None).
  { rewrite (put_int_other _ "lastPeriodStatistics" _ _ _ H2) by discriminate.
    rewrite (put_int_other _ "lastPeriodStatistics" _ _ _ H1) by discriminate.
    exact H0. }
  destruct (ET.find (ET.m "lastPeriodStatistics") service_event) as [stats_elem|].
  - destruct (parse_statistics stats_elem) as [stats|]; simpl in Hsd; [|discriminate Hsd].
    injection Hsd as <-. exists stats. split; [reflexivity|]. apply lookup_insert_eq.
  - injection Hsd as <-. exact Hnone.
Qed.

(** The row a service dict is stored as has [avg_duration] from the
    entry [avgDuration] of its statistics, and [0.0] without one. *)
Lemma insert_health_avg (table table' : list health_row) (service : gmap string pyval) :
  Store.insert_health table (PDict service) = Returned table' ->
  exists row stats,
    table' = table ++ [row]
    /\ Store.get service "lastPeriodStatistics" (PDict ∅) = PDict stats
    /\ Store.stored_real (Store.get stats "avgDuration" (PFloat (S754_zero false)))
       = Returned (h_avg_duration row).
Proof.
  unfold Store.insert_health. intros Hins.
  destruct (Store.get service "lastPeriodStatistics" (PDict ∅)) as [| | | | |stats];
    try discriminate Hins.
  destruct (Store.stored_instant service "lastSuccessfulRequestTimestamp") as [t1|];
    simpl in Hins; [|discriminate Hins].
  destruct (Store.stored_instant service "lastUnsuccessfulRequestTimestamp") as [t2|];
    simpl in Hins; [|discriminate Hins].
  destruct (Store.stored_count (Store.get stats "successfulRequestCount" (PInt 0))) as [ok|];
    simpl in Hins; [|discriminate Hins].
  destruct (Store.stored_count (Store.get stats "unsuccessfulRequestCount" (PInt 0))) as [ko|];
    simpl in Hins; [|discriminate Hins].
  destruct (Store.stored_real _) as [avg|] eqn:Havg; simpl in Hins; [|discriminate Hins].
  destruct (Store.get service "serviceCode" PNone) as [| | |code| |]; try discriminate Hins.
  injection Hins as <-. eexists. exists stats. repeat split. exact Havg.
Qed.

(** The row one service element is stored as. *)
Lemma stored_avg_duration (service_event : element) (service_data : gmap string pyval)
    (table table' : list health_row) :
  parse_service_event service_event = Returned service_data ->
  Store.insert_health table (PDict service_data) = Returned table' ->
  exists row,
    table' = table ++ [row] /\ read_from_requestMinDuration service_event row.
Proof.
  intros Hparse Hins.
  destruct (insert_health_avg table table' service_data Hins)
    as (row & stats & Htable & Hstats & Havg).
  exists row. split; [exact Htable|]. unfold read_from_requestMinDuration.
  pose proof (parse_service_event_statistics service_event service_data Hparse) as Hblock.
  unfold Store.get in Hstats, Havg.
  destruct (ET.find (ET.m "lastPeriodStatistics") service_event) as [stats_elem|].
  - destruct Hblock as (stats' & Hstats' & Hlookup).
    rewrite Hlookup in Hstats. simpl in Hstats. injection Hstats as ->.
    pose proof (parse_statistics_avgDuration stats_elem stats Hstats') as Hentry.
    destruct (ET.find (ET.m "requestMinDuration") stats_elem) as [el|].
    + destruct Hentry as (x & Hx & Hlookup'). rewrite Hlookup' in Havg. simpl in Havg.
      injection Havg as <-. exists x. split; [exact Hx|reflexivity].
    + rewrite Hentry in Havg. simpl in Havg. injection Havg as <-. reflexivity.
  - rewrite Hblock in Hstats. simpl in Hstats. injection Hstats as <-.
    rewrite lookup_empty in Havg. simpl in Havg. injection Havg as <-. reflexivity.
Qed.

(** The rows a list of parsed services is stored as. *)
Lemma stored_avg_durations (service_events : list element) (ds : list (gmap string pyval)) :
  Forall2 (fun ev d => parse_service_event ev = Returned d) service_events ds ->
  forall table table' : list health_row,
    Store.insert_all_health table (map PDict ds) = Returned table' ->
    exists rows,
      table' = table ++ rows
      /\ Forall2 read_from_requestMinDuration service_events rows.
Proof.
  induction 1 as [|ev d evs ds Hd Hall IH]; intros table table' Hins.
  - injection Hins as <-. exists []. rewrite app_nil_r. split; [reflexivity|].
    apply List.Forall2_nil.
  - change (obind (Store.insert_health table (PDict d))
                  (fun t => Store.insert_all_health t (map PDict ds))
            = Returned table') in Hins.
    destruct (Store.insert_health table (PDict d)) as [t1|e] eqn:Hone;
      [|discriminate Hins].
    change (Store.insert_all_health t1 (map PDict ds) = Returned table') in Hins.
    destruct (stored_avg_duration ev d table t1 Hd Hone) as (row & -> & Hrow).
    destruct (IH _ _ Hins) as (rows & -> & Hrows).
    exists (row :: rows). rewrite <- app_assoc. split; [reflexivity|].
    apply List.Forall2_cons; [exact Hrow|exact Hrows].
Qed.

(** The dicts the service loop appends are those of the service
    elements, one for one. *)
Lemma for_service_events_inv (service_events : list element) :
  forall (services l : list pyval),
    for_service_events service_events services = Returned l ->
    exists ds,
      l = services ++ map PDict ds
      /\ Forall2 (fun ev d => parse_service_event ev = Returned d) service_events ds.
Proof.
  induction service_events as [|ev rest IH]; intros services l Hl; simpl in Hl.
  - injection Hl as <-. exists []. simpl. rewrite app_nil_r. split; [reflexivity|constructor].
  - destruct (parse_service_event ev) as [d|] eqn:Hd; simpl in Hl; [|discriminate Hl].
    destruct (IH _ _ Hl) as (ds & -> & Hall).
    exists (d :: ds). simpl. rewrite <- app_assoc. split; [reflexivity|].
    constructor; assumption.
Qed.

Lemma or_return_Returned {A} (partial : gmap string pyval) (step : outcome A)
    (k : A -> M (gmap string pyval)) (w w' : world) (d : gmap string pyval) (key : string) :
  or_return partial step k w = (Returned d, w') ->
  partial !! key = None ->
  is_Some (d !! key) ->
  exists a, step = Returned a /\ k a w = (Returned d, w').
Proof.
  unfold or_return. intros Hrun Hpartial Hkey.
  destruct step as [a|e]; [exists a; split; [reflexivity|exact Hrun]|].
  unfold try_catch, raise, bind in Hrun. destruct (is_Exception e); [|discriminate Hrun].
  simpl in Hrun. injection Hrun as <- _.
  rewrite Hpartial in Hkey. destruct Hkey as [? Hkey]. discriminate Hkey.
Qed.

(** The entry [services] of the parsed health data lists the dicts of the
    service elements of the document, in document order. *)
Lemma parse_health_services (response_xml : string) (root : element)
    (w w' : world) (health_data : gmap string pyval) (services : list pyval) :
  ET_fromstring response_xml = Returned root ->
  _parse_health_data_response response_xml w = (Returned health_data, w') ->
  health_data !! "services" = Some (PList services) ->
  exists ds,
    services = map PDict ds
    /\ Forall2 (fun ev d => parse_service_event ev = Returned d)
               (service_event_elements root) ds.
Proof.
  intros Hroot Hparse Hservices. unfold _parse_health_data_response in Hparse.
  rewrite Hroot in Hparse. simpl in Hparse.
  assert (Hsome : is_Some (health_data !! "services")) by (rewrite Hservices; eauto).
  apply (or_return_Returned _ _ _ _ _ _ "services") in Hparse;
    [|apply lookup_empty|exact Hsome].
  destruct Hparse as (d1 & Hd1 & Hparse).
  assert (H1 : d1 !! "services" = None).
  { rewrite (put_int_other _ "services" _ _ _ Hd1) by discriminate. apply lookup_empty. }
  apply (or_return_Returned _ _ _ _ _ _ "services") in Hparse; [|exact H1|exact Hsome].
  destruct Hparse as (d2 & Hd2 & Hparse).
  assert (H2 : d2 !! "services" = None).
  { rewrite (put_int_other _ "services" _ _ _ Hd2) by discriminate. exact H1. }
  apply (or_return_Returned _ _ _ _ _ _ "services") in Hparse; [|exact H2|exact Hsome].
  destruct Hparse as (l & Hl & Hparse).
  unfold ret in Hparse. injection Hparse as <- _.
  rewrite lookup_insert_eq in Hservices. injection Hservices as <-.
  destruct (for_service_events_inv _ _ _ Hl) as (ds & -> & Hall).
  exists ds. split; [reflexivity|exact Hall].
Qed.

End HealthClaims.

(** C9.  For every health document the reader accepts, storing the
    services the parser returns either fails as a whole, leaving the table
    as it was, or appends one row for each service element of the
    document, in their order; and the [avg_duration] of the row of a
    service is the number read from the element [requestMinDuration] of
    the [lastPeriodStatistics] block of its element, as SQLite binds it;
    it is [0.0] when the element has no statistics block (and when the
    block has no such element).  The element [requestAverageDuration]
    plays no part. *)
Theorem avg_duration_is_read_from_requestMinDuration `{Runtime}
    (response_xml : string) (root : element) (w w' w1 : world)
    (health_data : gmap string pyval) (services : list pyval) :
  ET_fromstring response_xml = Returned root ->
  _parse_health_data_response response_xml w = (Returned health_data, w') ->
  health_data !! "services" = Some (PList services) ->
  match _store_health_data services None w1 with
  | (Returned _, w2) =>
      exists rows : list health_row,
        w2 = {| tbl_operational_data := tbl_operational_data w1;
                tbl_health_data := tbl_health_data w1 ++ rows;
                journal := journal w1;
                naps := naps w1 |}
        /\ Forall2 read_from_requestMinDuration (service_event_elements root) rows
  | (Raised _, w2) => w2 = w1
  end.
Proof.
  intros Hroot Hparse Hservices.
  destruct (parse_health_services _ _ _ _ _ _ Hroot Hparse Hservices) as (ds & -> & Hall).
  unfold _store_health_data.
  destruct (Store.insert_all_health (tbl_health_data w1) (map PDict ds)) as [t|e] eqn:Hins;
    simpl; [|reflexivity].
  destruct (stored_avg_durations _ _ Hall _ _ Hins) as (rows & -> & Hrows).
  exists rows. split; [reflexivity|exact Hrows].
Qed.

Lemma avg_duration_witness :
  exists row : health_row,
    tbl_health_data
      (snd (@_store_health_data Fixtures.host [PDict Fixtures.service_data] None empty_world))
    = [row]
    /\ h_avg_duration row = Some (PyFloat.of_int 10).
Proof.
  assert (Hall := @avg_duration_is_read_from_requestMinDuration
                    Fixtures.host "<health/>" Fixtures.health_document
                    empty_world empty_world empty_world
                    (<["services" := PList [PDict Fixtures.service_data]]>
                       (<["statisticsPeriodSeconds" := PInt 600]>
                          (<["monitoringStartupTimestamp" := PInt 1699990000000]> ∅)))
                    [PDict Fixtures.service_data]
                    eq_refl).
  assert (Hparse :
            @_parse_health_data_response Fixtures.host "<health/>" empty_world
            = (Returned
                 (<["services" := PList [PDict Fixtures.service_data]]>
                    (<["statisticsPeriodSeconds" := PInt 600]>
                       (<["monitoringStartupTimestamp" := PInt 1699990000000]> ∅))),
               empty_world))
    by (vm_compute; reflexivity).
  specialize (Hall Hparse eq_refl).
  change (service_event_elements Fixtures.health_document)
    with [Fixtures.service_event] in Hall.
  destruct (@_store_health_data Fixtures.host [PDict Fixtures.service_data] None empty_world)
    as [[u|e] w2] eqn:Hstore; [|vm_compute in Hstore; discriminate Hstore].
  destruct Hall as (rows & -> & Hrows).
  inversion Hrows as [|ev row evs rest Hrow Hrest]; subst.
  inversion Hrest; subst.
  exists row. split; [reflexivity|].
  unfold read_from_requestMinDuration in Hrow.
  destruct Hrow as (x & Hx & ->). vm_compute in Hx. injection Hx as <-. reflexivity.
Defined.

(** ** The data store: appending operational records *)

Lemma insert_or_ignore_appends (table : list operational_row) (data : XRoadOperationalData) :
  Store.insert_or_ignore table data
  = obind (Store.insert_or_ignore [] data) (fun rows => Returned (table ++ rows)).
Proof.
  unfold Store.insert_or_ignore.
  destruct (Store.bind_int (request_size data)); simpl; [|reflexivity].
  destruct (Store.bind_int (response_size data)); simpl; [|reflexivity].
  destruct (match request_duration data with Some _ => _ | None => _ end); simpl;
    [|reflexivity].
  destruct (service_id data), (client_id data); simpl;
    rewrite ?app_nil_r; reflexivity.
Qed.

(** Storing a batch appends the rows of the batch to the table, whatever
    the table holds already. *)
Lemma insert_all_appends (operational_data : list XRoadOperationalData) :
  forall table : list operational_row,
    Store.insert_all table operational_data
    = obind (Store.insert_all [] operational_data) (fun rows => Returned (table ++ rows)).
Proof.
  induction operational_data as [|data rest IH]; intros table; simpl.
  - rewrite app_nil_r. reflexivity.
  - rewrite (insert_or_ignore_appends table data).
    destruct (Store.insert_or_ignore [] data) as [rows|]; simpl; [|reflexivity].
    rewrite (IH (table ++ rows)), (IH rows).
    destruct (Store.insert_all [] rest) as [rows'|]; simpl; [|reflexivity].
    rewrite app_assoc. reflexivity.
Qed.

(** The rows a second append of the same batch adds are the rows the
    first one added. *)
Lemma store_twice_doubles (operational_data : list XRoadOperationalData)
    (rows : list operational_row) (w : world) :
  Store.insert_all [] operational_data = Returned rows ->
  exists w1 w2,
    _store_operational_data operational_data None w = (Returned tt, w1)
    /\ _store_operational_data operational_data None w1 = (Returned tt, w2)
    /\ tbl_operational_data w1 = tbl_operational_data w ++ rows
    /\ tbl_operational_data w2 = tbl_operational_data w ++ rows ++ rows.
Proof.
  intros Hrows. unfold _store_operational_data.
  rewrite (insert_all_appends operational_data (tbl_operational_data w)), Hrows. simpl.
  eexists. eexists. split; [reflexivity|]. simpl.
  rewrite (insert_all_appends operational_data (_ ++ rows)), Hrows. simpl.
  split; [reflexivity|]. split; [reflexivity|].
  rewrite <- app_assoc. reflexivity.
Qed.

(** C1.  Appending is not idempotent in the code: the table has no
    uniqueness constraint, so [INSERT OR IGNORE] ignores nothing.  One
    record appended to the empty store gives one row; the same record
    appended again gives a second, equal row. *)
Theorem appending_twice_stores_twice :
  let once := snd (_store_operational_data [Fixtures.populated] None empty_world) in
  let twice := snd (_store_operational_data [Fixtures.populated] None once) in
  tbl_operational_data once = [Fixtures.populated_row]
  /\ tbl_operational_data twice = [Fixtures.populated_row; Fixtures.populated_row]
  /\ tbl_operational_data twice <> tbl_operational_data once.
Proof.
  split; [vm_compute; reflexivity|].
  split; [vm_compute; reflexivity|].
  vm_compute. discriminate.
Qed.

(** ** Analytics: claims *)

Lemma sum_flags (p : operational_row -> bool) (window : list operational_row) :
  fold_right Z.add 0 (map (fun r => Sql.flag (p r)) window)
  = Z.of_nat (length (List.filter p window)).
Proof.
  induction window as [|r rest IH]; [reflexivity|].
  simpl. rewrite IH. destruct (p r); simpl; lia.
Qed.

Lemma sum_flags_some (p : operational_row -> bool) (window : list operational_row) :
  window <> [] ->
  Sql.sum (map (fun r => Sql.flag (p r)) window)
  = Some (Z.of_nat (length (List.filter p window))).
Proof.
  intros Hne. destruct window as [|r rest]; [contradiction|].
  unfold Sql.sum. rewrite <- sum_flags. reflexivity.
Qed.

Lemma present_timed (window : list operational_row) :
  Sql.present (map op_request_duration window)
  = Sql.present (map op_request_duration (List.filter timed window)).
Proof.
  induction window as [|r rest IH]; [reflexivity|].
  cbn [List.filter map]. unfold timed at 1.
  destruct (op_request_duration r) as [d|] eqn:Hd.
  - cbn [map Sql.present]. rewrite Hd, IH. reflexivity.
  - cbn [Sql.present]. exact IH.
Qed.

Lemma get_service_analytics_for_service (service : string) (days : Z)
    (now since : datetime) (w : world) :
  nonempty service = true ->
  Z.abs days <= 999999999 ->
  DT.minus now (days * 86400 * 1000000) = Returned since ->
  get_service_analytics (Some service) days now None w
  = (Returned (ForService
                 (select_summary (where_service_since service (wall since) (tbl_operational_data w)))),
     w).
Proof.
  intros Hservice Hdays Hsince. unfold get_service_analytics, bind, lift.
  destruct (Z.leb_spec (Z.abs days) 999999999) as [_|Hlt]; [|lia].
  rewrite Hsince, Hservice. reflexivity.
Qed.

Lemma present_omap {A} (f : A -> option Z) (l : list A) :
  Sql.present (map f l) = omap f l.
Proof.
  induction l as [|a rest IH]; [reflexivity|].
  change (omap f (a :: rest))
    with (match f a with Some v => v :: omap f rest | None => omap f rest end).
  cbn [map Sql.present]. destruct (f a); rewrite IH; reflexivity.
Qed.

Lemma present_In (l : list (option Z)) (d : Z) :
  In d (Sql.present l) <-> In (Some d) l.
Proof.
  induction l as [|[v|] rest IH]; simpl.
  - tauto.
  - rewrite IH. split; intros [Heq|Hin]; auto; left; congruence.
  - rewrite IH. split; [auto|]. intros [Heq|Hin]; [discriminate Heq|exact Hin].
Qed.

Lemma fold_min_spec (v : Z) (vs : list Z) :
  In (fold_right Z.min v vs) (v :: vs)
  /\ forall x, In x (v :: vs) -> fold_right Z.min v vs <= x.
Proof.
  induction vs as [|a rest [Hin Hle]]; simpl.
  - split; [left; reflexivity|]. intros x [<-|[]]. lia.
  - split.
    + destruct (Z.min_spec a (fold_right Z.min v rest)) as [[_ ->]|[_ ->]];
        [right; left; reflexivity|].
      destruct Hin as [Heq|Hin]; [left; exact Heq|right; right; exact Hin].
    + intros x [<-|[<-|Hx]].
      * specialize (Hle v (or_introl eq_refl)). lia.
      * lia.
      * specialize (Hle x (or_intror Hx)). lia.
Qed.

Lemma fold_max_spec (v : Z) (vs : list Z) :
  In (fold_right Z.max v vs) (v :: vs)
  /\ forall x, In x (v :: vs) -> x <= fold_right Z.max v vs.
Proof.
  induction vs as [|a rest [Hin Hle]]; simpl.
  - split; [left; reflexivity|]. intros x [<-|[]]. lia.
  - split.
    + destruct (Z.max_spec a (fold_right Z.max v rest)) as [[_ ->]|[_ ->]];
        [|right; left; reflexivity].
      destruct Hin as [Heq|Hin]; [left; exact Heq|right; right; exact Hin].
    + intros x [<-|[<-|Hx]].
      * specialize (Hle v (or_introl eq_refl)). lia.
      * lia.
      * specialize (Hle x (or_intror Hx)). lia.
Qed.

(** [MIN] and [MAX] of a column: a value of the column that no other
    value of it falls below, or exceeds; NULLs play no part. *)
Lemma sql_min_spec (l : list (option Z)) (m : Z) :
  Sql.min l = Some m ->
  In (Some m) l /\ forall d, In (Some d) l -> m <= d.
Proof.
  unfold Sql.min. destruct (Sql.present l) as [|v vs] eqn:Hpresent; [discriminate|].
  intros Hm. injection Hm as <-. destruct (fold_min_spec v vs) as [Hin Hle].
  rewrite <- Hpresent in Hin, Hle. split.
  - apply present_In, Hin.
  - intros d Hd. apply Hle, present_In, Hd.
Qed.

Lemma sql_max_spec (l : list (option Z)) (m : Z) :
  Sql.max l = Some m ->
  In (Some m) l /\ forall d, In (Some d) l -> d <= m.
Proof.
  unfold Sql.max. destruct (Sql.present l) as [|v vs] eqn:Hpresent; [discriminate|].
  intros Hm. injection Hm as <-. destruct (fold_max_spec v vs) as [Hin Hle].
  rewrite <- Hpresent in Hin, Hle. split.
  - apply present_In, Hin.
  - intros d Hd. apply Hle, present_In, Hd.
Qed.

(** The duration aggregates are there exactly when some row of the window
    has a duration. *)
Lemma aggregates_present (l : list (option Z)) :
  (exists d, In (Some d) l)
  <-> is_Some (Sql.avg l) /\ is_Some (Sql.min l) /\ is_Some (Sql.max l).
Proof.
  unfold Sql.avg, Sql.min, Sql.max. split.
  - intros [d Hd]. apply present_In in Hd.
    destruct (Sql.present l) as [|v vs]; [destruct Hd|]. repeat split; eauto.
  - intros ([a Ha] & _). destruct (Sql.present l) as [|v vs] eqn:Hpresent; [discriminate Ha|].
    exists v. apply present_In. rewrite Hpresent. left. reflexivity.
Qed.

(** C6, as the code has it.  The query for one service, whatever the
    table holds, returns a summary of the rows of that service with a
    request time after the start of the period, and leaves the store as it
    is.  It counts every such row in [total_requests]; when there is at
    least one, the rows divide into successes and failures by their flag.
    Rows with a NULL duration are counted but play no part in the duration
    aggregates: these are the same as over the rows that have a duration,
    and they are there exactly when some row has one.  The average is the
    sum of the durations, added up in a double row after row, over their
    number; the minimum and the maximum are durations of rows of the window
    that no other falls below, or exceeds.  When no row qualifies the
    query does not fail: the total is 0 and every other column NULL.  When
    the rows that qualify are the three requests, the summary is 3, 2, 1,
    200, 100, 300. *)
Theorem summary_counts_rows_and_skips_null_durations
    (service : string) (days : Z) (now since : datetime) (w : world) :
  nonempty service = true ->
  Z.abs days <= 999999999 ->
  DT.minus now (days * 86400 * 1000000) = Returned since ->
  let window := where_service_since service (wall since) (tbl_operational_data w) in
  exists row : service_summary,
    get_service_analytics (Some service) days now None w = (Returned (ForService row), w)
    /\ total_requests row = Z.of_nat (length window)
    /\ (window <> [] ->
        successful_requests row = Some (Z.of_nat (length (List.filter op_success window)))
        /\ failed_requests row
           = Some (Z.of_nat (length (List.filter (fun r => negb (op_success r)) window))))
    /\ (window = [] -> row = empty_summary)
    /\ (avg_duration row = Sql.avg (map op_request_duration (List.filter timed window))
        /\ min_duration row = Sql.min (map op_request_duration (List.filter timed window))
        /\ max_duration row = Sql.max (map op_request_duration (List.filter timed window)))
    /\ avg_duration row
       = match omap op_request_duration window with
         | [] => None
         | d :: ds =>
             Some (SFdiv 53 1024
                         (fold_left (fun sum x => SFadd 53 1024 sum (PyFloat.of_int x))
                                    (d :: ds) (S754_zero false))
                         (PyFloat.of_int (Z.of_nat (length (d :: ds)))))
         end
    /\ ((exists r, In r window /\ timed r = true)
        <-> is_Some (avg_duration row) /\ is_Some (min_duration row)
            /\ is_Some (max_duration row))
    /\ (forall m, min_duration row = Some m ->
          (exists r, In r window /\ op_request_duration r = Some m)
          /\ forall r d, In r window -> op_request_duration r = Some d -> m <= d)
    /\ (forall m, max_duration row = Some m ->
          (exists r, In r window /\ op_request_duration r = Some m)
          /\ forall r d, In r window -> op_request_duration r = Some d -> d <= m)
    /\ (window = Fixtures.three_requests ->
        total_requests row = 3
        /\ successful_requests row = Some 2
        /\ failed_requests row = Some 1
        /\ avg_duration row = Some (PyFloat.of_int 200)
        /\ min_duration row = Some 100
        /\ max_duration row = Some 300).
Proof.
  intros Hservice Hdays Hsince window.
  exists (select_summary window).
  split; [apply (get_service_analytics_for_service _ _ _ _ _ Hservice Hdays Hsince)|].
  split; [reflexivity|].
  split; [intros Hne; split; apply (sum_flags_some _ window Hne)|].
  split; [intros ->; reflexivity|].
  split.
  { unfold select_summary. simpl. unfold Sql.avg, Sql.min, Sql.max.
    rewrite <- (present_timed window). repeat split. }
  split.
  { unfold select_summary. simpl. unfold Sql.avg. rewrite present_omap. reflexivity. }
  split.
  { rewrite <- (aggregates_present (map op_request_duration window)). split.
    - intros (r & Hin & Htimed). unfold timed in Htimed.
      destruct (op_request_duration r) as [d|] eqn:Hd; [|discriminate Htimed].
      exists d. rewrite <- Hd. apply in_map, Hin.
    - intros (d & Hd). apply in_map_iff in Hd. destruct Hd as (r & Hr & Hin).
      exists r. split; [exact Hin|]. unfold timed. rewrite Hr. reflexivity. }
  split.
  { intros m Hm. destruct (sql_min_spec _ _ Hm) as [Hin Hle]. split.
    - apply in_map_iff in Hin. destruct Hin as (r & Hr & Hin). exists r. split; assumption.
    - intros r d Hr Hd. apply Hle. rewrite <- Hd. apply in_map, Hr. }
  split.
  { intros m Hm. destruct (sql_max_spec _ _ Hm) as [Hin Hle]. split.
    - apply in_map_iff in Hin. destruct Hin as (r & Hr & Hin). exists r. split; assumption.
    - intros r d Hr Hd. apply Hle. rewrite <- Hd. apply in_map, Hr. }
  intros ->. vm_compute. repeat split.
Qed.

Lemma summary_witness :
  exists row : service_summary,
    get_service_analytics (Some "svc-1"%string) 7
      (Fixtures.at_wall 1700000900000000) None Samples.crowded
    = (Returned (ForService row), Samples.crowded)
    /\ total_requests row = 3
    /\ successful_requests row = Some 2
    /\ failed_requests row = Some 1
    /\ avg_duration row = Some (PyFloat.of_int 200)
    /\ min_duration row = Some 100
    /\ max_duration row = Some 300.
Proof.
  destruct (summary_counts_rows_and_skips_null_durations "svc-1" 7
              (Fixtures.at_wall 1700000900000000) (Fixtures.at_wall 1699396100000000)
              Samples.crowded)
    as (row & Hquery & _ & _ & _ & _ & _ & _ & _ & _ & Hthree).
  - reflexivity.
  - vm_compute. discriminate.
  - vm_compute. reflexivity.
  - exists row. split; [exact Hquery|]. apply Hthree. vm_compute. reflexivity.
Defined.

(** C6, as the specification states it, fails on the empty window: the
    counts of successes and failures are not zero there but NULL, because
    [SUM] over no rows is NULL. *)
Lemma empty_window_counts_are_null :
  get_service_analytics (Some "svc-1"%string) 7
    (Fixtures.at_wall 1700000000000000) None empty_world
  = (Returned (ForService empty_summary), empty_world)
  /\ successful_requests empty_summary = None
  /\ failed_requests empty_summary = None
  /\ successful_requests empty_summary <> Some 0
  /\ failed_requests empty_summary <> Some 0.
Proof.
  split; [vm_compute; reflexivity|].
  repeat split; discriminate.
Qed.

(** ** The monitoring loop *)

Lemma calm_ret {A} (a : A) : calm (ret a).
Proof. intros w. split; [reflexivity|]. apply only_Exceptions_Returned. Qed.

Lemma calm_raise {A} (e : exn) : is_Exception e = true -> calm (@raise A e).
Proof. intros He w. split; [reflexivity|]. apply only_Exceptions_Raised. exact He. Qed.

Lemma calm_lift {A} (o : outcome A) : only_Exceptions o -> calm (lift o).
Proof. intros Ho w. split; [reflexivity|exact Ho]. Qed.

Lemma calm_logger (l : level) (m : string) (c : option exn) : calm (logger l m c).
Proof. intros w. split; [reflexivity|]. apply only_Exceptions_Returned. Qed.

Lemma calm_bind {A B} (c : M A) (k : A -> M B) :
  calm c -> (forall a, calm (k a)) -> calm (bind c k).
Proof.
  intros Hc Hk w. unfold bind. specialize (Hc w).
  destruct (c w) as [[a|e] w1]; simpl in Hc; destruct Hc as [Hnaps Hexn].
  - destruct (Hk a w1) as [Hnaps' Hexn']. split; [congruence|exact Hexn'].
  - split; [exact Hnaps|].
    intros e' Heq. simpl in Heq. injection Heq as <-. apply Hexn. reflexivity.
Qed.

Lemma calm_try_catch {A} (body : M A) (handler : exn -> M A) :
  calm body -> (forall e, calm (handler e)) -> calm (try_catch body handler).
Proof.
  intros Hb Hh w. unfold try_catch. specialize (Hb w).
  destruct (body w) as [[a|e] w1]; simpl in Hb; destruct Hb as [Hnaps Hexn].
  - split; [exact Hnaps|apply only_Exceptions_Returned].
  - rewrite (Hexn e eq_refl). destruct (Hh e w1) as [Hnaps' Hexn'].
    split; [congruence|exact Hexn'].
Qed.

Create HintDb calm.
#[export] Hint Resolve calm_ret calm_logger : calm.
#[export] Hint Extern 2 (calm (raise _)) => (apply calm_raise; reflexivity) : calm.
#[export] Hint Extern 3 (calm (bind _ _)) => (apply calm_bind; [ | intros ? ]) : calm.
#[export] Hint Extern 3 (calm (try_catch _ _)) =>
  (apply calm_try_catch; [ | intros ? ]) : calm.
#[export] Hint Extern 4 (calm (lift _)) => (apply calm_lift) : calm.

Section Calm.
Context {RT : Runtime}.
Hypothesis Horderly : orderly RT.
Variable metrics_client : XRoadMetricsClient.

Lemma index_only_Exceptions {A} (l : list A) (i : nat) : only_Exceptions (PyStr.index l i).
Proof. unfold PyStr.index. destruct (nth_error l i); auto with raises. Qed.

Lemma build_operational_raises (records_from records_to : datetime)
    (client_filter : option string) (now : datetime) :
  only_Exceptions
    (_build_operational_data_request metrics_client records_from records_to
                                     client_filter now).
Proof.
  unfold _build_operational_data_request, client_filter_clause, member_class, member_code.
  pose proof (@index_only_Exceptions string) as Hindex.
  apply only_Exceptions_obind; [apply epoch_seconds_raises|intros from_ts].
  apply only_Exceptions_obind; [apply epoch_seconds_raises|intros to_ts].
  apply only_Exceptions_obind.
  - destruct client_filter as [f|]; [|auto with raises].
    destruct (nonempty f); auto 10 with raises.
  - intros clause. auto 10 with raises.
Qed.

Lemma build_health_raises (server_id : option string) (now : datetime) :
  only_Exceptions (_build_health_data_request metrics_client server_id now).
Proof.
  unfold _build_health_data_request, member_class, member_code.
  pose proof (@index_only_Exceptions string) as Hindex.
  auto 10 with raises.
Qed.

Lemma calm_parse_operational (response_xml : string) :
  calm (_parse_operational_data_response response_xml).
Proof.
  intros w. destruct (ET_fromstring response_xml) as [root|e] eqn:Hroot.
  - rewrite (parse_response_well_formed _ _ _ Hroot). simpl.
    split; [reflexivity|apply only_Exceptions_Returned].
  - pose proof (proj1 Horderly response_xml e Hroot) as He.
    rewrite (parse_response_rejected _ _ _ Hroot He). simpl.
    split; [reflexivity|apply only_Exceptions_Returned].
Qed.

Lemma calm_or_return {A} (health_data : gmap string pyval) (step : outcome A)
    (k : A -> M (gmap string pyval)) :
  only_Exceptions step -> (forall a, calm (k a)) -> calm (or_return health_data step k).
Proof.
  intros Hstep Hk. unfold or_return. destruct step as [a|e]; [apply Hk|].
  intros w. unfold try_catch, raise. rewrite (Hstep e eq_refl). simpl.
  split; [reflexivity|apply only_Exceptions_Returned].
Qed.

Lemma put_int_raises (key : string) (e : option element) (d : gmap string pyval) :
  only_Exceptions (put_int key e d).
Proof. unfold put_int. destruct e; auto with raises. Qed.

Lemma parse_statistics_raises (stats_elem : element) :
  only_Exceptions (parse_statistics stats_elem).
Proof.
  unfold parse_statistics. pose proof put_int_raises as Hput.
  pose proof (proj2 Horderly) as Hfloat.
  apply only_Exceptions_obind; [apply Hput|intros s1].
  apply only_Exceptions_obind; [apply Hput|intros s2].
  destruct (ET.find _ stats_elem); auto with raises.
Qed.

Lemma parse_service_event_raises (service_event : element) :
  only_Exceptions (parse_service_event service_event).
Proof.
  unfold parse_service_event. pose proof put_int_raises as Hput.
  pose proof parse_statistics_raises as Hstats.
  apply only_Exceptions_obind; [apply Hput|intros d1].
  apply only_Exceptions_obind; [apply Hput|intros d2].
  destruct (ET.find _ service_event); auto with raises.
Qed.

Lemma for_service_events_raises (service_events : list element) :
  forall services, only_Exceptions (for_service_events service_events services).
Proof.
  induction service_events as [|ev rest IH]; intros services; simpl.
  - auto with raises.
  - apply only_Exceptions_obind; [apply parse_service_event_raises|].
    intros sd. apply IH.
Qed.

Lemma calm_parse_health (response_xml : string) :
  calm (_parse_health_data_response response_xml).
Proof.
  unfold _parse_health_data_response.
  apply calm_or_return; [apply (proj1 Horderly)|intros root].
  apply calm_or_return; [apply put_int_raises|intros d1].
  apply calm_or_return; [apply put_int_raises|intros d2].
  apply calm_or_return; [apply for_service_events_raises|intros services].
  apply calm_ret.
Qed.

Lemma calm_get_operational_data (records_from records_to : datetime)
    (client_filter : option string) (now : datetime) (post : transport) :
  (forall body, only_Exceptions (post body)) ->
  calm (get_operational_data metrics_client records_from records_to client_filter now post).
Proof.
  intros Hpost. unfold get_operational_data.
  apply calm_bind; [apply calm_lift, build_operational_raises|intros soap_request].
  apply calm_try_catch; [|intros e; auto with calm].
  apply calm_bind; [apply calm_lift, Hpost|intros response].
  destruct (status_code response =? 200); [apply calm_parse_operational|auto with calm].
Qed.

Lemma calm_get_health_data (server_id : option string) (now : datetime) (post : transport) :
  (forall body, only_Exceptions (post body)) ->
  calm (get_health_data metrics_client server_id now post).
Proof.
  intros Hpost. unfold get_health_data.
  apply calm_bind; [apply calm_lift, build_health_raises|intros soap_request].
  apply calm_try_catch; [|intros e; auto with calm].
  apply calm_bind; [apply calm_lift, Hpost|intros response].
  destruct (status_code response =? 200); [apply calm_parse_health|auto with calm].
Qed.

Lemma bind_int_raises (n : Z) : only_Exceptions (Store.bind_int n).
Proof. unfold Store.bind_int. destruct (_ && _); auto with raises. Qed.

Lemma insert_or_ignore_raises (table : list operational_row) (data : XRoadOperationalData) :
  only_Exceptions (Store.insert_or_ignore table data).
Proof.
  unfold Store.insert_or_ignore. pose proof bind_int_raises as Hbind.
  apply only_Exceptions_obind; [apply Hbind|intros n1].
  apply only_Exceptions_obind; [apply Hbind|intros n2].
  apply only_Exceptions_obind.
  - destruct (request_duration data); auto with raises.
  - intros d. destruct (service_id data), (client_id data); auto with raises.
Qed.

Lemma insert_all_raises (operational_data : list XRoadOperationalData) :
  forall table, only_Exceptions (Store.insert_all table operational_data).
Proof.
  induction operational_data as [|data rest IH]; intros table; simpl.
  - auto with raises.
  - apply only_Exceptions_obind; [apply insert_or_ignore_raises|intros t; apply IH].
Qed.

Lemma stored_instant_raises (d : gmap string pyval) (key : string) :
  only_Exceptions (Store.stored_instant d key).
Proof.
  unfold Store.stored_instant. destruct (Store.truthy _); [|auto with raises].
  destruct (Store.get d key (PInt 0)); auto 10 with raises.
Qed.

Lemma insert_health_raises (table : list health_row) (service : pyval) :
  only_Exceptions (Store.insert_health table service).
Proof.
  unfold Store.insert_health. pose proof bind_int_raises as Hbind.
  destruct service as [| | | | |service]; auto with raises.
  destruct (Store.get service "lastPeriodStatistics" (PDict ∅)) as [| | | | |stats];
    auto with raises.
  apply only_Exceptions_obind; [apply stored_instant_raises|intros t1].
  apply only_Exceptions_obind; [apply stored_instant_raises|intros t2].
  apply only_Exceptions_obind;
    [unfold Store.stored_count; destruct (Store.get stats _ _); auto with raises|intros ok].
  apply only_Exceptions_obind;
    [unfold Store.stored_count; destruct (Store.get stats _ _); auto with raises|intros ko].
  apply only_Exceptions_obind;
    [unfold Store.stored_real; destruct (Store.get stats _ _); auto with raises|intros avg].
  destruct (Store.get service "serviceCode" PNone); auto with raises.
Qed.

Lemma insert_all_health_raises (services : list pyval) :
  forall table, only_Exceptions (Store.insert_all_health table services).
Proof.
  induction services as [|service rest IH]; intros table; simpl.
  - auto with raises.
  - apply only_Exceptions_obind; [apply insert_health_raises|intros t; apply IH].
Qed.

Lemma calm_store_operational (operational_data : list XRoadOperationalData)
    (fault : option exn) :
  (forall e, fault = Some e -> is_Exception e = true) ->
  calm (_store_operational_data operational_data fault).
Proof.
  intros Hfault. unfold _store_operational_data.
  destruct fault as [e|]; [apply calm_raise, Hfault; reflexivity|].
  intros w. pose proof (insert_all_raises operational_data (tbl_operational_data w)) as Hins.
  destruct (Store.insert_all _ _) as [t|e]; simpl.
  - split; [reflexivity|apply only_Exceptions_Returned].
  - split; [reflexivity|]. intros e' Heq. injection Heq as <-. apply Hins. reflexivity.
Qed.

Lemma calm_store_health (services : list pyval) (fault : option exn) :
  (forall e, fault = Some e -> is_Exception e = true) ->
  calm (_store_health_data services fault).
Proof.
  intros Hfault. unfold _store_health_data.
  destruct fault as [e|]; [apply calm_raise, Hfault; reflexivity|].
  intros w. pose proof (insert_all_health_raises services (tbl_health_data w)) as Hins.
  destruct (Store.insert_all_health _ _) as [t|e]; simpl.
  - split; [reflexivity|apply only_Exceptions_Returned].
  - split; [reflexivity|]. intros e' Heq. injection Heq as <-. apply Hins. reflexivity.
Qed.

Lemma calm_collect_operational_data (hours_back : Z) (env : surroundings) :
  undisturbed env -> calm (collect_operational_data metrics_client hours_back env).
Proof.
  intros [Hpost Hfault]. unfold collect_operational_data.
  apply calm_bind.
  { apply calm_lift. unfold timedelta_hours. destruct (_ <=? _); auto with raises. }
  intros span. apply calm_bind.
  { apply calm_lift. unfold DT.minus. destruct (DT.in_range _); auto with raises. }
  intros start_time. apply calm_bind; [apply calm_logger|intros _].
  apply calm_bind; [apply calm_get_operational_data, Hpost|intros operational_data].
  apply calm_bind; [|intros _; apply calm_ret].
  destruct operational_data as [|r rest]; [apply calm_logger|].
  apply calm_bind; [apply calm_store_operational, Hfault|intros _; apply calm_logger].
Qed.

Lemma calm_collect_health_data (env : surroundings) :
  undisturbed env -> calm (collect_health_data metrics_client env).
Proof.
  intros [Hpost Hfault]. unfold collect_health_data.
  apply calm_bind; [apply calm_logger|intros _].
  apply calm_bind; [apply calm_get_health_data, Hpost|intros health_data].
  apply calm_bind; [|intros _; apply calm_ret].
  destruct (health_data !! "services") as [services|]; [|apply calm_logger].
  apply calm_bind.
  { destruct services; auto with calm. }
  intros rows. apply calm_bind; [apply calm_store_health, Hfault|intros _; apply calm_logger].
Qed.

(** A cycle without cancellation either runs through, ending with the
    sleep of the interval, or raises an [Exception] without having
    slept. *)
Lemma cycle_uncancelled (interval_minutes : Z) (t : turn) (w : world) :
  uncancelled t ->
  (exists w1, cycle metrics_client interval_minutes t w = (Returned tt, w1)
              /\ naps w1 = naps w ++ [interval_minutes * 60])
  \/ (exists e w1, cycle metrics_client interval_minutes t w = (Raised e, w1)
                   /\ is_Exception e = true /\ naps w1 = naps w).
Proof.
  intros (Hop & Hhealth & Hnap & _). unfold cycle, bind.
  destruct (calm_collect_operational_data 2 (operational t) Hop w) as [Hnaps1 Hexn1].
  destruct (collect_operational_data _ _ _ w) as [[l|e] w1]; simpl in *.
  - destruct (calm_collect_health_data (health t) Hhealth w1) as [Hnaps2 Hexn2].
    destruct (collect_health_data _ _ w1) as [[d|e] w2]; simpl in *.
    + unfold sleep. rewrite Hnap.
      destruct (9223372036 <? Z.abs (interval_minutes * 60)).
      * right. exists OverflowError, w2. split; [reflexivity|].
        split; [reflexivity|congruence].
      * destruct (interval_minutes * 60 <? 0).
        -- right. exists ValueError, w2. split; [reflexivity|].
           split; [reflexivity|congruence].
        -- left. eexists. split; [reflexivity|]. simpl. congruence.
    + right. exists e, w2. split; [reflexivity|].
      split; [apply Hexn2; reflexivity|congruence].
  - right. exists e, w1. split; [reflexivity|].
    split; [apply Hexn1; reflexivity|exact Hnaps1].
Qed.

Lemma monitoring_loop_uncancelled (interval_minutes : Z) (turns : list turn) :
  Forall uncancelled turns ->
  forall w,
  exists w' pauses,
    monitoring_loop metrics_client interval_minutes turns w = (Returned Looping, w')
    /\ naps w' = naps w ++ pauses
    /\ length pauses = length turns
    /\ Forall (fun p => p = interval_minutes * 60 \/ p = 60) pauses.
Proof.
  induction 1 as [|t rest Ht Hrest IH]; intros w.
  - exists w, []. simpl. rewrite app_nil_r. repeat split. constructor.
  - simpl.
    destruct (cycle_uncancelled interval_minutes t w Ht)
      as [(w1 & Hcycle & Hnaps)|(e & w1 & Hcycle & He & Hnaps)];
      rewrite Hcycle.
    + destruct (IH w1) as (w' & pauses & Hloop & Hnaps' & Hlen & Hall).
      exists w', (interval_minutes * 60 :: pauses). rewrite Hloop.
      split; [reflexivity|]. split; [rewrite Hnaps', Hnaps, <- app_assoc; reflexivity|].
      split; [simpl; congruence|]. constructor; [left; reflexivity|exact Hall].
    + destruct Ht as (_ & _ & _ & Hpause).
      destruct e; try discriminate He;
        unfold bind, sleep; rewrite Hpause; simpl;
        match goal with
        | |- context [monitoring_loop _ _ rest ?w2] =>
            destruct (IH w2) as (w' & pauses & Hloop & Hnaps' & Hlen & Hall);
            exists w', (60 :: pauses); rewrite Hloop;
            (split; [reflexivity|]);
            (split; [rewrite Hnaps'; simpl; rewrite Hnaps, <- app_assoc; reflexivity|]);
            (split; [simpl; congruence|]);
            (constructor; [right; reflexivity|exact Hall])
        end.
Qed.

End Calm.

Section Loop.
Context {RT : Runtime}.
Variable metrics_client : XRoadMetricsClient.
Variable interval_minutes : Z.

(** After a cycle that raised an [Exception] the loop logs the error,
    pauses for 60 seconds and goes on with the next turn. *)
Lemma monitoring_loop_after_failure (t : turn) (rest : list turn)
    (w w1 : world) (e : exn) :
  cycle metrics_client interval_minutes t w = (Raised e, w1) ->
  is_Exception e = true ->
  pause_interrupted t = false ->
  monitoring_loop metrics_client interval_minutes (t :: rest) w
  = monitoring_loop metrics_client interval_minutes rest (after_failure e w1).
Proof.
  intros Hcycle He Hpause. simpl. rewrite Hcycle.
  destruct e; try discriminate He; unfold bind, sleep; rewrite Hpause; reflexivity.
Qed.

(** However the loop ends, it is not by an [Exception]: it is still
    looping, or it was left by [break] after a [KeyboardInterrupt] in a
    cycle, or an exception that is no [Exception] came through. *)
Lemma monitoring_loop_exit (turns : list turn) :
  forall (w w' : world) (r : outcome loop_state),
    monitoring_loop metrics_client interval_minutes turns w = (r, w') ->
    r = Returned Looping
    \/ (r = Returned Left
        /\ exists t w1 w2,
             In t turns
             /\ cycle metrics_client interval_minutes t w1 = (Raised KeyboardInterrupt, w2))
    \/ (exists e, r = Raised e /\ is_Exception e = false).
Proof.
  induction turns as [|t rest IH]; intros w w' r Hloop.
  - injection Hloop as <- _. left. reflexivity.
  - simpl in Hloop.
    destruct (cycle metrics_client interval_minutes t w) as [[u|e] w1] eqn:Hcycle.
    + destruct (IH _ _ _ Hloop) as [Hr|[(Hr & t' & wa & wb & Hin & Hc)|Hr]];
        [left; exact Hr| |right; right; exact Hr].
      right. left. split; [exact Hr|]. exists t', wa, wb. split; [right; exact Hin|exact Hc].
    + assert (Hcases :
                e = KeyboardInterrupt \/ is_Exception e = true \/ e = SystemExit)
        by (destruct e; auto).
      destruct Hcases as [->|[He| ->]].
      * injection Hloop as <- _. right. left. split; [reflexivity|].
        exists t, w, w1. split; [left; reflexivity|exact Hcycle].
      * assert (Hstep :
                  (let! _ := logger ERROR "Erro no loop de monitoramento: {e}" (Some e) in
                   let! _ := sleep 60 (pause_interrupted t) in
                   monitoring_loop metrics_client interval_minutes rest)%agent w1
                  = (r, w'))
          by (destruct e; try discriminate He; exact Hloop).
        unfold bind, sleep in Hstep. simpl in Hstep.
        destruct (pause_interrupted t).
        -- injection Hstep as <- _. right. right. exists KeyboardInterrupt.
           split; reflexivity.
        -- destruct (IH _ _ _ Hstep) as [Hr|[(Hr & t' & wa & wb & Hin & Hc)|Hr]];
             [left; exact Hr| |right; right; exact Hr].
           right. left. split; [exact Hr|].
           exists t', wa, wb. split; [right; exact Hin|exact Hc].
      * injection Hloop as <- _. right. right. exists SystemExit. split; reflexivity.
Qed.

End Loop.

(** C3.  On a host that raises only [Exception]s, whatever the turns
    bring short of a cancellation (an interrupt or an exit request), the
    monitoring loop is still looping after them, and each turn has ended in
    exactly one sleep: the interval after a cycle that ran through, 60
    seconds after a cycle that failed.  A cycle that raises an [Exception]
    is followed by the error record, the pause of 60 seconds and the next
    turn.  And the loop is never ended by an [Exception]: it is left by
    [break] after a [KeyboardInterrupt], or by an exception that is no
    [Exception] coming through. *)
Theorem monitoring_loop_survives_failures {RT : Runtime}
    (metrics_client : XRoadMetricsClient) (interval_minutes : Z) (turns : list turn)
    (w : world) :
  orderly RT ->
  Forall uncancelled turns ->
  (exists w' pauses,
      start_monitoring_loop metrics_client interval_minutes turns w = (Returned Looping, w')
      /\ naps w' = naps w ++ pauses
      /\ length pauses = length turns
      /\ Forall (fun p => p = interval_minutes * 60 \/ p = 60) pauses)
  /\ (forall (t : turn) (rest : list turn) (w0 w1 : world) (e : exn),
         cycle metrics_client interval_minutes t w0 = (Raised e, w1) ->
         is_Exception e = true ->
         pause_interrupted t = false ->
         monitoring_loop metrics_client interval_minutes (t :: rest) w0
         = monitoring_loop metrics_client interval_minutes rest (after_failure e w1))
  /\ (forall (any : list turn) (w0 w' : world) (r : outcome loop_state),
         monitoring_loop metrics_client interval_minutes any w0 = (r, w') ->
         r = Returned Looping
         \/ (r = Returned Left
             /\ exists t w1 w2,
                  In t any
                  /\ cycle metrics_client interval_minutes t w1
                     = (Raised KeyboardInterrupt, w2))
         \/ (exists e, r = Raised e /\ is_Exception e = false)).
Proof.
  intros Horderly Hturns. split; [|split].
  - unfold start_monitoring_loop, bind. simpl.
    match goal with
    | |- context [monitoring_loop _ _ _ ?w1] =>
        destruct (monitoring_loop_uncancelled Horderly metrics_client
                    interval_minutes turns Hturns w1)
          as (w' & pauses & Hloop & Hnaps & Hlen & Hall)
    end.
    exists w', pauses. rewrite Hloop. repeat split; assumption.
  - intros t rest w0 w1 e. apply monitoring_loop_after_failure.
  - intros any. apply monitoring_loop_exit.
Qed.

Lemma reader_of_raises (docs : list (string * element)) (text : string) :
  only_Exceptions (Fixtures.reader_of docs text).
Proof.
  induction docs as [|[t root] rest IH]; simpl.
  - auto with raises.
  - destruct (String.eqb t text); [auto with raises|exact IH].
Qed.

Lemma fixture_host_orderly : orderly Fixtures.host.
Proof.
  split; intros text.
  - apply reader_of_raises.
  - simpl. auto with raises.
Qed.

Lemma offline_undisturbed : undisturbed Fixtures.offline.
Proof.
  split.
  - intros body. simpl. auto with raises.
  - intros e He. discriminate He.
Qed.

Lemma locked_undisturbed : undisturbed Fixtures.locked.
Proof.
  split.
  - intros body. simpl. auto with raises.
  - intros e He. injection He as <-. reflexivity.
Qed.

Lemma fixture_turns_uncancelled :
  Forall uncancelled [Fixtures.offline_turn; Fixtures.locked_turn].
Proof.
  apply List.Forall_cons; [|apply List.Forall_cons; [|apply List.Forall_nil]].
  - split; [apply offline_undisturbed|]. split; [apply offline_undisturbed|].
    split; reflexivity.
  - split; [apply locked_undisturbed|]. split; [apply offline_undisturbed|].
    split; reflexivity.
Qed.

Lemma monitoring_loop_witness :
  exists w',
    @start_monitoring_loop Fixtures.host Fixtures.client 15
      [Fixtures.offline_turn; Fixtures.locked_turn] empty_world
    = (Returned Looping, w')
    /\ naps w' = [900; 60]
    /\ tbl_operational_data w' = [].
Proof.
  destruct (@monitoring_loop_survives_failures Fixtures.host Fixtures.client 15
              [Fixtures.offline_turn; Fixtures.locked_turn] empty_world
              fixture_host_orderly fixture_turns_uncancelled)
    as [(w' & pauses & Hloop & _) _].
  exists w'. split; [exact Hloop|].
  vm_compute in Hloop. injection Hloop as <-. split; reflexivity.
Defined.

(** * Further properties *)

(** ** Identifiers *)

Lemma split_not_nil (c : ascii) (s : string) : PyStr.split c s <> [].
Proof.
  destruct s as [|a rest]; simpl; [discriminate|].
  destruct (Ascii.eqb a c); [discriminate|].
  destruct (PyStr.split c rest); discriminate.
Qed.

Lemma concat_cons_cons (sep x y : string) (l : list string) :
  String.concat sep (x :: y :: l) = x +:+ sep +:+ String.concat sep (y :: l).
Proof. reflexivity. Qed.

Lemma concat_head (sep : string) (a : ascii) (seg : string) (segs : list string) :
  String.concat sep (String a seg :: segs) = String a (String.concat sep (seg :: segs)).
Proof. destruct segs as [|y l]; reflexivity. Qed.

Lemma split_join (c : ascii) (s : string) :
  String.concat (String c EmptyString) (PyStr.split c s) = s.
Proof.
  induction s as [|a rest IH]; [reflexivity|].
  simpl. destruct (Ascii.eqb_spec a c) as [->|Hne].
  - destruct (PyStr.split c rest) as [|seg segs] eqn:Hsplit.
    + exfalso. exact (split_not_nil c rest Hsplit).
    + rewrite concat_cons_cons, IH. reflexivity.
  - destruct (PyStr.split c rest) as [|seg segs] eqn:Hsplit.
    + exfalso. exact (split_not_nil c rest Hsplit).
    + rewrite concat_head, IH. reflexivity.
Qed.

Lemma split_length (c : ascii) (s : string) :
  length (PyStr.split c s) = S (occurrences c s).
Proof.
  induction s as [|a rest IH]; [reflexivity|].
  simpl. destruct (Ascii.eqb a c); simpl.
  - rewrite IH. reflexivity.
  - destruct (PyStr.split c rest) as [|seg segs] eqn:Hsplit.
    + exfalso. exact (split_not_nil c rest Hsplit).
    + simpl in *. exact IH.
Qed.

(** X1.  The segments of an identifier, joined by slashes, give the
    identifier back, and there is one segment more than there are slashes;
    so the health request can be built exactly for a client identifier
    with at least two slashes. *)
Theorem identifier_segments_round_trip (self : XRoadMetricsClient)
    (server_id : option string) (now : datetime) :
  String.concat "/" (PyStr.split "/" (self_client_id self)) = self_client_id self
  /\ segments (self_client_id self) = S (occurrences "/" (self_client_id self))
  /\ ((exists doc, _build_health_data_request self server_id now = Returned doc)
      <-> (2 <= occurrences "/" (self_client_id self))%nat).
Proof.
  split; [apply split_join|]. split; [apply split_length|].
  pose proof (split_length "/" (self_client_id self)) as Hlen.
  fold (segments (self_client_id self)) in Hlen.
  split.
  - intros [doc Hdoc].
    destruct (Nat.le_gt_cases 2 (occurrences "/" (self_client_id self))) as [Hle|Hgt];
      [exact Hle|].
    rewrite (health_request_short self server_id now) in Hdoc by lia.
    discriminate Hdoc.
  - intros Hle. apply health_request_long. lia.
Qed.

Lemma identifier_segments_witness :
  exists doc,
    _build_health_data_request Fixtures.client None (Fixtures.at_wall 0) = Returned doc.
Proof.
  apply (identifier_segments_round_trip Fixtures.client None (Fixtures.at_wall 0)).
  vm_compute. lia.
Defined.

(** ** The data store *)

Lemma bind_int_fits (n : Z) : fits_int64 n -> Store.bind_int n = Returned n.
Proof.
  unfold fits_int64, Store.bind_int. intros [Hlo Hhi].
  destruct (Z.leb_spec (- 2 ^ 63) n); [|lia].
  destruct (Z.ltb_spec n (2 ^ 63)); [reflexivity|lia].
Qed.

Lemma bind_int_Returned (n n' : Z) : Store.bind_int n = Returned n' -> fits_int64 n.
Proof.
  unfold fits_int64, Store.bind_int.
  destruct (Z.leb_spec (- 2 ^ 63) n); simpl; [|discriminate].
  destruct (Z.ltb_spec n (2 ^ 63)); [|discriminate].
  intros _. split; assumption.
Qed.

Lemma bind_int_Raised (n : Z) (e : exn) : Store.bind_int n = Raised e -> e = OverflowError.
Proof.
  unfold Store.bind_int. destruct (_ && _); [discriminate|].
  intros He. injection He as <-. reflexivity.
Qed.

Lemma insert_or_ignore_bindable (table : list operational_row) (data : XRoadOperationalData) :
  bindable data ->
  Store.insert_or_ignore table data = Returned (table ++ omap row_of [data]).
Proof.
  intros (Hrq & Hrs & Hd). unfold Store.insert_or_ignore, row_of.
  rewrite (bind_int_fits _ Hrq), (bind_int_fits _ Hrs). simpl.
  destruct (request_duration data) as [d|] eqn:Hdur; simpl.
  - rewrite (bind_int_fits d (Hd d eq_refl)). simpl.
    destruct (service_id data), (client_id data); simpl; rewrite ?app_nil_r; reflexivity.
  - destruct (service_id data), (client_id data); simpl; rewrite ?app_nil_r; reflexivity.
Qed.

Lemma insert_all_bindable (operational_data : list XRoadOperationalData) :
  Forall bindable operational_data ->
  forall table,
    Store.insert_all table operational_data
    = Returned (table ++ omap row_of operational_data).
Proof.
  induction 1 as [|data rest Hdata Hrest IH]; intros table; simpl.
  - rewrite app_nil_r. reflexivity.
  - rewrite (insert_or_ignore_bindable table data Hdata). simpl. rewrite IH.
    rewrite <- app_assoc. destruct (row_of data); reflexivity.
Qed.

Lemma insert_or_ignore_Raised (table : list operational_row)
    (data : XRoadOperationalData) (e : exn) :
  Store.insert_or_ignore table data = Raised e -> e = OverflowError.
Proof.
  unfold Store.insert_or_ignore.
  destruct (Store.bind_int (request_size data)) eqn:H1; simpl;
    [|intros He; injection He as <-; exact (bind_int_Raised _ _ H1)].
  destruct (Store.bind_int (response_size data)) eqn:H2; simpl;
    [|intros He; injection He as <-; exact (bind_int_Raised _ _ H2)].
  destruct (request_duration data) as [d|]; simpl.
  - destruct (Store.bind_int d) eqn:H3; simpl;
      [|intros He; injection He as <-; exact (bind_int_Raised _ _ H3)].
    destruct (service_id data), (client_id data); discriminate.
  - destruct (service_id data), (client_id data); discriminate.
Qed.

Lemma insert_or_ignore_unbindable (table : list operational_row) (data : XRoadOperationalData) :
  ~ bindable data -> Store.insert_or_ignore table data = Raised OverflowError.
Proof.
  intros Hnot.
  destruct (Store.insert_or_ignore table data) as [t|e] eqn:Hins.
  - exfalso. apply Hnot. unfold Store.insert_or_ignore in Hins.
    destruct (Store.bind_int (request_size data)) eqn:H1; simpl in Hins; [|discriminate Hins].
    destruct (Store.bind_int (response_size data)) eqn:H2; simpl in Hins; [|discriminate Hins].
    split; [exact (bind_int_Returned _ _ H1)|]. split; [exact (bind_int_Returned _ _ H2)|].
    intros d Hd. rewrite Hd in Hins.
    destruct (Store.bind_int d) eqn:H3; simpl in Hins; [|discriminate Hins].
    exact (bind_int_Returned _ _ H3).
  - rewrite (insert_or_ignore_Raised _ _ _ Hins). reflexivity.
Qed.

Lemma insert_all_unbindable (operational_data : list XRoadOperationalData)
    (data : XRoadOperationalData) :
  In data operational_data ->
  ~ bindable data ->
  forall table, Store.insert_all table operational_data = Raised OverflowError.
Proof.
  intros Hin Hnot. induction operational_data as [|a rest IH]; [contradiction|].
  intros table. simpl. destruct Hin as [->|Hin].
  - rewrite (insert_or_ignore_unbindable table data Hnot). reflexivity.
  - destruct (Store.insert_or_ignore table a) as [t|e] eqn:Hins; simpl.
    + apply (IH Hin).
    + rewrite (insert_or_ignore_Raised _ _ _ Hins). reflexivity.
Qed.

(** X2.  A batch is stored whole or not at all: when one record of the
    batch carries a number that does not fit a 64-bit integer, the store
    raises [OverflowError] and the table is left as it was, the records
    before the offending one included. *)
Theorem unbindable_record_loses_the_batch
    (operational_data : list XRoadOperationalData) (data : XRoadOperationalData)
    (w : world) :
  In data operational_data ->
  ~ bindable data ->
  _store_operational_data operational_data None w = (Raised OverflowError, w).
Proof.
  intros Hin Hnot. unfold _store_operational_data.
  rewrite (insert_all_unbindable operational_data data Hin Hnot). reflexivity.
Qed.

Lemma unbindable_record_witness :
  _store_operational_data [Fixtures.populated; Samples.oversized] None empty_world
  = (Raised OverflowError, empty_world).
Proof.
  apply (unbindable_record_loses_the_batch
           [Fixtures.populated; Samples.oversized] Samples.oversized empty_world).
  - right. left. reflexivity.
  - unfold bindable, fits_int64. simpl. lia.
Defined.

(** X3.  When every record of a batch can be bound, the store succeeds
    and appends, after the rows already there and in the order of the
    batch, one row for each record that has both identifiers, with the
    fields of the record; a record without a service or client identifier
    leaves no row and no trace. *)
Theorem stored_rows_follow_the_batch
    (operational_data : list XRoadOperationalData) (w : world) :
  Forall bindable operational_data ->
  _store_operational_data operational_data None w
  = (Returned tt,
     {| tbl_operational_data := tbl_operational_data w ++ omap row_of operational_data;
        tbl_health_data := tbl_health_data w;
        journal := journal w;
        naps := naps w |}).
Proof.
  intros Hall. unfold _store_operational_data.
  rewrite (insert_all_bindable operational_data Hall). reflexivity.
Qed.

Lemma bindable_intro (data : XRoadOperationalData) :
  fits_int64 (request_size data) ->
  fits_int64 (response_size data) ->
  (forall d, request_duration data = Some d -> fits_int64 d) ->
  bindable data.
Proof. intros H1 H2 H3. split; [exact H1|]. split; [exact H2|exact H3]. Qed.

Lemma stored_rows_witness :
  tbl_operational_data
    (snd (_store_operational_data
            [Fixtures.populated; Samples.anonymous; Fixtures.defaulted] None empty_world))
  = omap row_of [Fixtures.populated; Samples.anonymous; Fixtures.defaulted]
  /\ length (omap row_of [Fixtures.populated; Samples.anonymous; Fixtures.defaulted]) = 2%nat.
Proof.
  rewrite (stored_rows_follow_the_batch
             [Fixtures.populated; Samples.anonymous; Fixtures.defaulted] empty_world).
  - split; reflexivity.
  - repeat apply List.Forall_cons; try apply List.Forall_nil;
      apply bindable_intro; unfold fits_int64; simpl; try lia;
      intros d Hd; try discriminate Hd; injection Hd as <-; lia.
Defined.

(** X4.  An identifier element that is present but empty does not get the
    default: the parser returns the record with [None] in that place, and
    the store then skips the record without raising or logging, so it is
    never persisted. *)
Theorem empty_identifier_record_is_not_stored `{Runtime}
    (record el : element) (r : XRoadOperationalData) (table : list operational_row) :
  parse_record record = Returned r ->
  ET.find (ET.m "serviceXRoadRequestId") record = Some el
  \/ ET.find (ET.m "clientXRoadRequestId") record = Some el ->
  ET.text el = None ->
  (service_id r = None \/ client_id r = None)
  /\ row_of r = None
  /\ forall table', Store.insert_or_ignore table r = Returned table' -> table' = table.
Proof.
  intros Hr Hfind Htext.
  destruct (parse_record_inv record r Hr) as (Hs & Hc & _).
  assert (Hnone : service_id r = None \/ client_id r = None).
  { destruct Hfind as [Hf|Hf]; rewrite Hf in *; [left|right]; congruence. }
  split; [exact Hnone|].
  assert (Hrow : row_of r = None).
  { unfold row_of. destruct Hnone as [-> | ->]; [reflexivity|].
    destruct (service_id r); reflexivity. }
  split; [exact Hrow|].
  intros table' Hins. unfold Store.insert_or_ignore in Hins.
  destruct (Store.bind_int (request_size r)); simpl in Hins; [|discriminate Hins].
  destruct (Store.bind_int (response_size r)); simpl in Hins; [|discriminate Hins].
  destruct (match request_duration r with Some _ => _ | None => _ end);
    simpl in Hins; [|discriminate Hins].
  unfold row_of in Hrow.
  destruct (service_id r), (client_id r); try discriminate Hrow;
    injection Hins as <-; reflexivity.
Qed.

Lemma empty_identifier_witness :
  row_of Samples.anonymous = None
  /\ Store.insert_or_ignore [Fixtures.populated_row] Samples.anonymous
     = Returned [Fixtures.populated_row].
Proof.
  destruct (@empty_identifier_record_is_not_stored Fixtures.host
              Samples.anonymous_record
              (Element (ET.m "serviceXRoadRequestId") None [])
              Samples.anonymous [Fixtures.populated_row])
    as (_ & Hrow & Hkeep).
  - vm_compute. reflexivity.
  - left. vm_compute. reflexivity.
  - reflexivity.
  - split; [exact Hrow|].
    destruct (Store.insert_or_ignore [Fixtures.populated_row] Samples.anonymous)
      as [t|e] eqn:Hins; [|vm_compute in Hins; discriminate Hins].
    rewrite (Hkeep t eq_refl). reflexivity.
Defined.

(** ** The operational parser and the calls *)

Lemma warnings_keep `{Runtime} (good : element) (rest : list element)
    (r : XRoadOperationalData) :
  parse_record good = Returned r -> warnings (good :: rest) = warnings rest.
Proof. intros Hgood. unfold warnings. simpl. rewrite Hgood. reflexivity. Qed.

Lemma warnings_skip `{Runtime} (bad : element) (rest : list element) (e : exn) :
  parse_record bad = Raised e ->
  warnings (bad :: rest)
  = {| lvl := WARNING;
       msg := "Erro ao processar registro operacional: {e}";
       cause := Some e |} :: warnings rest.
Proof. intros Hbad. unfold warnings. simpl. rewrite Hbad. reflexivity. Qed.

Lemma parsed_warnings_length `{Runtime} (records : list element) :
  (length (parsed records) + length (warnings records) = length records)%nat.
Proof.
  induction records as [|record rest IH]; [reflexivity|].
  destruct (parse_record record) as [r|e] eqn:Hrec.
  - rewrite (parsed_keep _ _ _ Hrec), (warnings_keep _ _ _ Hrec). simpl. lia.
  - rewrite (parsed_skip _ _ _ Hrec), (warnings_skip _ _ _ Hrec). simpl. lia.
Qed.

Lemma warnings_are_warnings `{Runtime} (records : list element) :
  Forall (fun entry => lvl entry = WARNING) (warnings records).
Proof.
  induction records as [|record rest IH]; [apply List.Forall_nil|].
  destruct (parse_record record) as [r|e] eqn:Hrec.
  - rewrite (warnings_keep _ _ _ Hrec). exact IH.
  - rewrite (warnings_skip _ _ _ Hrec). apply List.Forall_cons; [reflexivity|exact IH].
Qed.

(** X5.  Of a document the reader accepts, every record element is
    accounted for: it is either among the records returned or reported by
    one warning of the logger; the parser returns, and it touches nothing
    but the journal. *)
Theorem every_record_element_is_returned_or_reported `{Runtime}
    (response_xml : string) (root : element) (w : world) :
  ET_fromstring response_xml = Returned root ->
  exists (l : list XRoadOperationalData) (entries : list log_record),
    _parse_operational_data_response response_xml w = (Returned l, logged w entries)
    /\ (length l + length entries = length (record_elements root))%nat
    /\ Forall (fun entry => lvl entry = WARNING) entries.
Proof.
  intros Hroot. exists (parsed (record_elements root)), (warnings (record_elements root)).
  split; [apply (parse_response_well_formed _ _ _ Hroot)|].
  split; [apply parsed_warnings_length|apply warnings_are_warnings].
Qed.

Lemma every_record_element_witness :
  exists (l : list XRoadOperationalData) (entries : list log_record),
    @_parse_operational_data_response Fixtures.host "<mixed/>" empty_world
    = (Returned l, logged empty_world entries)
    /\ (length l + length entries = 3)%nat.
Proof.
  destruct (@every_record_element_is_returned_or_reported Fixtures.host "<mixed/>"
              (Fixtures.envelope_of
                 [Fixtures.full_record; Fixtures.broken_record; Fixtures.bare_record])
              empty_world eq_refl)
    as (l & entries & Hparse & Hcount & _).
  exists l, entries. split; [exact Hparse|exact Hcount].
Defined.

Lemma get_operational_data_failing `{Runtime} (self : XRoadMetricsClient)
    (records_from records_to : datetime) (client_filter : option string)
    (now : datetime) (post : transport) (doc : string) (w : world) :
  failing post ->
  _build_operational_data_request self records_from records_to client_filter now
  = Returned doc ->
  exists entry,
    get_operational_data self records_from records_to client_filter now post w
    = (Returned [], logged w [entry])
    /\ lvl entry = ERROR.
Proof.
  intros Hpost Hdoc. unfold get_operational_data, bind, lift, try_catch.
  rewrite Hdoc. destruct (Hpost doc) as [(e & He & Hexn)|(r & Hr & Hstatus)].
  - rewrite He, Hexn. eexists. split; reflexivity.
  - rewrite Hr. destruct (Z.eqb_spec (status_code r) 200) as [Heq|_]; [contradiction|].
    eexists. split; reflexivity.
Qed.

Lemma get_health_data_failing `{Runtime} (self : XRoadMetricsClient)
    (server_id : option string) (now : datetime) (post : transport)
    (doc : string) (w : world) :
  failing post ->
  _build_health_data_request self server_id now = Returned doc ->
  exists entry,
    get_health_data self server_id now post w = (Returned ∅, logged w [entry])
    /\ lvl entry = ERROR.
Proof.
  intros Hpost Hdoc. unfold get_health_data, bind, lift, try_catch.
  rewrite Hdoc. destruct (Hpost doc) as [(e & He & Hexn)|(r & Hr & Hstatus)].
  - rewrite He, Hexn. eexists. split; reflexivity.
  - rewrite Hr. destruct (Z.eqb_spec (status_code r) 200) as [Heq|_]; [contradiction|].
    eexists. split; reflexivity.
Qed.

(** X6.  A call that fails in transit, because the transport raises an
    [Exception] or the server answers with a status other than 200, does
    not raise: [get_operational_data] returns the empty list and
    [get_health_data] the empty dict, each having logged one error and
    touched nothing else. *)
Theorem failed_call_yields_nothing `{Runtime} (self : XRoadMetricsClient)
    (records_from records_to : datetime) (client_filter server_id : option string)
    (now : datetime) (post : transport) (operational_doc health_doc : string) (w : world) :
  failing post ->
  _build_operational_data_request self records_from records_to client_filter now
  = Returned operational_doc ->
  _build_health_data_request self server_id now = Returned health_doc ->
  (exists entry,
      get_operational_data self records_from records_to client_filter now post w
      = (Returned [], logged w [entry])
      /\ lvl entry = ERROR)
  /\ (exists entry,
         get_health_data self server_id now post w = (Returned ∅, logged w [entry])
         /\ lvl entry = ERROR).
Proof.
  intros Hpost Hop Hhealth. split.
  - apply (get_operational_data_failing _ _ _ _ _ _ _ _ Hpost Hop).
  - apply (get_health_data_failing _ _ _ _ _ _ Hpost Hhealth).
Qed.

Lemma failed_call_witness :
  fst (@get_operational_data Fixtures.host Fixtures.client
         (Fixtures.at_wall 1699992800000000) (Fixtures.at_wall 1700000000000000) None
         (Fixtures.at_wall 1700000000000500) (post Fixtures.offline) empty_world)
  = Returned []
  /\ fst (@get_health_data Fixtures.host Fixtures.client None
            (Fixtures.at_wall 1700000000000500) (post Fixtures.offline) empty_world)
     = Returned ∅.
Proof.
  destruct (@_build_operational_data_request Fixtures.host Fixtures.client
              (Fixtures.at_wall 1699992800000000) (Fixtures.at_wall 1700000000000000) None
              (Fixtures.at_wall 1700000000000500)) as [odoc|e] eqn:Hop;
    [|vm_compute in Hop; discriminate Hop].
  destruct (_build_health_data_request Fixtures.client None
              (Fixtures.at_wall 1700000000000500)) as [hdoc|e] eqn:Hhealth;
    [|vm_compute in Hhealth; discriminate Hhealth].
  destruct (@failed_call_yields_nothing Fixtures.host Fixtures.client
              (Fixtures.at_wall 1699992800000000) (Fixtures.at_wall 1700000000000000)
              None None (Fixtures.at_wall 1700000000000500) (post Fixtures.offline)
              odoc hdoc empty_world)
    as [(entry1 & Hcall1 & _) (entry2 & Hcall2 & _)].
  - intros body. left. exists ConnectionError. split; reflexivity.
  - exact Hop.
  - exact Hhealth.
  - rewrite Hcall1, Hcall2. split; reflexivity.
Defined.

(** ** Health data: parser and store *)

Lemma or_return_Raised {A} (partial : gmap string pyval) (e : exn)
    (k : A -> M (gmap string pyval)) (w : world) :
  is_Exception e = true ->
  or_return partial (Raised e) k w
  = (Returned partial,
     logged w [{| lvl := ERROR;
                  msg := "Erro ao fazer parse da resposta de saúde: {e}";
                  cause := Some e |}]).
Proof. intros He. unfold or_return, try_catch, raise. rewrite He. reflexivity. Qed.

Lemma or_return_step {A} (partial : gmap string pyval) (a : A)
    (k : A -> M (gmap string pyval)) :
  or_return partial (Returned a) k = k a.
Proof. reflexivity. Qed.

(** X7.  When the XML reader rejects a health response, the health
    parser does not raise: it returns the empty dict, having logged one
    error. *)
Theorem rejected_health_document_yields_empty_dict `{Runtime}
    (response_xml : string) (e : exn) (w : world) :
  ET_fromstring response_xml = Raised e ->
  is_Exception e = true ->
  _parse_health_data_response response_xml w
  = (Returned ∅,
     logged w [{| lvl := ERROR;
                  msg := "Erro ao fazer parse da resposta de saúde: {e}";
                  cause := Some e |}]).
Proof.
  intros Hroot He. unfold _parse_health_data_response. rewrite Hroot.
  apply (or_return_Raised _ _ _ _ He).
Qed.

Lemma rejected_health_document_witness :
  fst (@_parse_health_data_response Fixtures.host "<health>" empty_world) = Returned ∅.
Proof.
  rewrite (@rejected_health_document_yields_empty_dict Fixtures.host "<health>"
             ParseError empty_world eq_refl eq_refl).
  reflexivity.
Defined.

Lemma for_service_events_fails `{Runtime} (service_events : list element)
    (bad : element) (e : exn) :
  In bad service_events ->
  parse_service_event bad = Raised e ->
  forall services, exists e', for_service_events service_events services = Raised e'.
Proof.
  intros Hin Hbad. induction service_events as [|ev rest IH]; [contradiction|].
  intros services. simpl. destruct Hin as [->|Hin].
  - rewrite Hbad. eexists. reflexivity.
  - destruct (parse_service_event ev) as [d|e0]; simpl.
    + apply (IH Hin).
    + eexists. reflexivity.
Qed.

Lemma put_int_services (key : string) (e : option element) (d d' : gmap string pyval) :
  put_int key e d = Returned d' ->
  key <> "services"%string ->
  d !! "services" = None ->
  d' !! "services" = None.
Proof.
  intros Hput Hne Hd. rewrite (put_int_other key "services" e d d' Hput Hne). exact Hd.
Qed.

(** What the health parser does with a document one of whose services
    cannot be read. *)
Lemma parse_health_malformed {RT : Runtime}
    (response_xml : string) (root bad : element) (e : exn) (w : world) :
  orderly RT ->
  ET_fromstring response_xml = Returned root ->
  In bad (service_event_elements root) ->
  parse_service_event bad = Raised e ->
  exists (health_data : gmap string pyval) (entry : log_record),
    _parse_health_data_response response_xml w = (Returned health_data, logged w [entry])
    /\ lvl entry = ERROR
    /\ health_data !! "services" = None.
Proof.
  intros Horderly Hroot Hin Hbad. unfold _parse_health_data_response.
  rewrite Hroot, or_return_step.
  destruct (put_int "monitoringStartupTimestamp" _ ∅) as [d1|e1] eqn:H1.
  - assert (Hd1 : d1 !! "services" = None)
      by (apply (put_int_services _ _ _ _ H1); [discriminate|apply lookup_empty]).
    rewrite or_return_step.
    destruct (put_int "statisticsPeriodSeconds" _ d1) as [d2|e2] eqn:H2.
    + assert (Hd2 : d2 !! "services" = None)
        by (apply (put_int_services _ _ _ _ H2); [discriminate|exact Hd1]).
      rewrite or_return_step.
      destruct (for_service_events_fails _ bad e Hin Hbad []) as [e3 H3].
      fold (service_event_elements root). rewrite H3.
      rewrite (or_return_Raised _ _ _ _ (for_service_events_raises Horderly _ _ e3 H3)).
      eexists. eexists. split; [reflexivity|]. split; [reflexivity|exact Hd2].
    + rewrite (or_return_Raised _ _ _ _ (put_int_raises _ _ _ e2 H2)).
      eexists. eexists. split; [reflexivity|]. split; [reflexivity|exact Hd1].
  - rewrite (or_return_Raised _ _ _ _ (put_int_raises _ _ _ e1 H1)).
    eexists. eexists. split; [reflexivity|]. split; [reflexivity|apply lookup_empty].
Qed.

(** X8.  The health parser does not isolate services from one another:
    when one service element of an accepted document raises while it is
    read, the dict that is returned has no entry [services] at all, the
    well-formed services are lost with the malformed one, and one error is
    logged. *)
Theorem malformed_service_drops_every_service {RT : Runtime}
    (response_xml : string) (root bad : element) (e : exn) (w : world) :
  orderly RT ->
  ET_fromstring response_xml = Returned root ->
  In bad (service_event_elements root) ->
  parse_service_event bad = Raised e ->
  exists (health_data : gmap string pyval) (entry : log_record),
    _parse_health_data_response response_xml w = (Returned health_data, logged w [entry])
    /\ lvl entry = ERROR
    /\ health_data !! "services" = None.
Proof.
  intros Horderly Hroot Hin Hbad.
  destruct (parse_health_malformed response_xml root bad e w Horderly Hroot Hin Hbad)
    as (health_data & entry & Hparse & Hlvl & Hnone).
  exists health_data, entry. split; [exact Hparse|]. split; [exact Hlvl|exact Hnone].
Qed.

Lemma utc_host_orderly (docs : list (string * element)) :
  orderly (utc_host (Fixtures.reader_of docs)).
Proof.
  split; intros text.
  - apply reader_of_raises.
  - simpl. auto with raises.
Qed.

Lemma malformed_service_witness :
  exists (health_data : gmap string pyval) (entry : log_record),
    @_parse_health_data_response Samples.host "<sick/>" empty_world
    = (Returned health_data, logged empty_world [entry])
    /\ health_data !! "services" = None.
Proof.
  destruct (@malformed_service_drops_every_service Samples.host "<sick/>"
              (Samples.health_of [Fixtures.service_event; Samples.broken_service])
              Samples.broken_service ValueError empty_world)
    as (health_data & entry & Hparse & _ & Hnone).
  - apply utc_host_orderly.
  - reflexivity.
  - right. left. reflexivity.
  - vm_compute. reflexivity.
  - exists health_data, entry. split; [exact Hparse|exact Hnone].
Defined.

Lemma parse_service_event_code `{Runtime} (service_event : element)
    (service_data : gmap string pyval) :
  parse_service_event service_event = Returned service_data ->
  ET.find (ET.m "serviceCode") service_event = None ->
  service_data !! "serviceCode" = None.
Proof.
  unfold parse_service_event. intros Hsd Hcode. rewrite Hcode in Hsd.
  destruct (put_int "lastSuccessfulRequestTimestamp" _ ∅) as [d1|] eqn:H1;
    simpl in Hsd; [|discriminate Hsd].
  destruct (put_int "lastUnsuccessfulRequestTimestamp" _ d1) as [d2|] eqn:H2;
    simpl in Hsd; [|discriminate Hsd].
  assert (Hnone : d2 !! "serviceCode" = None).
  { rewrite (put_int_other _ "serviceCode" _ _ _ H2) by discriminate.
    rewrite (put_int_other _ "serviceCode" _ _ _ H1) by discriminate.
    apply lookup_empty. }
  destruct (ET.find (ET.m "lastPeriodStatistics") service_event) as [stats_elem|].
  - destruct (parse_statistics stats_elem) as [stats|]; simpl in Hsd; [|discriminate Hsd].
    injection Hsd as <-. rewrite lookup_insert_ne by discriminate. exact Hnone.
  - injection Hsd as <-. exact Hnone.
Qed.

Lemma insert_health_without_code `{Runtime} (table : list health_row)
    (service : gmap string pyval) :
  service !! "serviceCode" = None ->
  exists e, Store.insert_health table (PDict service) = Raised e.
Proof.
  intros Hcode. unfold Store.insert_health.
  destruct (Store.get service "lastPeriodStatistics" (PDict ∅)) as [| | | | |stats];
    try (eexists; reflexivity).
  destruct (Store.stored_instant service "lastSuccessfulRequestTimestamp");
    simpl; [|eexists; reflexivity].
  destruct (Store.stored_instant service "lastUnsuccessfulRequestTimestamp");
    simpl; [|eexists; reflexivity].
  destruct (Store.stored_count (Store.get stats "successfulRequestCount" (PInt 0)));
    simpl; [|eexists; reflexivity].
  destruct (Store.stored_count (Store.get stats "unsuccessfulRequestCount" (PInt 0)));
    simpl; [|eexists; reflexivity].
  destruct (Store.stored_real _); simpl; [|eexists; reflexivity].
  unfold Store.get. rewrite Hcode. simpl. eexists. reflexivity.
Qed.

Lemma insert_all_health_without_code `{Runtime} (services : list pyval)
    (service : gmap string pyval) :
  In (PDict service) services ->
  service !! "serviceCode" = None ->
  forall table, exists e, Store.insert_all_health table services = Raised e.
Proof.
  intros Hin Hcode. induction services as [|a rest IH]; [contradiction|].
  intros table. simpl. destruct Hin as [->|Hin].
  - destruct (insert_health_without_code table service Hcode) as [e He].
    rewrite He. eexists. reflexivity.
  - destruct (Store.insert_health table a) as [t|e]; simpl.
    + apply (IH Hin).
    + eexists. reflexivity.
Qed.

(** X9.  A service element without a [serviceCode] is parsed into a dict
    without that key, and such a dict cannot be stored: the plain [INSERT]
    violates [NOT NULL], the store raises an [Exception], and none of the
    services of the batch is persisted. *)
Theorem service_without_code_fails_the_store `{Runtime}
    (service_event : element) (service : gmap string pyval)
    (services : list pyval) (w : world) :
  parse_service_event service_event = Returned service ->
  ET.find (ET.m "serviceCode") service_event = None ->
  In (PDict service) services ->
  exists e,
    _store_health_data services None w = (Raised e, w)
    /\ is_Exception e = true.
Proof.
  intros Hparse Hfind Hin.
  pose proof (parse_service_event_code _ _ Hparse Hfind) as Hcode.
  destruct (insert_all_health_without_code services service Hin Hcode (tbl_health_data w))
    as [e He].
  exists e. unfold _store_health_data. rewrite He.
  split; [reflexivity|]. apply (insert_all_health_raises services (tbl_health_data w) e He).
Qed.

Lemma service_without_code_witness :
  @_store_health_data Samples.host
    [PDict Fixtures.service_data; PDict Samples.nameless_data] None empty_world
  = (Raised IntegrityError, empty_world).
Proof.
  destruct (@service_without_code_fails_the_store Samples.host
              Samples.nameless_service Samples.nameless_data
              [PDict Fixtures.service_data; PDict Samples.nameless_data] empty_world)
    as (e & Hstore & _).
  - vm_compute. reflexivity.
  - reflexivity.
  - right. left. reflexivity.
  - rewrite Hstore. vm_compute in Hstore. injection Hstore as <-. reflexivity.
Defined.



(** ** The monitoring loop: identifiers, interrupts, intervals *)

Lemma build_operational_short `{Runtime} (self : XRoadMetricsClient)
    (records_from records_to : datetime) (client_filter : option string) (now : datetime) :
  (segments (self_client_id self) < 3)%nat ->
  exists e,
    _build_operational_data_request self records_from records_to client_filter now
    = Raised e
    /\ is_Exception e = true.
Proof.
  intros Hlen. unfold _build_operational_data_request.
  destruct (DT.epoch_seconds records_from) as [a|e] eqn:Ha; simpl;
    [|exists e; split; [reflexivity|exact (epoch_seconds_raises _ e Ha)]].
  destruct (DT.epoch_seconds records_to) as [b|e] eqn:Hb; simpl;
    [|exists e; split; [reflexivity|exact (epoch_seconds_raises _ e Hb)]].
  destruct (client_filter_clause self client_filter) as [clause|e] eqn:Hclause; simpl.
  - exists IndexError. split; [|reflexivity].
    destruct (member_class (self_client_id self)) as [c|e] eqn:Hc; simpl.
    + rewrite (member_code_short _ Hlen). reflexivity.
    + destruct (member_raises _ _ (or_introl Hc)) as [-> _]. reflexivity.
  - exists e. split; [reflexivity|].
    destruct (client_filter_clause_raises _ _ _ Hclause) as [-> _]. reflexivity.
Qed.

Lemma same_store_logged (w : world) (entries : list log_record) :
  same_store w (logged w entries).
Proof. repeat split. Qed.

(** With an identifier of fewer than three segments the collection raises
    before the transport or the store is reached. *)
Lemma collect_operational_short `{Runtime} (self : XRoadMetricsClient)
    (hours_back : Z) (env : surroundings) (w : world) :
  (segments (self_client_id self) < 3)%nat ->
  exists e w1,
    collect_operational_data self hours_back env w = (Raised e, w1)
    /\ is_Exception e = true
    /\ same_store w w1.
Proof.
  intros Hlen. unfold collect_operational_data, bind, lift.
  destruct (timedelta_hours hours_back) as [span|e] eqn:Hspan.
  - destruct (DT.minus (clock env) span) as [start_time|e] eqn:Hstart.
    + rewrite logger_logged. unfold get_operational_data, bind, lift.
      destruct (build_operational_short self start_time (clock env) None
                  (request_clock env) Hlen) as (e & -> & He).
      exists e. eexists. split; [reflexivity|]. split; [exact He|apply same_store_logged].
    + exists e, w. split; [reflexivity|]. split; [|repeat split].
      unfold DT.minus in Hstart. destruct (DT.in_range _); [discriminate Hstart|].
      injection Hstart as <-. reflexivity.
  - exists e, w. split; [reflexivity|]. split; [|repeat split].
    unfold timedelta_hours in Hspan. destruct (_ <=? _); [discriminate Hspan|].
    injection Hspan as <-. reflexivity.
Qed.

(** X11.  With a client identifier of fewer than three segments the loop
    keeps running but achieves nothing: in every turn the collection raises
    while the request is built, before the transport is called or the store
    touched, whatever the transport and the store would do; the tables stay
    as they are, and every turn ends in the pause of 60 seconds. *)
Theorem malformed_client_id_never_reaches_the_server `{Runtime}
    (self : XRoadMetricsClient) (interval_minutes : Z) (turns : list turn) (w : world) :
  (segments (self_client_id self) < 3)%nat ->
  Forall (fun t => pause_interrupted t = false) turns ->
  exists w',
    monitoring_loop self interval_minutes turns w = (Returned Looping, w')
    /\ tbl_operational_data w' = tbl_operational_data w
    /\ tbl_health_data w' = tbl_health_data w
    /\ naps w' = naps w ++ repeat 60 (length turns).
Proof.
  intros Hlen Hturns. revert w.
  induction Hturns as [|t rest Hpause Hrest IH]; intros w.
  - exists w. simpl. rewrite app_nil_r. repeat split.
  - destruct (collect_operational_short self 2 (operational t) w Hlen)
      as (e & w1 & Hcollect & He & Hop & Hhealth & Hnaps).
    assert (Hcycle : cycle self interval_minutes t w = (Raised e, w1))
      by (unfold cycle, bind; rewrite Hcollect; reflexivity).
    rewrite (monitoring_loop_after_failure self interval_minutes t rest w w1 e
               Hcycle He Hpause).
    destruct (IH (after_failure e w1)) as (w' & Hloop & Hop' & Hhealth' & Hnaps').
    exists w'. split; [exact Hloop|]. simpl in *.
    split; [congruence|]. split; [congruence|].
    rewrite Hnaps', Hnaps, <- app_assoc. reflexivity.
Qed.

Lemma malformed_client_id_witness :
  exists w',
    @monitoring_loop Fixtures.host
      {| xroad_server := "https://ss.example/";
         self_client_id := "GOV/12345";
         timeout := None;
         ssl_verify := None;
         xroad_instance := None |}
      15 [Fixtures.locked_turn; Fixtures.offline_turn] empty_world
    = (Returned Looping, w')
    /\ tbl_operational_data w' = []
    /\ naps w' = [60; 60].
Proof.
  destruct (@malformed_client_id_never_reaches_the_server Fixtures.host
              {| xroad_server := "https://ss.example/";
                 self_client_id := "GOV/12345";
                 timeout := None;
                 ssl_verify := None;
                 xroad_instance := None |}
              15 [Fixtures.locked_turn; Fixtures.offline_turn] empty_world)
    as (w' & Hloop & Hop & _ & Hnaps).
  - vm_compute. lia.
  - apply List.Forall_cons; [reflexivity|].
    apply List.Forall_cons; [reflexivity|apply List.Forall_nil].
  - exists w'. split; [exact Hloop|]. split; [exact Hop|exact Hnaps].
Defined.

Section Interrupts.
Context {RT : Runtime}.
Variable self : XRoadMetricsClient.
Variable interval_minutes : Z.

(** A loop that is still looping after some turns goes on with the turns
    that follow. *)
Lemma monitoring_loop_app (before rest : list turn) :
  forall w w0 : world,
    monitoring_loop self interval_minutes before w = (Returned Looping, w0) ->
    monitoring_loop self interval_minutes (before ++ rest) w
    = monitoring_loop self interval_minutes rest w0.
Proof.
  induction before as [|t before IH]; intros w w0 Hloop.
  - injection Hloop as <-. reflexivity.
  - simpl in *. destruct (cycle self interval_minutes t w) as [[u|e] w1].
    + apply IH, Hloop.
    + destruct e; simpl in *; try discriminate Hloop;
        unfold bind, sleep in *; simpl in *;
        (destruct (pause_interrupted t); [discriminate Hloop|apply IH, Hloop]).
Qed.

Lemma start_monitoring_loop_app (before rest : list turn) (w w0 : world) :
  start_monitoring_loop self interval_minutes before w = (Returned Looping, w0) ->
  start_monitoring_loop self interval_minutes (before ++ rest) w
  = monitoring_loop self interval_minutes rest w0.
Proof.
  unfold start_monitoring_loop, bind. simpl. apply monitoring_loop_app.
Qed.

(** A cycle that returns has slept for the interval, which was not
    negative. *)
Lemma cycle_returns (t : turn) (w w1 : world) (u : unit) :
  cycle self interval_minutes t w = (Returned u, w1) -> 0 <= interval_minutes * 60.
Proof.
  unfold cycle, bind, sleep. intros Hcycle.
  destruct (collect_operational_data self 2 (operational t) w) as [[l|e] w2];
    [|discriminate Hcycle].
  destruct (collect_health_data self (health t) w2) as [[d|e] w3]; [|discriminate Hcycle].
  destruct (9223372036 <? Z.abs (interval_minutes * 60)); [discriminate Hcycle|].
  destruct (Z.ltb_spec (interval_minutes * 60) 0) as [Hneg|Hpos];
    [discriminate Hcycle|exact Hpos].
Qed.

End Interrupts.

(** X12.  An interrupt is handled in one place only.  Raised inside a
    cycle, it ends the loop in good order: the loop logs that it stops and
    is left by [break], the turns that would follow are not run.  Raised
    during the pause of 60 seconds that follows a failed cycle, it is not
    handled: [KeyboardInterrupt] leaves [start_monitoring_loop], after the
    error of the cycle has been logged and without the farewell entry. *)
Theorem interrupt_is_handled_in_the_cycle_only {RT : Runtime}
    (self : XRoadMetricsClient) (interval_minutes : Z)
    (before rest : list turn) (t : turn) (w w0 w1 : world) :
  start_monitoring_loop self interval_minutes before w = (Returned Looping, w0) ->
  (cycle self interval_minutes t w0 = (Raised KeyboardInterrupt, w1) ->
   start_monitoring_loop self interval_minutes (before ++ t :: rest) w
   = (Returned Left,
      logged w1 [{| lvl := INFO; msg := "Interrompendo monitoramento..."; cause := None |}]))
  /\ (forall e : exn,
         cycle self interval_minutes t w0 = (Raised e, w1) ->
         is_Exception e = true ->
         pause_interrupted t = true ->
         start_monitoring_loop self interval_minutes (before ++ t :: rest) w
         = (Raised KeyboardInterrupt,
            logged w1 [{| lvl := ERROR;
                          msg := "Erro no loop de monitoramento: {e}";
                          cause := Some e |}])).
Proof.
  intros Hbefore. rewrite (start_monitoring_loop_app self interval_minutes _ _ _ _ Hbefore).
  split.
  - intros Hcycle. simpl. rewrite Hcycle. reflexivity.
  - intros e Hcycle He Hpause. simpl. rewrite Hcycle.
    destruct e; try discriminate He; unfold bind, sleep; rewrite Hpause; reflexivity.
Qed.

Lemma interrupt_witness :
  fst (@start_monitoring_loop Fixtures.host Fixtures.client 15
         [Fixtures.offline_turn; Samples.interrupted_nap; Fixtures.locked_turn] empty_world)
  = Returned Left
  /\ fst (@start_monitoring_loop Fixtures.host Fixtures.client 15
            [Fixtures.offline_turn; Samples.interrupted_pause; Fixtures.locked_turn]
            empty_world)
     = Raised KeyboardInterrupt.
Proof.
  set (w0 := snd (@start_monitoring_loop Fixtures.host Fixtures.client 15
                    [Fixtures.offline_turn] empty_world)).
  assert (Hbefore :
            @start_monitoring_loop Fixtures.host Fixtures.client 15
              [Fixtures.offline_turn] empty_world
            = (Returned Looping, w0)) by (vm_compute; reflexivity).
  split.
  - destruct (@interrupt_is_handled_in_the_cycle_only Fixtures.host Fixtures.client 15
                [Fixtures.offline_turn] [Fixtures.locked_turn] Samples.interrupted_nap
                empty_world w0
                (snd (@cycle Fixtures.host Fixtures.client 15 Samples.interrupted_nap w0))
                Hbefore) as [Hnap _].
    change [Fixtures.offline_turn; Samples.interrupted_nap; Fixtures.locked_turn]
      with ([Fixtures.offline_turn] ++ Samples.interrupted_nap :: [Fixtures.locked_turn]).
    rewrite Hnap; [reflexivity|vm_compute; reflexivity].
  - destruct (@interrupt_is_handled_in_the_cycle_only Fixtures.host Fixtures.client 15
                [Fixtures.offline_turn] [Fixtures.locked_turn] Samples.interrupted_pause
                empty_world w0
                (snd (@cycle Fixtures.host Fixtures.client 15 Samples.interrupted_pause w0))
                Hbefore) as [_ Hpause].
    change [Fixtures.offline_turn; Samples.interrupted_pause; Fixtures.locked_turn]
      with ([Fixtures.offline_turn] ++ Samples.interrupted_pause :: [Fixtures.locked_turn]).
    rewrite (Hpause OperationalError); [reflexivity|vm_compute; reflexivity|reflexivity|reflexivity].
Defined.

Lemma monitoring_loop_negative {RT : Runtime}
    (self : XRoadMetricsClient) (interval_minutes : Z) (turns : list turn) :
  orderly RT ->
  Forall uncancelled turns ->
  interval_minutes < 0 ->
  forall w : world,
  exists w',
    monitoring_loop self interval_minutes turns w = (Returned Looping, w')
    /\ naps w' = naps w ++ repeat 60 (length turns).
Proof.
  intros Horderly Hturns Hneg.
  induction Hturns as [|t rest Ht Hrest IH]; intros w0.
  - exists w0. simpl. rewrite app_nil_r. split; reflexivity.
  - destruct (cycle_uncancelled Horderly self interval_minutes t w0 Ht)
      as [(w1 & Hcycle & _)|(e & w1 & Hcycle & He & Hnaps)].
    + pose proof (cycle_returns self interval_minutes t w0 w1 tt Hcycle). lia.
    + destruct Ht as (_ & _ & _ & Hpause).
      rewrite (monitoring_loop_after_failure self interval_minutes t rest w0 w1 e
                 Hcycle He Hpause).
      destruct (IH (after_failure e w1)) as (w' & Hloop & Hnaps').
      exists w'. split; [exact Hloop|].
      rewrite Hnaps'. simpl. rewrite Hnaps, <- app_assoc. reflexivity.
Qed.

(** X13.  A negative interval neither stops the agent nor lets it spin.
    The collections of a turn run as usual; the sleep that should end the
    cycle then raises [ValueError] ([OverflowError] beyond the range of the
    C time type), which the loop handles like any failure
    of a cycle: without a cancellation, every turn ends in the pause of 60
    seconds and the loop is still looping. *)
Theorem negative_interval_polls_every_minute {RT : Runtime}
    (self : XRoadMetricsClient) (interval_minutes : Z) (turns : list turn) (w : world) :
  orderly RT ->
  Forall uncancelled turns ->
  interval_minutes < 0 ->
  exists w',
    start_monitoring_loop self interval_minutes turns w = (Returned Looping, w')
    /\ naps w' = naps w ++ repeat 60 (length turns).
Proof.
  intros Horderly Hturns Hneg. unfold start_monitoring_loop, bind. simpl.
  match goal with
  | |- context [monitoring_loop _ _ _ ?w1] =>
      destruct (monitoring_loop_negative self interval_minutes turns
                  Horderly Hturns Hneg w1) as (w' & Hloop & Hnaps)
  end.
  exists w'. split; [exact Hloop|exact Hnaps].
Qed.

Lemma negative_interval_witness :
  exists w',
    @start_monitoring_loop Fixtures.host Fixtures.client (-5)
      [Fixtures.offline_turn; Fixtures.locked_turn] empty_world
    = (Returned Looping, w')
    /\ naps w' = [60; 60].
Proof.
  destruct (@negative_interval_polls_every_minute Fixtures.host Fixtures.client (-5)
              [Fixtures.offline_turn; Fixtures.locked_turn] empty_world
              fixture_host_orderly fixture_turns_uncancelled)
    as (w' & Hloop & Hnaps); [lia|].
  exists w'. split; [exact Hloop|exact Hnaps].
Defined.

(** ** What the agent never does: remove or rewrite *)

Lemma extends_refl (w : world) : extends w w.
Proof.
  unfold extends. split; [|split; [|split]]; exists []; rewrite app_nil_r; reflexivity.
Qed.

Lemma extends_trans (w1 w2 w3 : world) : extends w1 w2 -> extends w2 w3 -> extends w1 w3.
Proof.
  intros ([a1 Ha1] & [b1 Hb1] & [c1 Hc1] & [d1 Hd1])
         ([a2 Ha2] & [b2 Hb2] & [c2 Hc2] & [d2 Hd2]).
  unfold extends. split; [|split; [|split]].
  - exists (a1 ++ a2). rewrite Ha2, Ha1, <- app_assoc. reflexivity.
  - exists (b1 ++ b2). rewrite Hb2, Hb1, <- app_assoc. reflexivity.
  - exists (c1 ++ c2). rewrite Hc2, Hc1, <- app_assoc. reflexivity.
  - exists (d1 ++ d2). rewrite Hd2, Hd1, <- app_assoc. reflexivity.
Qed.

Ltac grown :=
  unfold extends; simpl;
  split; [|split; [|split]];
  first [exists []; rewrite app_nil_r; reflexivity | eexists; reflexivity].

Lemma growing_ret {A} (a : A) : growing (ret a).
Proof. intros w. apply extends_refl. Qed.

Lemma growing_raise {A} (e : exn) : growing (@raise A e).
Proof. intros w. apply extends_refl. Qed.

Lemma growing_lift {A} (x : outcome A) : growing (lift x).
Proof. intros w. apply extends_refl. Qed.

Lemma growing_logger (l : level) (m : string) (c : option exn) : growing (logger l m c).
Proof. intros w. grown. Qed.

Lemma growing_bind {A B} (c : M A) (k : A -> M B) :
  growing c -> (forall a, growing (k a)) -> growing (bind c k).
Proof.
  intros Hc Hk w. unfold bind. specialize (Hc w).
  destruct (c w) as [[a|e] w1]; simpl in *; [|exact Hc].
  eapply extends_trans; [exact Hc|apply Hk].
Qed.

Lemma growing_try_catch {A} (body : M A) (handler : exn -> M A) :
  growing body -> (forall e, growing (handler e)) -> growing (try_catch body handler).
Proof.
  intros Hbody Hhandler w. unfold try_catch. specialize (Hbody w).
  destruct (body w) as [[a|e] w1]; simpl in *; [exact Hbody|].
  destruct (is_Exception e); [|exact Hbody].
  eapply extends_trans; [exact Hbody|apply Hhandler].
Qed.

Lemma growing_sleep (seconds : Z) (interrupted : bool) : growing (sleep seconds interrupted).
Proof.
  unfold sleep. destruct (9223372036 <? Z.abs seconds); [apply growing_raise|].
  destruct (seconds <? 0); [apply growing_raise|].
  destruct interrupted; [apply growing_raise|]. intros w. grown.
Qed.

Lemma insert_health_appends `{Runtime} (table t : list health_row) (service : pyval) :
  Store.insert_health table service = Returned t -> exists row, t = table ++ [row].
Proof.
  unfold Store.insert_health. intros Hins.
  destruct service as [| | | | |service]; try discriminate Hins.
  destruct (Store.get service "lastPeriodStatistics" (PDict ∅)) as [| | | | |stats];
    try discriminate Hins.
  destruct (Store.stored_instant service "lastSuccessfulRequestTimestamp");
    simpl in Hins; [|discriminate Hins].
  destruct (Store.stored_instant service "lastUnsuccessfulRequestTimestamp");
    simpl in Hins; [|discriminate Hins].
  destruct (Store.stored_count (Store.get stats "successfulRequestCount" (PInt 0)));
    simpl in Hins; [|discriminate Hins].
  destruct (Store.stored_count (Store.get stats "unsuccessfulRequestCount" (PInt 0)));
    simpl in Hins; [|discriminate Hins].
  destruct (Store.stored_real (Store.get stats "avgDuration" (PFloat (S754_zero false))));
    simpl in Hins; [|discriminate Hins].
  destruct (Store.get service "serviceCode" PNone); try discriminate Hins.
  injection Hins as <-. eexists. reflexivity.
Qed.

Lemma insert_all_health_appends `{Runtime} (services : list pyval) :
  forall table t : list health_row,
    Store.insert_all_health table services = Returned t ->
    exists rows, t = table ++ rows /\ length rows = length services.
Proof.
  induction services as [|service rest IH]; intros table t Hins; simpl in Hins.
  - injection Hins as <-. exists []. rewrite app_nil_r. split; reflexivity.
  - destruct (Store.insert_health table service) as [t1|e] eqn:Hone;
      simpl in Hins; [|discriminate Hins].
    destruct (insert_health_appends _ _ _ Hone) as [row ->].
    destruct (IH _ _ Hins) as (rows & -> & Hlen).
    exists (row :: rows). rewrite <- app_assoc. split; [reflexivity|].
    simpl. rewrite Hlen. reflexivity.
Qed.

Section Growing.
Context {RT : Runtime}.
Variable self : XRoadMetricsClient.

Lemma growing_store_operational (operational_data : list XRoadOperationalData)
    (fault : option exn) :
  growing (_store_operational_data operational_data fault).
Proof.
  unfold _store_operational_data. destruct fault as [e|]; [apply growing_raise|].
  intros w. rewrite insert_all_appends.
  destruct (Store.insert_all [] operational_data) as [rows|e]; simpl;
    [grown|apply extends_refl].
Qed.

Lemma growing_store_health (services : list pyval) (fault : option exn) :
  growing (_store_health_data services fault).
Proof.
  unfold _store_health_data. destruct fault as [e|]; [apply growing_raise|].
  intros w.
  destruct (Store.insert_all_health (tbl_health_data w) services) as [t|e] eqn:Hins;
    simpl; [|apply extends_refl].
  destruct (insert_all_health_appends _ _ _ Hins) as (rows & -> & _). grown.
Qed.

Lemma growing_for_records (records : list element) :
  forall operational_data, growing (for_records records operational_data).
Proof.
  induction records as [|record rest IH]; intros operational_data; simpl.
  - apply growing_ret.
  - apply growing_bind; [|intros grown_list; apply IH].
    apply growing_try_catch.
    + apply growing_bind; [apply growing_lift|intros r; apply growing_ret].
    + intros e. apply growing_bind; [apply growing_logger|intros _; apply growing_ret].
Qed.

Lemma growing_parse_operational (response_xml : string) :
  growing (_parse_operational_data_response response_xml).
Proof.
  unfold _parse_operational_data_response. apply growing_try_catch.
  - apply growing_bind; [apply growing_lift|intros root; apply growing_for_records].
  - intros e. apply growing_bind; [apply growing_logger|intros _; apply growing_ret].
Qed.

Lemma growing_or_return {A} (health_data : gmap string pyval) (step : outcome A)
    (k : A -> M (gmap string pyval)) :
  (forall a, growing (k a)) -> growing (or_return health_data step k).
Proof.
  intros Hk. unfold or_return. destruct step as [a|e]; [apply Hk|].
  apply growing_try_catch; [apply growing_raise|].
  intros e'. apply growing_bind; [apply growing_logger|intros _; apply growing_ret].
Qed.

Lemma growing_parse_health (response_xml : string) :
  growing (_parse_health_data_response response_xml).
Proof.
  unfold _parse_health_data_response.
  apply growing_or_return. intros root.
  apply growing_or_return. intros d1.
  apply growing_or_return. intros d2.
  apply growing_or_return. intros services. apply growing_ret.
Qed.

Lemma growing_get_operational_data (records_from records_to : datetime)
    (client_filter : option string) (now : datetime) (post : transport) :
  growing (get_operational_data self records_from records_to client_filter now post).
Proof.
  unfold get_operational_data.
  apply growing_bind; [apply growing_lift|intros soap_request].
  apply growing_try_catch.
  - apply growing_bind; [apply growing_lift|intros response].
    destruct (status_code response =? 200); [apply growing_parse_operational|].
    apply growing_bind; [apply growing_logger|intros _; apply growing_ret].
  - intros e. apply growing_bind; [apply growing_logger|intros _; apply growing_ret].
Qed.

Lemma growing_get_health_data (server_id : option string) (now : datetime)
    (post : transport) :
  growing (get_health_data self server_id now post).
Proof.
  unfold get_health_data.
  apply growing_bind; [apply growing_lift|intros soap_request].
  apply growing_try_catch.
  - apply growing_bind; [apply growing_lift|intros response].
    destruct (status_code response =? 200); [apply growing_parse_health|].
    apply growing_bind; [apply growing_logger|intros _; apply growing_ret].
  - intros e. apply growing_bind; [apply growing_logger|intros _; apply growing_ret].
Qed.

Lemma growing_collect_operational_data (hours_back : Z) (env : surroundings) :
  growing (collect_operational_data self hours_back env).
Proof.
  unfold collect_operational_data.
  apply growing_bind; [apply growing_lift|intros span].
  apply growing_bind; [apply growing_lift|intros start_time].
  apply growing_bind; [apply growing_logger|intros _].
  apply growing_bind; [apply growing_get_operational_data|intros operational_data].
  apply growing_bind; [|intros _; apply growing_ret].
  destruct operational_data as [|r rest]; [apply growing_logger|].
  apply growing_bind; [apply growing_store_operational|intros _; apply growing_logger].
Qed.

Lemma growing_collect_health_data (env : surroundings) :
  growing (collect_health_data self env).
Proof.
  unfold collect_health_data.
  apply growing_bind; [apply growing_logger|intros _].
  apply growing_bind; [apply growing_get_health_data|intros health_data].
  apply growing_bind; [|intros _; apply growing_ret].
  destruct (health_data !! "services") as [services|]; [|apply growing_logger].
  apply growing_bind.
  { destruct services; first [apply growing_ret|apply growing_raise]. }
  intros rows.
  apply growing_bind; [apply growing_store_health|intros _; apply growing_logger].
Qed.

Lemma growing_cycle (interval_minutes : Z) (t : turn) :
  growing (cycle self interval_minutes t).
Proof.
  unfold cycle.
  apply growing_bind; [apply growing_collect_operational_data|intros _].
  apply growing_bind; [apply growing_collect_health_data|intros _].
  apply growing_sleep.
Qed.

Lemma growing_monitoring_loop (interval_minutes : Z) (turns : list turn) :
  growing (monitoring_loop self interval_minutes turns).
Proof.
  induction turns as [|t rest IH]; [apply growing_ret|].
  intros w. simpl. pose proof (growing_cycle interval_minutes t w) as Hcycle.
  destruct (cycle self interval_minutes t w) as [[u|e] w1]; simpl in Hcycle.
  - eapply extends_trans; [exact Hcycle|apply IH].
  - assert (Hhandled :
              growing (let! _ := logger ERROR "Erro no loop de monitoramento: {e}" (Some e) in
                       let! _ := sleep 60 (pause_interrupted t) in
                       monitoring_loop self interval_minutes rest)%agent).
    { apply growing_bind; [apply growing_logger|intros _].
      apply growing_bind; [apply growing_sleep|intros _; exact IH]. }
    assert (Hleft :
              growing (let! _ := logger INFO "Interrompendo monitoramento..." None in
                       ret Left)%agent).
    { apply growing_bind; [apply growing_logger|intros _; apply growing_ret]. }
    destruct e; simpl;
      first [exact Hcycle
            | eapply extends_trans; [exact Hcycle|apply Hhandled]
            | eapply extends_trans; [exact Hcycle|apply Hleft]].
Qed.

End Growing.

(** X14.  The agent only ever appends.  Whatever the servers answer,
    whatever fails and however the loop ends (still looping, left after an
    interrupt, or with an exception coming through), the world after
    [start_monitoring_loop] holds everything it held before, at the same
    place: no row of either table, no log entry and no recorded sleep has
    been removed or rewritten; what is new stands after what was there.
    The same holds of every single collection. *)
Theorem the_agent_only_appends {RT : Runtime}
    (self : XRoadMetricsClient) (w : world) :
  (forall (interval_minutes : Z) (turns : list turn),
      extends w (snd (start_monitoring_loop self interval_minutes turns w)))
  /\ (forall (hours_back : Z) (env : surroundings),
         extends w (snd (collect_operational_data self hours_back env w)))
  /\ (forall env : surroundings,
         extends w (snd (collect_health_data self env w))).
Proof.
  split; [|split].
  - intros interval_minutes turns. unfold start_monitoring_loop.
    apply growing_bind; [apply growing_logger|intros _; apply growing_monitoring_loop].
  - intros hours_back env. apply growing_collect_operational_data.
  - intros env. apply growing_collect_health_data.
Qed.

(** ** Analytics *)

Lemma fold_groups_lookup (f : string -> group_summary) (window : list operational_row)
    (s : string) :
  fold_right (fun r (acc : gmap string group_summary) =>
                <[op_service_id r := f (op_service_id r)]> acc) ∅ window !! s
  = if existsb (fun r => String.eqb (op_service_id r) s) window then Some (f s) else None.
Proof.
  induction window as [|r rest IH]; simpl.
  - apply lookup_empty.
  - destruct (String.eqb_spec (op_service_id r) s) as [->|Hne]; simpl.
    + rewrite lookup_insert_eq. reflexivity.
    + rewrite lookup_insert_ne by exact Hne. exact IH.
Qed.

Lemma window_of_service (s : string) (since : Z) (table : list operational_row) :
  existsb (fun r => String.eqb (op_service_id r) s) (List.filter (Sql.after since) table)
  = negb (Nat.eqb (length (where_service_since s since table)) 0).
Proof.
  unfold where_service_since. induction table as [|r rest IH]; simpl; [reflexivity|].
  destruct (Sql.after since r); simpl.
  - rewrite andb_true_r. destruct (String.eqb (op_service_id r) s); simpl; [reflexivity|exact IH].
  - rewrite andb_false_r. exact IH.
Qed.

(** The grouped query has a row for exactly the services with a request
    in the window, and that row summarises the requests of the service. *)
Lemma group_by_service_lookup (since : Z) (table : list operational_row) (s : string) :
  group_by_service since table !! s
  = match where_service_since s since table with
    | [] => None
    | _ :: _ => Some (select_group_summary (where_service_since s since table))
    end.
Proof.
  unfold group_by_service.
  rewrite (fold_groups_lookup
             (fun s' => select_group_summary (where_service_since s' since table))).
  rewrite window_of_service.
  destruct (where_service_since s since table); reflexivity.
Qed.

Lemma get_service_analytics_inv (service_id : option string) (days : Z) (now : datetime)
    (w w' : world) (result : analytics) :
  get_service_analytics service_id days now None w = (Returned result, w') ->
  w' = w
  /\ exists since,
       DT.minus now (days * 86400 * 1000000) = Returned since
       /\ result
          = match service_id with
            | Some s =>
                if nonempty s
                then ForService
                       (select_summary (where_service_since s (wall since)
                                                            (tbl_operational_data w)))
                else PerService (group_by_service (wall since) (tbl_operational_data w))
            | None => PerService (group_by_service (wall since) (tbl_operational_data w))
            end.
Proof.
  unfold get_service_analytics, bind, lift. intros Hget.
  destruct (Z.abs days <=? 999999999); [|discriminate Hget].
  destruct (DT.minus now (days * 86400 * 1000000)) as [since|e]; [|discriminate Hget].
  destruct service_id as [s|]; [destruct (nonempty s)|];
    injection Hget as <- <-; (split; [reflexivity|]); exists since; split; reflexivity.
Qed.

(** X15.  The two queries of [get_service_analytics] agree, and neither
    writes.  Asked at the same moment over the same table, the query over
    all services has a row for a service exactly when the query for this
    service counts at least one request, and that row carries the same
    total, the same counts of successes and failures and the same average
    duration; no group is empty.  Both leave the world as it is. *)
Theorem grouped_row_agrees_with_the_single_service_query
    (service : string) (days : Z) (now : datetime) (w w1 w2 : world)
    (row : service_summary) (rows : gmap string group_summary) :
  get_service_analytics (Some service) days now None w = (Returned (ForService row), w1) ->
  get_service_analytics None days now None w = (Returned (PerService rows), w2) ->
  w1 = w /\ w2 = w
  /\ (rows !! service = None <-> total_requests row = 0)
  /\ (forall g : group_summary,
         rows !! service = Some g ->
         g_total_requests g = total_requests row
         /\ g_successful_requests g = successful_requests row
         /\ g_failed_requests g = failed_requests row
         /\ g_avg_duration g = avg_duration row)
  /\ (forall (s : string) (g : group_summary), rows !! s = Some g -> 1 <= g_total_requests g).
Proof.
  intros Hone Hall.
  destruct (get_service_analytics_inv _ _ _ _ _ _ Hone) as (-> & since & Hsince & Hrow).
  destruct (get_service_analytics_inv _ _ _ _ _ _ Hall) as (-> & since' & Hsince' & Hrows).
  rewrite Hsince in Hsince'. injection Hsince' as <-.
  destruct (nonempty service); [|discriminate Hrow].
  injection Hrow as ->. injection Hrows as ->.
  split; [reflexivity|]. split; [reflexivity|].
  split; [|split].
  - rewrite group_by_service_lookup.
    destruct (where_service_since service (wall since) (tbl_operational_data w)) as [|r rest];
      simpl; split; intros Heq; try reflexivity; try discriminate Heq; lia.
  - intros g. rewrite group_by_service_lookup.
    destruct (where_service_since service (wall since) (tbl_operational_data w)) as [|r rest];
      [discriminate|].
    intros Hg. injection Hg as <-. repeat split.
  - intros s g. rewrite group_by_service_lookup.
    destruct (where_service_since s (wall since) (tbl_operational_data w)) as [|r rest];
      [discriminate|].
    intros Hg. injection Hg as <-. simpl. lia.
Qed.

Lemma grouped_row_witness :
  exists g : group_summary,
    group_by_service 1699396100000000 Fixtures.three_requests !! "svc-1"%string = Some g
    /\ g_total_requests g = 3
    /\ g_successful_requests g = Some 2.
Proof.
  destruct (grouped_row_agrees_with_the_single_service_query "svc-1" 7
              (Fixtures.at_wall 1700000900000000) Samples.busy Samples.busy Samples.busy
              (select_summary Fixtures.three_requests)
              (group_by_service 1699396100000000 Fixtures.three_requests))
    as (_ & _ & _ & Hrow & _).
  - vm_compute. reflexivity.
  - vm_compute. reflexivity.
  - exists (select_group_summary Fixtures.three_requests).
    assert (Hlookup :
              group_by_service 1699396100000000 Fixtures.three_requests !! "svc-1"%string
              = Some (select_group_summary Fixtures.three_requests))
      by (rewrite group_by_service_lookup; reflexivity).
    split; [exact Hlookup|].
    destruct (Hrow _ Hlookup) as (Htotal & Hok & _).
    rewrite Htotal, Hok. split; reflexivity.
Defined.

Lemma fold_right_pointwise {A B} (f g : A -> B -> B) (b : B) (l : list A) :
  (forall a acc, f a acc = g a acc) -> fold_right f b l = fold_right g b l.
Proof.
  intros Hfg. induction l as [|a rest IH]; simpl; [reflexivity|].
  rewrite IH. apply Hfg.
Qed.

(** Rows without a request time pass no [request_timestamp > ?]. *)
Lemma filter_untimed (keep : operational_row -> bool) (since : Z)
    (rows : list operational_row) :
  Forall (fun r => op_request_timestamp r = None) rows ->
  List.filter (fun r => keep r && Sql.after since r) rows = [].
Proof.
  induction 1 as [|r rest Hr Hrest IH]; simpl; [reflexivity|].
  unfold Sql.after at 1. rewrite Hr, andb_false_r. exact IH.
Qed.

Lemma where_service_since_untimed (s : string) (since : Z)
    (table rows : list operational_row) :
  Forall (fun r => op_request_timestamp r = None) rows ->
  where_service_since s since (table ++ rows) = where_service_since s since table.
Proof.
  intros Hrows. unfold where_service_since.
  rewrite List.filter_app, (filter_untimed _ since rows Hrows), app_nil_r. reflexivity.
Qed.

Lemma group_by_service_untimed (since : Z) (table rows : list operational_row) :
  Forall (fun r => op_request_timestamp r = None) rows ->
  group_by_service since (table ++ rows) = group_by_service since table.
Proof.
  intros Hrows. unfold group_by_service.
  assert (Hwindow :
            List.filter (Sql.after since) (table ++ rows) = List.filter (Sql.after since) table).
  { rewrite List.filter_app.
    assert (Hnone : List.filter (Sql.after since) rows = []).
    { clear -Hrows. induction Hrows as [|r rest Hr Hrest IH]; simpl; [reflexivity|].
      unfold Sql.after at 1. rewrite Hr. exact IH. }
    rewrite Hnone, app_nil_r. reflexivity. }
  rewrite Hwindow. apply fold_right_pointwise.
  intros r acc. rewrite (where_service_since_untimed _ _ _ _ Hrows). reflexivity.
Qed.

Lemma rows_without_request_time (batch : list XRoadOperationalData) :
  Forall (fun data => request_timestamp data = None) batch ->
  Forall (fun r => op_request_timestamp r = None) (omap row_of batch).
Proof.
  induction 1 as [|data rest Hdata Hrest IH]; [apply List.Forall_nil|].
  change (omap row_of (data :: rest))
    with (match row_of data with
          | Some r => r :: omap row_of rest
          | None => omap row_of rest
          end).
  destruct (row_of data) as [r|] eqn:Hrow; [|exact IH].
  apply List.Forall_cons; [|exact IH].
  unfold row_of in Hrow. destruct (service_id data), (client_id data); try discriminate Hrow.
  injection Hrow as <-. simpl. rewrite Hdata. reflexivity.
Qed.

(** X16.  Records without a request time are stored and never counted.
    A batch of records that have no [request_timestamp] (the parser leaves
    it [None] when the record has no [requestInTs]) is stored like any
    other, one row for each record with both identifiers; but no query of
    [get_service_analytics], for whatever service, period and moment, gives
    another answer after the store than before it: [request_timestamp > ?]
    is never true of a NULL. *)
Theorem records_without_request_time_are_never_counted
    (batch : list XRoadOperationalData) (w : world) :
  Forall bindable batch ->
  Forall (fun data => request_timestamp data = None) batch ->
  exists w' : world,
    _store_operational_data batch None w = (Returned tt, w')
    /\ tbl_operational_data w' = tbl_operational_data w ++ omap row_of batch
    /\ forall (service_id : option string) (days : Z) (now : datetime) (fault : option exn),
         fst (get_service_analytics service_id days now fault w')
         = fst (get_service_analytics service_id days now fault w).
Proof.
  intros Hbind Htime. unfold _store_operational_data.
  rewrite (insert_all_bindable batch Hbind). eexists. split; [reflexivity|].
  split; [reflexivity|].
  pose proof (rows_without_request_time batch Htime) as Hrows.
  intros service_id days now fault. unfold get_service_analytics, bind, lift.
  destruct fault as [e|]; [reflexivity|].
  destruct (Z.abs days <=? 999999999); [|reflexivity].
  destruct (DT.minus now (days * 86400 * 1000000)) as [since|e]; [|reflexivity].
  simpl.
  rewrite (group_by_service_untimed _ _ _ Hrows).
  destruct service_id as [s|]; [|reflexivity].
  rewrite (where_service_since_untimed _ _ _ _ Hrows).
  destruct (nonempty s); reflexivity.
Qed.

Lemma records_without_request_time_witness :
  exists w' : world,
    _store_operational_data [Fixtures.defaulted] None Samples.busy = (Returned tt, w')
    /\ length (tbl_operational_data w') = 4%nat
    /\ fst (get_service_analytics (Some "Unknown"%string) 7
              (Fixtures.at_wall 1700000900000000) None w')
       = Returned (ForService empty_summary).
Proof.
  destruct (records_without_request_time_are_never_counted [Fixtures.defaulted] Samples.busy)
    as (w' & Hstore & Htable & Hsame).
  - apply List.Forall_cons; [|apply List.Forall_nil].
    unfold bindable, fits_int64. simpl. split; [lia|]. split; [lia|]. intros d Hd.
    discriminate Hd.
  - apply List.Forall_cons; [reflexivity|apply List.Forall_nil].
  - exists w'. split; [exact Hstore|]. split; [rewrite Htable; reflexivity|].
    rewrite Hsame. vm_compute. reflexivity.
Defined.

(** ** Collections, end to end *)

(** X17.  A collection stores what the parser returns.  When the request
    can be built, the server answers with status 200 and a document the
    reader accepts, and the database takes the records, then
    [collect_operational_data] returns the records the parser made of the
    document, and has appended to the table exactly the rows of these
    records, in their order; the health table and the record of sleeps are
    untouched, and the journal has grown by the opening entry, one warning
    for each record element that was skipped, and a closing entry: a
    warning if no record came out, the count otherwise. *)
Theorem collection_stores_what_the_parser_returns {RT : Runtime}
    (self : XRoadMetricsClient) (hours_back : Z) (env : surroundings) (w : world)
    (span : Z) (start_time : datetime) (body text : string) (root : element) :
  timedelta_hours hours_back = Returned span ->
  DT.minus (clock env) span = Returned start_time ->
  _build_operational_data_request self start_time (clock env) None (request_clock env)
  = Returned body ->
  post env body = Returned {| status_code := 200; response_text := text |} ->
  ET_fromstring text = Returned root ->
  Forall bindable (parsed (record_elements root)) ->
  db_fault env = None ->
  exists (w' : world) (closing : log_record),
    collect_operational_data self hours_back env w
    = (Returned (parsed (record_elements root)), w')
    /\ tbl_operational_data w'
       = tbl_operational_data w ++ omap row_of (parsed (record_elements root))
    /\ tbl_health_data w' = tbl_health_data w
    /\ naps w' = naps w
    /\ journal w'
       = journal w
         ++ [{| lvl := INFO;
                msg := "Coletando dados operacionais de {start_time} até {end_time}";
                cause := None |}]
         ++ warnings (record_elements root)
         ++ [closing]
    /\ lvl closing = match parsed (record_elements root) with
                     | [] => WARNING
                     | _ :: _ => INFO
                     end.
Proof.
  intros Hspan Hstart Hbody Hpost Hroot Hbind Hfault.
  unfold collect_operational_data, bind, lift. rewrite Hspan, Hstart, logger_logged.
  unfold get_operational_data, bind, lift, try_catch. rewrite Hbody, Hpost. simpl.
  rewrite (parse_response_well_formed _ _ _ Hroot).
  destruct (parsed (record_elements root)) as [|r rest] eqn:Hparsed.
  - rewrite logger_logged. eexists. eexists. split; [reflexivity|]. simpl.
    rewrite app_nil_r, <- !app_assoc. repeat split.
  - rewrite Hfault. unfold _store_operational_data.
    rewrite (insert_all_bindable _ Hbind). simpl.
    eexists. eexists. split; [reflexivity|]. simpl.
    rewrite <- !app_assoc. repeat split.
Qed.

Lemma collection_witness :
  exists w' : world,
    @collect_operational_data Fixtures.host Fixtures.client 2 Samples.online empty_world
    = (Returned [Fixtures.populated; Fixtures.defaulted], w')
    /\ length (tbl_operational_data w') = 2%nat.
Proof.
  destruct (@collection_stores_what_the_parser_returns Fixtures.host Fixtures.client 2
              Samples.online empty_world 7200000000 (Fixtures.at_wall 1699993700000000)
              (match @_build_operational_data_request Fixtures.host Fixtures.client
                       (Fixtures.at_wall 1699993700000000) (clock Samples.online) None
                       (request_clock Samples.online) with
               | Returned doc => doc
               | Raised _ => EmptyString
               end)
              "<two/>" Fixtures.two_records)
    as (w' & closing & Hcollect & Htable & _).
  - reflexivity.
  - vm_compute. reflexivity.
  - vm_compute. reflexivity.
  - reflexivity.
  - reflexivity.
  - assert (Hparsed :
              @parsed Fixtures.host (record_elements Fixtures.two_records)
              = [Fixtures.populated; Fixtures.defaulted]) by (vm_compute; reflexivity).
    rewrite Hparsed.
    apply List.Forall_cons; [|apply List.Forall_cons; [|apply List.Forall_nil]];
      unfold bindable, fits_int64; simpl;
      (split; [lia|]); (split; [lia|]); intros d Hd;
      [injection Hd as <-; lia|discriminate Hd].
  - reflexivity.
  - exists w'. split; [|rewrite Htable; vm_compute; reflexivity].
    rewrite Hcollect. vm_compute. reflexivity.
Defined.

(** X18.  One malformed service empties the health collection.  When the
    server answers the health request with a document in which one service
    cannot be read, [collect_health_data] stores nothing, although the
    database works and the other services of the document are well-formed:
    the parser returns a dict without [services], so the collector takes
    the branch of the empty answer.  The journal shows the opening entry,
    the error of the parser and the warning that no health data was
    collected. *)
Theorem malformed_service_empties_the_health_collection {RT : Runtime}
    (self : XRoadMetricsClient) (env : surroundings) (w : world)
    (body text : string) (root bad : element) (e : exn) :
  orderly RT ->
  _build_health_data_request self None (request_clock env) = Returned body ->
  post env body = Returned {| status_code := 200; response_text := text |} ->
  ET_fromstring text = Returned root ->
  In bad (service_event_elements root) ->
  parse_service_event bad = Raised e ->
  exists (health_data : gmap string pyval) (w' : world) (entry : log_record),
    collect_health_data self env w = (Returned health_data, w')
    /\ health_data !! "services" = None
    /\ tbl_health_data w' = tbl_health_data w
    /\ tbl_operational_data w' = tbl_operational_data w
    /\ journal w'
       = journal w
         ++ [{| lvl := INFO; msg := "Coletando dados de saúde"; cause := None |};
             entry;
             {| lvl := WARNING; msg := "Nenhum dado de saúde coletado"; cause := None |}]
    /\ lvl entry = ERROR.
Proof.
  intros Horderly Hbody Hpost Hroot Hin Hbad.
  unfold collect_health_data, bind. rewrite logger_logged.
  unfold get_health_data, bind, lift, try_catch. rewrite Hbody, Hpost.
  cbn [status_code response_text]. rewrite Z.eqb_refl.
  match goal with
  | |- context [_parse_health_data_response text ?w1] =>
      destruct (parse_health_malformed text root bad e w1 Horderly Hroot Hin Hbad)
        as (health_data & entry & Hparse & Hlvl & Hnone)
  end.
  rewrite Hparse, Hnone, logger_logged.
  exists health_data. eexists. exists entry. split; [reflexivity|].
  split; [exact Hnone|]. simpl. rewrite <- !app_assoc.
  split; [reflexivity|]. split; [reflexivity|]. split; [reflexivity|exact Hlvl].
Qed.

Lemma health_collection_witness :
  exists (health_data : gmap string pyval) (w' : world),
    @collect_health_data Samples.host Fixtures.client Samples.sick empty_world
    = (Returned health_data, w')
    /\ tbl_health_data w' = []
    /\ length (journal w') = 3%nat.
Proof.
  destruct (@malformed_service_empties_the_health_collection Samples.host Fixtures.client
              Samples.sick empty_world
              (match _build_health_data_request Fixtures.client None
                       (request_clock Samples.sick) with
               | Returned doc => doc
               | Raised _ => EmptyString
               end)
              "<sick/>"
              (Samples.health_of [Fixtures.service_event; Samples.broken_service])
              Samples.broken_service ValueError)
    as (health_data & w' & entry & Hcollect & _ & Hhealth & _ & Hjournal & _).
  - apply utc_host_orderly.
  - vm_compute. reflexivity.
  - reflexivity.
  - reflexivity.
  - right. left. reflexivity.
  - vm_compute. reflexivity.
  - exists health_data, w'. split; [exact Hcollect|]. split; [exact Hhealth|].
    rewrite Hjournal. reflexivity.
Defined.

(** ** What writes where *)

Section Frame.
Context {RT : Runtime} {X : Type}.
Variable part : world -> X.
Hypothesis Hlogger : forall l m c, preserves part (logger l m c).
Variable self : XRoadMetricsClient.

Lemma preserves_ret {A} (a : A) : preserves part (ret a).
Proof. intros w. reflexivity. Qed.

Lemma preserves_raise {A} (e : exn) : preserves part (@raise A e).
Proof. intros w. reflexivity. Qed.

Lemma preserves_lift {A} (x : outcome A) : preserves part (lift x).
Proof. intros w. reflexivity. Qed.

Lemma preserves_bind {A B} (c : M A) (k : A -> M B) :
  preserves part c -> (forall a, preserves part (k a)) -> preserves part (bind c k).
Proof.
  intros Hc Hk w. unfold bind. specialize (Hc w).
  destruct (c w) as [[a|e] w1]; simpl in *; [|exact Hc].
  rewrite (Hk a w1). exact Hc.
Qed.

Lemma preserves_try_catch {A} (body : M A) (handler : exn -> M A) :
  preserves part body -> (forall e, preserves part (handler e)) ->
  preserves part (try_catch body handler).
Proof.
  intros Hbody Hhandler w. unfold try_catch. specialize (Hbody w).
  destruct (body w) as [[a|e] w1]; simpl in *; [exact Hbody|].
  destruct (is_Exception e); [|exact Hbody].
  rewrite (Hhandler e w1). exact Hbody.
Qed.

Lemma preserves_logged {A} (l : level) (m : string) (c : option exn) (a : A) :
  preserves part (bind (logger l m c) (fun _ => ret a)).
Proof. apply preserves_bind; [apply Hlogger|intros _; apply preserves_ret]. Qed.

Lemma preserves_for_records (records : list element) :
  forall operational_data, preserves part (for_records records operational_data).
Proof.
  induction records as [|record rest IH]; intros operational_data; simpl.
  - apply preserves_ret.
  - apply preserves_bind; [|intros grown_list; apply IH].
    apply preserves_try_catch; [|intros e; apply preserves_logged].
    apply preserves_bind; [apply preserves_lift|intros r; apply preserves_ret].
Qed.

Lemma preserves_parse_operational (response_xml : string) :
  preserves part (_parse_operational_data_response response_xml).
Proof.
  unfold _parse_operational_data_response.
  apply preserves_try_catch; [|intros e; apply preserves_logged].
  apply preserves_bind; [apply preserves_lift|intros root; apply preserves_for_records].
Qed.

Lemma preserves_or_return {A} (health_data : gmap string pyval) (step : outcome A)
    (k : A -> M (gmap string pyval)) :
  (forall a, preserves part (k a)) -> preserves part (or_return health_data step k).
Proof.
  intros Hk. unfold or_return. destruct step as [a|e]; [apply Hk|].
  apply preserves_try_catch; [apply preserves_raise|intros e'; apply preserves_logged].
Qed.

Lemma preserves_parse_health (response_xml : string) :
  preserves part (_parse_health_data_response response_xml).
Proof.
  unfold _parse_health_data_response.
  apply preserves_or_return. intros root.
  apply preserves_or_return. intros d1.
  apply preserves_or_return. intros d2.
  apply preserves_or_return. intros services. apply preserves_ret.
Qed.

Lemma preserves_get_operational_data (records_from records_to : datetime)
    (client_filter : option string) (now : datetime) (post : transport) :
  preserves part
    (get_operational_data self records_from records_to client_filter now post).
Proof.
  unfold get_operational_data.
  apply preserves_bind; [apply preserves_lift|intros soap_request].
  apply preserves_try_catch; [|intros e; apply preserves_logged].
  apply preserves_bind; [apply preserves_lift|intros response].
  destruct (status_code response =? 200);
    [apply preserves_parse_operational|apply preserves_logged].
Qed.

Lemma preserves_get_health_data (server_id : option string) (now : datetime)
    (post : transport) :
  preserves part (get_health_data self server_id now post).
Proof.
  unfold get_health_data.
  apply preserves_bind; [apply preserves_lift|intros soap_request].
  apply preserves_try_catch; [|intros e; apply preserves_logged].
  apply preserves_bind; [apply preserves_lift|intros response].
  destruct (status_code response =? 200);
    [apply preserves_parse_health|apply preserves_logged].
Qed.

Lemma preserves_collect_operational_data (hours_back : Z) (env : surroundings) :
  (forall data fault, preserves part (_store_operational_data data fault)) ->
  preserves part (collect_operational_data self hours_back env).
Proof.
  intros Hstore. unfold collect_operational_data.
  apply preserves_bind; [apply preserves_lift|intros span].
  apply preserves_bind; [apply preserves_lift|intros start_time].
  apply preserves_bind; [apply Hlogger|intros _].
  apply preserves_bind; [apply preserves_get_operational_data|intros operational_data].
  apply preserves_bind; [|intros _; apply preserves_ret].
  destruct operational_data as [|r rest]; [apply Hlogger|].
  apply preserves_bind; [apply Hstore|intros _; apply Hlogger].
Qed.

Lemma preserves_collect_health_data (env : surroundings) :
  (forall services fault, preserves part (_store_health_data services fault)) ->
  preserves part (collect_health_data self env).
Proof.
  intros Hstore. unfold collect_health_data.
  apply preserves_bind; [apply Hlogger|intros _].
  apply preserves_bind; [apply preserves_get_health_data|intros health_data].
  apply preserves_bind; [|intros _; apply preserves_ret].
  destruct (health_data !! "services") as [services|]; [|apply Hlogger].
  apply preserves_bind.
  { destruct services; first [apply preserves_ret|apply preserves_raise]. }
  intros rows. apply preserves_bind; [apply Hstore|intros _; apply Hlogger].
Qed.

End Frame.

Lemma store_operational_frame {X} (part : world -> X) :
  (forall w t, part {| tbl_operational_data := t;
                       tbl_health_data := tbl_health_data w;
                       journal := journal w;
                       naps := naps w |} = part w) ->
  forall data fault, preserves part (_store_operational_data data fault).
Proof.
  intros Hpart data fault w. unfold _store_operational_data.
  destruct fault as [e|]; [reflexivity|].
  destruct (Store.insert_all (tbl_operational_data w) data) as [t|e]; simpl;
    [apply Hpart|reflexivity].
Qed.

Lemma store_health_frame `{Runtime} {X} (part : world -> X) :
  (forall w t, part {| tbl_operational_data := tbl_operational_data w;
                       tbl_health_data := t;
                       journal := journal w;
                       naps := naps w |} = part w) ->
  forall services fault, preserves part (_store_health_data services fault).
Proof.
  intros Hpart services fault w. unfold _store_health_data.
  destruct fault as [e|]; [reflexivity|].
  destruct (Store.insert_all_health (tbl_health_data w) services) as [t|e]; simpl;
    [apply Hpart|reflexivity].
Qed.

(** X19.  Only the stores write to the tables, and each to its own.  The
    two calls to the security server (building the request, the transport,
    the parsing) change neither table and do not sleep, whether they return
    or raise; a collection of operational data leaves the health table as
    it is, a collection of health data the operational table, and neither
    sleeps. *)
Theorem only_the_stores_write {RT : Runtime} (self : XRoadMetricsClient) (w : world) :
  (forall (records_from records_to : datetime) (client_filter : option string)
          (now : datetime) (post : transport),
      same_store w
        (snd (get_operational_data self records_from records_to client_filter now post w)))
  /\ (forall (server_id : option string) (now : datetime) (post : transport),
         same_store w (snd (get_health_data self server_id now post w)))
  /\ (forall (hours_back : Z) (env : surroundings),
         tbl_health_data (snd (collect_operational_data self hours_back env w))
         = tbl_health_data w
         /\ naps (snd (collect_operational_data self hours_back env w)) = naps w)
  /\ (forall env : surroundings,
         tbl_operational_data (snd (collect_health_data self env w))
         = tbl_operational_data w
         /\ naps (snd (collect_health_data self env w)) = naps w).
Proof.
  split; [|split; [|split]].
  - intros records_from records_to client_filter now post. unfold same_store.
    split; [|split]; apply preserves_get_operational_data; intros l m c w0; reflexivity.
  - intros server_id now post. unfold same_store.
    split; [|split]; apply preserves_get_health_data; intros l m c w0; reflexivity.
  - intros hours_back env.
    split; apply preserves_collect_operational_data;
      first [intros l m c w0; reflexivity
            | apply store_operational_frame; intros w0 t; reflexivity].
  - intros env.
    split; apply preserves_collect_health_data;
      first [intros l m c w0; reflexivity
            | apply store_health_frame; intros w0 t; reflexivity].
Qed.
